(** * MissionController: a shallow embedding of helpers/MissionController.py

    The controller drives three things it does not own: an Azure Batch
    account (pools), an Azure Storage account (containers and blobs) and the
    local file system.  Each of them is modelled as a part of one explicit
    state that the controller's methods thread through; every request that
    leaves the process, and every [time.sleep], is appended to a trace, so
    that statements such as "exactly one resize request" are statements
    about that trace.  Exceptions are results: a raised exception leaves the
    state as it was at the [raise]. *)

From stdpp Require Import base gmap sets list strings.
From Stdlib Require Import ZArith Ascii.

Open Scope string_scope.
Open Scope list_scope.
Open Scope stdpp_scope.
Open Scope Z_scope.

(** ** Python strings *)

(** [s.startswith(p)] *)
Definition starts_with (p s : string) : bool := String.prefix p s.

(** [s[n:]] *)
Fixpoint str_drop (n : nat) (s : string) : string :=
  match n, s with
  | O, _ => s
  | S _, EmptyString => EmptyString
  | S n', String _ s' => str_drop n' s'
  end.

(** [s.split("/")]: never empty, [""] for the empty string. *)
Fixpoint split_slash (s : string) : list string :=
  match s with
  | EmptyString => [EmptyString]
  | String c s' =>
      if Ascii.eqb c "/" then EmptyString :: split_slash s'
      else match split_slash s' with
           | x :: xs => String c x :: xs
           | [] => [String c EmptyString]
           end
  end.

(** ["/".join(l)] *)
Fixpoint join_slash (l : list string) : string :=
  match l with
  | [] => EmptyString
  | [x] => x
  | x :: xs => x +:+ "/" +:+ join_slash xs
  end.

(** [s.replace(old, new)] for a non-empty [old]: the occurrences are replaced
    from the left and do not overlap.  The recursion is on a counter that
    starts above the length of [s]. *)
Fixpoint replace_from (n : nat) (old new s : string) : string :=
  match n with
  | O => s
  | S n' =>
      match s with
      | EmptyString => EmptyString
      | String c s' =>
          if starts_with old s
          then new +:+ replace_from n' old new (str_drop (String.length old) s)
          else String c (replace_from n' old new s')
      end
  end.

Definition str_replace (old new s : string) : string :=
  replace_from (S (String.length s)) old new s.

(** ** os.path on a POSIX system

    A normalised absolute path is the list of its segments below the root:
    [/home/u/case] is [["home"; "u"; "case"]] and the root is [[]]. *)

Definition Path : Type := list string.

Module os_path.

(** One segment of a path being resolved: [""] and ["."] stay where they
    are, [".."] climbs (and stays at the root), a name descends. *)
Definition norm_step (acc : Path) (seg : string) : Path :=
  if bool_decide (seg = "" ∨ seg = ".") then acc
  else if bool_decide (seg = "..") then removelast acc
  else acc ++ [seg].

(** The file the operating system reaches for [raw], a path that is
    absolute when it starts with a slash and relative to [start]
    otherwise. *)
Definition resolve (start : Path) (raw : string) : Path :=
  fold_left norm_step (split_slash raw)
    (if starts_with "/" raw then [] else start).

(** [os.path.abspath(os.path.normpath(raw))] in the directory [cwd]. *)
Definition abspath (cwd : Path) (raw : string) : Path := resolve cwd raw.

(** [os.path.basename] of a normalised absolute path; [""] at the root. *)
Definition basename (p : Path) : string := default "" (last p).

(** [os.path.dirname] of a normalised absolute path; the root at the root. *)
Definition dirname (p : Path) : Path := removelast p.

(** Length of the longest common prefix. *)
Fixpoint common (p q : Path) : nat :=
  match p, q with
  | x :: p', y :: q' => if bool_decide (x = y) then S (common p' q') else O
  | _, _ => O
  end.

(** [os.path.relpath(p, start)] between normalised absolute paths. *)
Definition relpath (p start : Path) : string :=
  let i := common p start in
  match (replicate (length start - i)%nat ".." ++ drop i p)%list with
  | [] => "."
  | segs => join_slash segs
  end.

(** The file reached through [os.path.join(parent, name)]. *)
Definition join (parent : Path) (name : string) : Path := resolve parent name.

(** The directory [os.path.dirname(os.path.join(parent, name))]: what
    precedes the last slash of the joined string. *)
Definition join_dirname (parent : Path) (name : string) : Path :=
  fold_left norm_step (removelast (split_slash name))
    (if starts_with "/" name then [] else parent).

End os_path.

(** ** Exceptions and results *)

Inductive RuntimeMsg : Type :=
| CaseExists (dir_base_name : string)
    (** "A case with the same base name {} already exists in the container.
        Can't upload it." *)
| NotInContainer (dir_path : Path)
    (** "Directory {} is not in the container." *)
| DeletionTimeout
    (** "The container %s has been undergoing deletion for over 600 seconds.
        Please manually check the status." *).

Inductive Exn : Type :=
| AssertionError
| RuntimeError (msg : RuntimeMsg)
| AzureConflictHttpError (error_code : string)
| AzureMissingResourceHttpError (error_code : string)
| AzureHttpError (error_code : string)
| BatchErrorException (code : string)
| UnpicklingError
| KeyError (key : string)
| FileNotFoundError (p : Path)
| IsADirectoryError (p : Path)
| FileExistsError (p : Path)
| NotADirectoryError (p : Path).

(** What a call comes to: a value, an exception, or a loop that was still
    running when the counter that bounds the model's recursion ran out. *)
Inductive Result (A : Type) : Type :=
| Return (a : A)
| Raise (e : Exn)
| Diverge.

Arguments Return {A} a.
Arguments Raise {A} e.
Arguments Diverge {A}.

(** ** The Azure Batch account: pools *)

Inductive AllocationState : Type := steady | resizing | stopping.

#[global] Instance AllocationState_eq_dec : EqDecision AllocationState.
Proof. solve_decision. Defined.

(** What [pool.get] returns, as far as the controller reads it. *)
Record CloudPool : Type := {
  target_dedicated_nodes : Z;
  allocation_state : AllocationState
}.

(** A pool as the service holds it.  After a stop-resize the pool is
    [stopping]; [unsettled_polls] is the number of further [pool.get] calls
    that still see it so before it is [steady]. *)
Record PoolEntry : Type := {
  cloud : CloudPool;
  entry_vm_size : string;
  unsettled_polls : nat
}.

Record ImageReference : Type := {
  publisher : string; offer : string; sku : string; version : string
}.

Record ContainerConfiguration : Type := {
  container_image_names : list string
}.

Record VirtualMachineConfiguration : Type := {
  image_reference : ImageReference;
  container_configuration : ContainerConfiguration;
  node_agent_sku_id : string
}.

Record PoolAddParameter : Type := {
  id : string;
  virtual_machine_configuration : VirtualMachineConfiguration;
  vm_size : string;
  add_target_dedicated_nodes : Z
}.

Record PoolResizeParameter : Type := {
  resize_target_dedicated_nodes : Z;
  node_deallocation_option : string
}.

(** ** The Azure Storage account: containers and blobs *)

(** A container is there with its blobs, or was deleted a moment ago: then
    the next [n] attempts to create it are answered "being deleted", after
    which it is gone.  A name without an entry has no container. *)
Inductive Container : Type :=
| Present (blobs : gmap string string)
| Deleting (n : nat).

Record ContainerPermissions : Type := {
  perm_read : bool; perm_write : bool; perm_delete : bool; perm_list : bool
}.

Record Storage : Type := {
  containers : gmap string Container;
  (** blob names whose upload the service refuses *)
  refused_blobs : gset string;
  protocol : string;
  primary_endpoint : string;
  (** the token the account key signs for a container, its permissions, a
      start and an expiry time *)
  sign : string → ContainerPermissions → Z → Z → string
}.

(** ** The local machine *)

Record Local : Type := {
  cwd : Path;
  files : gmap Path string;
  dirs : gset Path
}.

(** ** The controller's own fields *)

(** Modelled from the spec: helpers/MissionInfo.py is not among the sources;
    the record has the fields of the MissionDescriptor that the controller
    reads ([poolName], [jobName], [containerName], [nodeCount], [vmType]),
    under the names the controller uses for them. *)
Record MissionInfo : Type := {
  pool_name : string;
  job_name : string;
  container_name : string;
  n_nodes : Z;
  vm_type : string
}.

Record Controller : Type := {
  info : MissionInfo;
  container_token : option string;
  container_url : option string;
  uploaded_dirs : gmap string Path
}.

(** ** The trace: what leaves the process, in order *)

Inductive Event : Type :=
| EvPoolExists (pool_id : string)
| EvPoolGet (pool_id : string) (reply : option CloudPool)
| EvPoolStopResize (pool_id : string)
| EvPoolResize (pool_id : string) (param : PoolResizeParameter)
| EvPoolAdd (conf : PoolAddParameter)
| EvSleep (secs : Z)
| EvCreateContainer (name : string) (fail_on_exist : bool)
| EvBlobExists (name blob_name : string)
| EvGetBlob (name blob_name : string) (file_path : Path)
| EvCreateBlob (name blob_name : string) (file_path : Path)
| EvListBlobs (name prefix : string) (num_results : Z)
| EvDeleteBlob (name blob_name : string).

(** ** The state and the monad of the controller's methods *)

Record State : Type := {
  self : Controller;
  batch : gmap string PoolEntry;
  storage : Storage;
  local : Local;
  (** seconds, UTC *)
  clock : Z;
  trace : list Event
}.

Definition with_self (f : Controller → Controller) (st : State) : State :=
  {| self := f (self st); batch := batch st; storage := storage st;
     local := local st; clock := clock st; trace := trace st |}.

Definition with_batch (f : gmap string PoolEntry → gmap string PoolEntry)
    (st : State) : State :=
  {| self := self st; batch := f (batch st); storage := storage st;
     local := local st; clock := clock st; trace := trace st |}.

Definition with_storage (f : Storage → Storage) (st : State) : State :=
  {| self := self st; batch := batch st; storage := f (storage st);
     local := local st; clock := clock st; trace := trace st |}.

Definition with_local (f : Local → Local) (st : State) : State :=
  {| self := self st; batch := batch st; storage := storage st;
     local := f (local st); clock := clock st; trace := trace st |}.

Definition with_clock (f : Z → Z) (st : State) : State :=
  {| self := self st; batch := batch st; storage := storage st;
     local := local st; clock := f (clock st); trace := trace st |}.

Definition with_trace (f : list Event → list Event) (st : State) : State :=
  {| self := self st; batch := batch st; storage := storage st;
     local := local st; clock := clock st; trace := f (trace st) |}.

Definition set_container_token (t : option string) (c : Controller) : Controller :=
  {| info := info c; container_token := t; container_url := container_url c;
     uploaded_dirs := uploaded_dirs c |}.

Definition set_container_url (u : option string) (c : Controller) : Controller :=
  {| info := info c; container_token := container_token c; container_url := u;
     uploaded_dirs := uploaded_dirs c |}.

Definition set_uploaded_dirs (d : gmap string Path) (c : Controller) : Controller :=
  {| info := info c; container_token := container_token c;
     container_url := container_url c; uploaded_dirs := d |}.

Definition set_containers (cs : gmap string Container) (s : Storage) : Storage :=
  {| containers := cs; refused_blobs := refused_blobs s; protocol := protocol s;
     primary_endpoint := primary_endpoint s; sign := sign s |}.

Definition set_files (fs : gmap Path string) (l : Local) : Local :=
  {| cwd := cwd l; files := fs; dirs := dirs l |}.

Definition set_dirs (ds : gset Path) (l : Local) : Local :=
  {| cwd := cwd l; files := files l; dirs := ds |}.

Definition M (A : Type) : Type := State → Result A * State.

#[global] Instance M_ret : MRet M := λ A a st, (Return a, st).

#[global] Instance M_bind : MBind M := λ A B f m st,
  match m st with
  | (Return a, st') => f a st'
  | (Raise e, st') => (Raise e, st')
  | (Diverge, st') => (Diverge, st')
  end.

Definition raise {A : Type} (e : Exn) : M A := λ st, (Raise e, st).
Definition diverge {A : Type} : M A := λ st, (Diverge, st).
Definition gets {A : Type} (f : State → A) : M A := λ st, (Return (f st), st).
Definition modify (f : State → State) : M unit := λ st, (Return tt, f st).
Definition log (ev : Event) : M unit := modify (with_trace (λ t, t ++ [ev])).

(** [assert cond] *)
Definition py_assert (cond : bool) : M unit :=
  if cond then mret tt else raise AssertionError.

(** [for x in l: body(x)] *)
Fixpoint for_each {A : Type} (l : list A) (body : A → M unit) : M unit :=
  match l with
  | [] => mret tt
  | x :: l' => body x ;; for_each l' body
  end.

(** [time.sleep(secs)] *)
Definition sleep (secs : Z) : M unit :=
  log (EvSleep secs) ;; modify (with_clock (λ t, t + secs)).

(** [try: body  except Exception as err: handler(err)]; a handler re-raises
    what it does not handle. *)
Definition catch {A : Type} (body : M A) (handler : Exn → M A) : M A := λ st,
  match body st with
  | (Raise e, st') => handler e st'
  | other => other
  end.

(** ** azure.batch: [batch_client.pool] *)

Module pool.

(** The pool as the next [get] finds it: a stopping pool settles after
    [unsettled_polls] further looks. *)
Definition observe (p : PoolEntry) : PoolEntry :=
  match allocation_state (cloud p), unsettled_polls p with
  | stopping, O =>
      {| cloud := {| target_dedicated_nodes := target_dedicated_nodes (cloud p);
                     allocation_state := steady |};
         entry_vm_size := entry_vm_size p; unsettled_polls := O |}
  | stopping, S n =>
      {| cloud := cloud p; entry_vm_size := entry_vm_size p;
         unsettled_polls := n |}
  | _, _ => p
  end.

Definition set_state (a : AllocationState) (p : PoolEntry) : PoolEntry :=
  {| cloud := {| target_dedicated_nodes := target_dedicated_nodes (cloud p);
                 allocation_state := a |};
     entry_vm_size := entry_vm_size p; unsettled_polls := unsettled_polls p |}.

Definition set_target (n : Z) (p : PoolEntry) : PoolEntry :=
  {| cloud := {| target_dedicated_nodes := n;
                 allocation_state := allocation_state (cloud p) |};
     entry_vm_size := entry_vm_size p; unsettled_polls := unsettled_polls p |}.

(** [pool.exists(pool_id)] *)
Definition exists_ (pool_id : string) : M bool :=
  log (EvPoolExists pool_id) ;;
  gets (λ st, bool_decide (is_Some (batch st !! pool_id))).

(** [pool.get(pool_id)] *)
Definition get (pool_id : string) : M CloudPool :=
  found ← gets (λ st, batch st !! pool_id);
  match found with
  | None =>
      log (EvPoolGet pool_id None) ;;
      raise (BatchErrorException "PoolNotFound")
  | Some p =>
      log (EvPoolGet pool_id (Some (cloud (observe p)))) ;;
      modify (with_batch (insert pool_id (observe p))) ;;
      mret (cloud (observe p))
  end.

(** [pool.stop_resize(pool_id)]: a resizing pool starts stopping. *)
Definition stop_resize (pool_id : string) : M unit :=
  log (EvPoolStopResize pool_id) ;;
  found ← gets (λ st, batch st !! pool_id);
  match found with
  | None => raise (BatchErrorException "PoolNotFound")
  | Some p =>
      if bool_decide (allocation_state (cloud p) = resizing)
      then modify (with_batch (insert pool_id (set_state stopping p)))
      else mret tt
  end.

(** [pool.resize(pool_id, pool_resize_parameter)]: the service accepts a
    resize of a steady pool only. *)
Definition resize (pool_id : string) (param : PoolResizeParameter) : M unit :=
  log (EvPoolResize pool_id param) ;;
  found ← gets (λ st, batch st !! pool_id);
  match found with
  | None => raise (BatchErrorException "PoolNotFound")
  | Some p =>
      if bool_decide (allocation_state (cloud p) = steady)
      then modify (with_batch (insert pool_id
             (set_state resizing
                (set_target (resize_target_dedicated_nodes param) p))))
      else raise (BatchErrorException "PoolBeingResized")
  end.

(** [pool.add(pool)]: a new pool starts resizing towards its target. *)
Definition add (conf : PoolAddParameter) : M unit :=
  log (EvPoolAdd conf) ;;
  found ← gets (λ st, batch st !! id conf);
  match found with
  | Some _ => raise (BatchErrorException "PoolExists")
  | None =>
      modify (with_batch (insert (id conf)
        {| cloud := {| target_dedicated_nodes := add_target_dedicated_nodes conf;
                       allocation_state := resizing |};
           entry_vm_size := vm_size conf; unsettled_polls := O |}))
  end.

End pool.

(** ** The local file system: [open], [os.remove], [os.makedirs],
    [os.path.isdir], [os.walk] *)

Module os.

Definition isdir_in (l : Local) (p : Path) : bool :=
  bool_decide (p = [] ∨ p ∈ dirs l).

(** [os.path.isdir(p)] *)
Definition isdir (p : Path) : M bool := gets (λ st, isdir_in (local st) p).

(** The path a string names in the working directory. *)
Definition local_path (raw : string) : M Path :=
  gets (λ st, os_path.resolve (cwd (local st)) raw).

(** [open(p, "rb").read()] *)
Definition read_file (p : Path) : M string :=
  found ← gets (λ st, files (local st) !! p);
  match found with
  | Some content => mret content
  | None => raise (FileNotFoundError p)
  end.

(** [open(p, "wb").write(content)]: the file is created or overwritten in
    a directory that exists. *)
Definition write_file (p : Path) (content : string) : M unit :=
  l ← gets local;
  if isdir_in l p then raise (IsADirectoryError p)
  else if negb (isdir_in l (os_path.dirname p)) then raise (FileNotFoundError p)
  else modify (with_local (set_files (<[p := content]> (files l)))).

(** [os.remove(p)] *)
Definition remove (p : Path) : M unit :=
  l ← gets local;
  if bool_decide (is_Some (files l !! p))
  then modify (with_local (set_files (delete p (files l))))
  else raise (FileNotFoundError p).

(** The non-empty prefixes of a path, the path itself last. *)
Definition prefixes (p : Path) : list Path :=
  (λ n, take n p) <$> seq 1 (length p).

(** [os.makedirs(p)]: the directory and its missing ancestors are made; it
    is an error when [p] is there already or a file is in the way. *)
Definition makedirs (p : Path) : M unit :=
  l ← gets local;
  if bool_decide (isdir_in l p = true ∨ is_Some (files l !! p))
  then raise (FileExistsError p)
  else if bool_decide (Exists (λ q, is_Some (files l !! q)) (prefixes p))
  then raise (NotADirectoryError p)
  else modify (with_local (set_dirs (dirs l ∪ list_to_set (prefixes p)))).

(** The names of the files that lie directly in directory [d]. *)
Definition listdir_files (l : Local) (d : Path) : list string :=
  omap (λ p, if bool_decide (p ≠ [] ∧ os_path.dirname p = d)
             then last p else None)
       (fst <$> map_to_list (files l)).

(** What [os.walk(top)] yields, top-down and without the sub-directory
    names: each directory at or below [top] with the names of its files.
    Nothing is yielded when [top] is not a directory. *)
Definition walk_in (l : Local) (top : Path) : list (Path * list string) :=
  if isdir_in l top
  then (λ d, (d, listdir_files l d)) <$>
         (top :: filter (λ d, top `prefix_of` d ∧ d ≠ top) (elements (dirs l)))
  else [].

(** [os.walk(top)] *)
Definition walk (top : Path) : M (list (Path * list string)) :=
  gets (λ st, walk_in (local st) top).

End os.

(** ** azure.storage.blob: [storage_client] (the block blob service) *)

Module storage_client.

Definition blobs_of (s : Storage) (name : string) : option (gmap string string) :=
  match containers s !! name with
  | Some (Present blobs) => Some blobs
  | _ => None
  end.

(** The blobs of a container that is there; a request on a container that
    is not fails. *)
Definition require_container (name : string) : M (gmap string string) :=
  found ← gets (λ st, blobs_of (storage st) name);
  match found with
  | Some blobs => mret blobs
  | None => raise (AzureMissingResourceHttpError "ContainerNotFound")
  end.

Definition put_blobs (name : string) (blobs : gmap string string) : M unit :=
  modify (with_storage (λ s, set_containers (<[name := Present blobs]> (containers s)) s)).

(** [create_container(container_name, fail_on_exist)]: [True] when the
    container was created; a conflict ("already exists", "being deleted")
    is raised when [fail_on_exist] and answered [False] otherwise. *)
Definition create_container (name : string) (fail_on_exist : bool) : M bool :=
  log (EvCreateContainer name fail_on_exist) ;;
  found ← gets (λ st, containers (storage st) !! name);
  match found with
  | None | Some (Deleting O) => put_blobs name ∅ ;; mret true
  | Some (Deleting (S n)) =>
      modify (with_storage (λ s,
        set_containers (<[name := Deleting n]> (containers s)) s)) ;;
      if fail_on_exist
      then raise (AzureConflictHttpError "ContainerBeingDeleted")
      else mret false
  | Some (Present _) =>
      if fail_on_exist
      then raise (AzureConflictHttpError "ContainerAlreadyExists")
      else mret false
  end.

(** [exists(container_name, blob_name)] *)
Definition exists_ (name blob_name : string) : M bool :=
  log (EvBlobExists name blob_name) ;;
  gets (λ st, match blobs_of (storage st) name with
              | Some blobs => bool_decide (is_Some (blobs !! blob_name))
              | None => false
              end).

(** [get_blob_to_path(container_name, blob_name, file_path)]: the local
    file is opened for writing, then the blob is fetched into it. *)
Definition get_blob_to_path (name blob_name : string) (file_path : Path) : M unit :=
  os.write_file file_path "" ;;
  log (EvGetBlob name blob_name file_path) ;;
  blobs ← require_container name;
  match blobs !! blob_name with
  | Some content => os.write_file file_path content
  | None => raise (AzureMissingResourceHttpError "BlobNotFound")
  end.

(** [create_blob_from_path(container_name, blob_name, file_path)]: the
    local file is read, then stored under [blob_name], replacing what was
    there. *)
Definition create_blob_from_path (name blob_name : string) (file_path : Path) : M unit :=
  content ← os.read_file file_path;
  log (EvCreateBlob name blob_name file_path) ;;
  blobs ← require_container name;
  refused ← gets (λ st, refused_blobs (storage st));
  if bool_decide (blob_name ∈ refused)
  then raise (AzureHttpError "InternalError")
  else put_blobs name (<[blob_name := content]> blobs).

(** [list_blobs(container_name, prefix, num_results)]: the names of at most
    [num_results] blobs whose name starts with [prefix]. *)
Definition list_blobs (name prefix : string) (num_results : Z) : M (list string) :=
  log (EvListBlobs name prefix num_results) ;;
  blobs ← require_container name;
  mret (take (Z.to_nat num_results)
          (filter (λ b, starts_with prefix b = true) (fst <$> map_to_list blobs))).

(** [delete_blob(container_name, blob_name)] *)
Definition delete_blob (name blob_name : string) : M unit :=
  log (EvDeleteBlob name blob_name) ;;
  blobs ← require_container name;
  if bool_decide (is_Some (blobs !! blob_name))
  then put_blobs name (delete blob_name blobs)
  else raise (AzureMissingResourceHttpError "BlobNotFound").

(** [generate_container_shared_access_signature(container_name,
    permission, start, expiry)]: signed locally, nothing is sent. *)
Definition generate_container_shared_access_signature
    (name : string) (permission : ContainerPermissions) (start expiry : Z) : M string :=
  gets (λ st, sign (storage st) name permission start expiry).

(** [make_container_url(container_name, sas_token)] *)
Definition make_container_url (name sas_token : string) : M string :=
  gets (λ st,
    protocol (storage st) +:+ "://" +:+ primary_endpoint (storage st) +:+ "/"
    +:+ name +:+ "?restype=container"
    +:+ (if bool_decide (sas_token = "") then "" else "&" +:+ sas_token)).

End storage_client.

(** ** pickle

    The ledger is written with [pickle.dumps] and read back with
    [pickle.loads]; the controller relies on nothing else about the format,
    so the two are the operations of a class. *)

Class Pickle : Type := {
  pickle_dumps : gmap string Path → string;
  pickle_loads : string → option (gmap string Path)
}.

(** A format is lawful when what was dumped loads back. *)
Definition pickle_lawful `{Pickle} : Prop :=
  ∀ d, pickle_loads (pickle_dumps d) = Some d.

(** A format for examples: the binary digits of the number that stdpp's
    [Countable] instance gives the ledger. *)
Fixpoint digits_of_pos (p : positive) : string :=
  match p with
  | xH => ""
  | xO q => String "0" (digits_of_pos q)
  | xI q => String "1" (digits_of_pos q)
  end.

Fixpoint pos_of_digits (s : string) : option positive :=
  match s with
  | EmptyString => Some xH
  | String c s' =>
      q ← pos_of_digits s';
      if Ascii.eqb c "0" then Some (xO q)
      else if Ascii.eqb c "1" then Some (xI q)
      else None
  end.

Definition digits_pickle : Pickle := {|
  pickle_dumps d := digits_of_pos (encode d);
  pickle_loads s := pos_of_digits s ≫= decode
|}.

(** ** MissionController

    The methods read [self] from the state.  Calls to [logging] have no
    effect that a method or a service can see and are left out. *)

Section MissionController.

Context `{Pickle}.

Definition self_info : M MissionInfo := gets (λ st, info (self st)).

(** [__init__]: no container session, an empty ledger. *)
Definition init (mission_info : MissionInfo) : Controller :=
  {| info := mission_info; container_token := None; container_url := None;
     uploaded_dirs := ∅ |}.

(** [while pool_info.allocation_state is not pool_steady:
       time.sleep(2); pool_info = self.batch_client.pool.get(...)] *)
Fixpoint wait_steady (fuel : nat) (pool_id : string) (pool_info : CloudPool)
    : M CloudPool :=
  if bool_decide (allocation_state pool_info ≠ steady) then
    match fuel with
    | O => diverge
    | S fuel' =>
        sleep 2 ;;
        pool_info' ← pool.get pool_id;
        wait_steady fuel' pool_id pool_info'
    end
  else mret pool_info.

(** [_create_pool]: "Create a pool on Azure based on the mission info." *)
Definition _create_pool (fuel : nat) : M unit :=
  i ← self_info;
  there ← pool.exists_ (pool_name i);
  if (there : bool) then
    pool_info ← pool.get (pool_name i);
    if bool_decide (target_dedicated_nodes pool_info ≠ n_nodes i) then
      (if bool_decide (allocation_state pool_info = resizing) then
         pool.stop_resize (pool_name i) ;;
         wait_steady fuel (pool_name i) pool_info
       else mret pool_info) ;;
      pool.resize (pool_name i)
        {| resize_target_dedicated_nodes := n_nodes i;
           node_deallocation_option := "requeue" |}
    else mret tt
  else
    let image :=
      {| publisher := "microsoft-azure-batch";
         offer := "ubuntu-server-container";
         sku := "16-04-lts";
         version := "latest" |} in
    let container_conf :=
      {| container_image_names := ["barbagroup/landspill:applications"] |} in
    let vm_conf :=
      {| image_reference := image;
         container_configuration := container_conf;
         node_agent_sku_id := "batch.node.ubuntu 16.04" |} in
    let pool_conf :=
      {| id := pool_name i;
         virtual_machine_configuration := vm_conf;
         vm_size := vm_type i;
         add_target_dedicated_nodes := n_nodes i |} in
    pool.add pool_conf.

(** [while not created: time.sleep(5); created = create_container(...,
       fail_on_exist=False); counter += 1; if counter > 120: raise ...] *)
Fixpoint retry_create (fuel : nat) (name : string) (created : bool) (counter : Z)
    : M unit :=
  if negb created then
    match fuel with
    | O => diverge
    | S fuel' =>
        sleep 5 ;;
        created' ← storage_client.create_container name false;
        let counter' := counter + 1 in
        if bool_decide (counter' > 120)
        then raise (RuntimeError DeletionTimeout)
        else retry_create fuel' name created' counter'
    end
  else mret tt.

(** [_create_storage_container]: "Create a blob container for this
    mission." *)
Definition _create_storage_container (fuel : nat) : M unit :=
  i ← self_info;
  catch
    (storage_client.create_container (container_name i) true ;; mret tt)
    (λ err,
      match err with
      | AzureConflictHttpError error_code =>
          if bool_decide (error_code = "ContainerAlreadyExists") then
            there ← storage_client.exists_ (container_name i) "uploaded_dirs.dat";
            if (there : bool) then
              scratch ← os.local_path "uploaded_dirs.dat";
              storage_client.get_blob_to_path
                (container_name i) "uploaded_dirs.dat" scratch ;;
              content ← os.read_file scratch;
              match pickle_loads content with
              | Some d =>
                  modify (with_self (set_uploaded_dirs d)) ;;
                  os.remove scratch
              | None => raise UnpicklingError
              end
            else mret tt
          else if bool_decide (error_code = "ContainerBeingDeleted") then
            retry_create fuel (container_name i) false 0
          else raise err
      | _ => raise err
      end) ;;
  current_utc_time ← gets clock;
  token ← storage_client.generate_container_shared_access_signature
    (container_name i)
    {| perm_read := true; perm_write := true; perm_delete := true;
       perm_list := true |}
    current_utc_time (current_utc_time + 86400);
  modify (with_self (set_container_token (Some token))) ;;
  url ← storage_client.make_container_url (container_name i) token;
  modify (with_self (set_container_url (Some url))) ;;
  modify (with_self (set_container_url
    (Some (str_replace "restype=container&" "" url)))).

(** [d[key]] *)
Definition dict_get (d : gmap string Path) (key : string) : M Path :=
  match d !! key with
  | Some v => mret v
  | None => raise (KeyError key)
  end.

(** The ledger is pickled into a local file, that file is uploaded as the
    blob [uploaded_dirs.dat], and the local file is removed. *)
Definition persist_uploaded_dirs : M unit :=
  i ← self_info;
  scratch ← os.local_path "uploaded_dirs.dat";
  d ← gets (λ st, uploaded_dirs (self st));
  os.write_file scratch (pickle_dumps d) ;;
  storage_client.create_blob_from_path
    (container_name i) "uploaded_dirs.dat" scratch ;;
  os.remove scratch.

(** [_upload_dir]: "Upload a directory to the mission container." *)
Definition _upload_dir (dir_path : string) : M unit :=
  i ← self_info;
  dir_path ← gets (λ st, os_path.abspath (cwd (local st)) dir_path);
  let dir_base_name := os_path.basename dir_path in
  d ← gets (λ st, uploaded_dirs (self st));
  if bool_decide (is_Some (d !! dir_base_name)) then
    raise (RuntimeError (CaseExists dir_base_name))
  else
    url ← gets (λ st, container_url (self st));
    py_assert (bool_decide (url ≠ None)) ;;
    token ← gets (λ st, container_token (self st));
    py_assert (bool_decide (token ≠ None)) ;;
    walked ← os.walk dir_path;
    for_each walked (λ '(dirpath, files),
      for_each files (λ f,
        let file_path := os_path.join dirpath f in
        let blob_name := os_path.relpath file_path (os_path.dirname dir_path) in
        storage_client.create_blob_from_path
          (container_name i) blob_name file_path)) ;;
    modify (with_self (λ c,
      set_uploaded_dirs
        (<[dir_base_name := os_path.dirname dir_path]> (uploaded_dirs c)) c)) ;;
    persist_uploaded_dirs.

(** [_download_dir]: "Download a directory from the mission blob
    container." *)
Definition _download_dir (dir_path : string) (ignore_not_exist : bool) : M unit :=
  i ← self_info;
  dir_path ← gets (λ st, os_path.abspath (cwd (local st)) dir_path);
  let dir_base_name := os_path.basename dir_path in
  url ← gets (λ st, container_url (self st));
  py_assert (bool_decide (url ≠ None)) ;;
  token ← gets (λ st, container_token (self st));
  py_assert (bool_decide (token ≠ None)) ;;
  d ← gets (λ st, uploaded_dirs (self st));
  if negb (bool_decide (is_Some (d !! dir_base_name))) then
    if negb ignore_not_exist then
      raise (RuntimeError (NotInContainer dir_path))
    else mret tt
  else
    blob_list ← storage_client.list_blobs
      (container_name i) (dir_base_name +:+ "/") 50000;
    for_each blob_list (λ blob_name,
      d ← gets (λ st, uploaded_dirs (self st));
      parent ← dict_get d dir_base_name;
      let file_abs_path := os_path.join parent blob_name in
      there ← os.isdir (os_path.join_dirname parent blob_name);
      (if negb (there : bool) then os.makedirs (os_path.join_dirname parent blob_name)
       else mret tt) ;;
      storage_client.get_blob_to_path (container_name i) blob_name file_abs_path).

(** [_delete_dir]: "Delete a directory from the mission's container." *)
Definition _delete_dir (dir_path : string) (ignore_not_exist : bool) : M unit :=
  i ← self_info;
  dir_path ← gets (λ st, os_path.abspath (cwd (local st)) dir_path);
  let dir_base_name := os_path.basename dir_path in
  url ← gets (λ st, container_url (self st));
  py_assert (bool_decide (url ≠ None)) ;;
  token ← gets (λ st, container_token (self st));
  py_assert (bool_decide (token ≠ None)) ;;
  d ← gets (λ st, uploaded_dirs (self st));
  if negb (bool_decide (is_Some (d !! dir_base_name))) then
    if negb ignore_not_exist then
      raise (RuntimeError (NotInContainer dir_path))
    else mret tt
  else
    blob_list ← storage_client.list_blobs
      (container_name i) (dir_base_name +:+ "/") 50000;
    for_each blob_list (λ blob_name,
      storage_client.delete_blob (container_name i) blob_name) ;;
    d ← gets (λ st, uploaded_dirs (self st));
    dict_get d dir_base_name ;;
    modify (with_self (set_uploaded_dirs (delete dir_base_name d))) ;;
    persist_uploaded_dirs.

End MissionController.

(** ** Vocabulary of the statements *)

(** The container session of the controller is established: both the URL
    and the token are there. *)
Definition session_established (st : State) : Prop :=
  container_url (self st) ≠ None ∧ container_token (self st) ≠ None.

(** The normalised absolute path that a method makes of its argument. *)
Definition case_path (st : State) (dir_path : string) : Path :=
  os_path.abspath (cwd (local st)) dir_path.

(** The blobs of the mission's container, when it is there. *)
Definition mission_blobs (st : State) : option (gmap string string) :=
  storage_client.blobs_of (storage st) (container_name (info (self st))).

(** The local file into which the ledger is pickled. *)
Definition scratch_path (st : State) : Path :=
  os_path.resolve (cwd (local st)) "uploaded_dirs.dat".

(** The ledger file can be written: the working directory is a directory
    and no directory has the file's name. *)
Definition scratch_writable (st : State) : Prop :=
  os.isdir_in (local st) (scratch_path st) = false ∧
  os.isdir_in (local st) (os_path.dirname (scratch_path st)) = true.

(** The parameter with which [_create_pool] asks for the mission's pool. *)
Definition pool_conf (i : MissionInfo) : PoolAddParameter :=
  {| id := pool_name i;
     virtual_machine_configuration :=
       {| image_reference :=
            {| publisher := "microsoft-azure-batch";
               offer := "ubuntu-server-container";
               sku := "16-04-lts";
               version := "latest" |};
          container_configuration :=
            {| container_image_names := ["barbagroup/landspill:applications"] |};
          node_agent_sku_id := "batch.node.ubuntu 16.04" |};
     vm_size := vm_type i;
     add_target_dedicated_nodes := n_nodes i |}.

(** The resize that [_create_pool] asks for. *)
Definition resize_request (i : MissionInfo) : Event :=
  EvPoolResize (pool_name i)
    {| resize_target_dedicated_nodes := n_nodes i;
       node_deallocation_option := "requeue" |}.

(** What the trace shows of a wait of [k + 1] looks at a stopping pool: [k]
    times a sleep of two seconds and a pool that is still stopping, then a
    sleep and the pool reported steady. *)
Definition steady_wait (pool_id : string) (target : Z) (k : nat) : list Event :=
  concat (replicate k
    [EvSleep 2;
     EvPoolGet pool_id (Some {| target_dedicated_nodes := target;
                                allocation_state := stopping |})])
  ++ [EvSleep 2;
      EvPoolGet pool_id (Some {| target_dedicated_nodes := target;
                                 allocation_state := steady |})].

(** What the trace shows of [k] retried creations: each a sleep of five
    seconds and then an attempt that does not fail on "exists". *)
Definition retry_trace (name : string) (k : nat) : list Event :=
  concat (replicate k [EvSleep 5; EvCreateContainer name false]).

Definition is_pool_add (ev : Event) : bool :=
  match ev with EvPoolAdd _ => true | _ => false end.

Definition is_pool_resize (ev : Event) : bool :=
  match ev with EvPoolResize _ _ => true | _ => false end.

Definition is_create_container (ev : Event) : bool :=
  match ev with EvCreateContainer _ _ => true | _ => false end.

(** A string of [n] letters. *)
Fixpoint letters (n : nat) : string :=
  match n with
  | O => ""
  | S k => String "x" (letters k)
  end.

(** ** A mission to run the model on

    The case directory of the specification's example, [/home/u/case] with
    the files [a.txt] and [sub/b.txt], on a machine whose working directory
    is [/home/u]; a storage account without containers, a batch account
    without pools. *)

Module Example.

Definition mission : MissionInfo :=
  {| pool_name := "pool"; job_name := "job"; container_name := "mission";
     n_nodes := 4; vm_type := "STANDARD_A1" |}.

Definition account : Storage :=
  {| containers := ∅; refused_blobs := ∅; protocol := "https";
     primary_endpoint := "account.blob.core.windows.net";
     sign := λ name _ _ _, "sig=" +:+ name |}.

Definition machine : Local :=
  {| cwd := ["home"; "u"];
     files := {[ ["home"; "u"; "case"; "a.txt"] := "alpha";
                 ["home"; "u"; "case"; "sub"; "b.txt"] := "beta" ]};
     dirs := {[ ["home"]; ["home"; "u"]; ["home"; "u"; "case"];
                ["home"; "u"; "case"; "sub"] ]} |}.

(** The controller as [__init__] leaves it. *)
Definition fresh : State :=
  {| self := init mission; batch := ∅; storage := account; local := machine;
     clock := 1000; trace := [] |}.

(** After [_create_storage_container]: the container and the session. *)
Definition provisioned : State :=
  (@_create_storage_container digits_pickle 0 fresh).2.

(** After [_upload_dir "case"] as well. *)
Definition staged : State :=
  (@_upload_dir digits_pickle "case" provisioned).2.

(** The blobs of the container after that. *)
Definition staged_blobs : gmap string string :=
  default ∅ (mission_blobs staged).

(** The process is started again: a new controller meets the container
    and the blobs that the old one left. *)
Definition restarted : State :=
  with_self (λ c, init (info c)) staged.

(** A ledger that knows the case, in a controller without a session. *)
Definition sessionless : State :=
  with_self (set_uploaded_dirs {[ "case" := ["home"; "u"] ]}) fresh.

(** A pool of two nodes in the middle of a resize that takes three more
    looks to stop. *)
Definition resizing_pool : State :=
  with_batch (λ _, {[ "pool" :=
    {| cloud := {| target_dedicated_nodes := 2; allocation_state := resizing |};
       entry_vm_size := "STANDARD_A1"; unsettled_polls := 3 |} ]}) fresh.

(** The mission's container was deleted and answers the next [n] creation
    attempts with "being deleted". *)
Definition being_deleted (n : nat) : State :=
  with_storage (set_containers {[ "mission" := Deleting n ]}) fresh.

(** The blobs of a case with many result files, [case/], [case/x],
    [case/xx] and so on; 50001 of them. *)
Definition crowd_name (n : nat) : string := "case/" +:+ letters n.

Definition crowd_of (n : nat) : gmap string string :=
  list_to_map ((λ k, (crowd_name k, "data")) <$> seq 0 n).

Definition crowd : gmap string string := crowd_of (Z.to_nat 50001).

(** A controller with a session and the case in its ledger, on a container
    that holds those blobs. *)
Definition crowded : State :=
  {| self := {| info := mission;
                container_token := Some "sig=mission";
                container_url :=
                  Some "https://account.blob.core.windows.net/mission?sig=mission";
                uploaded_dirs := {[ "case" := ["home"; "u"] ]} |};
     batch := ∅;
     storage := set_containers {[ "mission" := Present crowd ]} account;
     local := machine;
     clock := 1000;
     trace := [] |}.

(** Another machine: the same working directory, no file and no
    directory. *)
Definition empty_disk : Local :=
  {| cwd := ["home"; "u"]; files := ∅; dirs := ∅ |}.

(** The same state with a storage service that refuses the upload of the
    ledger blob. *)
Definition refusing_ledger (st : State) : State :=
  with_storage (λ s,
    {| containers := containers s;
       refused_blobs := {[ "uploaded_dirs.dat" ]};
       protocol := protocol s; primary_endpoint := primary_endpoint s;
       sign := sign s |}) st.

(** A case directory with many result files, [case/f], [case/fx],
    [case/fxx] and so on. *)
Definition result_file (n : nat) : Path :=
  ["home"; "u"; "case"; String "f" (letters n)].

Definition results_disk_of (n : nat) : Local :=
  {| cwd := ["home"; "u"];
     files := list_to_map ((λ k, (result_file k, "data")) <$> seq 0 n);
     dirs := {[ ["home"]; ["home"; "u"]; ["home"; "u"; "case"] ]} |}.

(** 50001 of them. *)
Definition results_disk : Local := results_disk_of (Z.to_nat 50001).

(** A controller with a session and an empty ledger, an empty container,
    and that case directory on the machine. *)
Definition many_results : State :=
  {| self := {| info := mission;
                container_token := Some "sig=mission";
                container_url :=
                  Some "https://account.blob.core.windows.net/mission?sig=mission";
                uploaded_dirs := ∅ |};
     batch := ∅;
     storage := set_containers {[ "mission" := Present ∅ ]} account;
     local := results_disk;
     clock := 1000;
     trace := [] |}.

End Example.

(** A string with a slash in it. *)
Fixpoint has_slash (s : string) : bool :=
  match s with
  | EmptyString => false
  | String c s' => Ascii.eqb c "/" || has_slash s'
  end.

(** A name that a directory entry can have. *)
Definition valid_segment (s : string) : Prop :=
  s ≠ "" ∧ s ≠ "." ∧ s ≠ ".." ∧ has_slash s = false.

(** The names that a listing of the blobs under [prefix] goes through, before
    the limit on the number of results applies. *)
Definition blobs_under (prefix : string) (blobs : gmap string string) : list string :=
  filter (λ b, starts_with prefix b = true) (fst <$> map_to_list blobs).

(** The blob name prefix of a case: its base name and a slash. *)
Definition case_prefix (st : State) (dir_path : string) : string :=
  os_path.basename (case_path st dir_path) +:+ "/".

(** The blobs that are left when those of a list of names are deleted. *)
Definition delete_all (names : list string) (blobs : gmap string string)
    : gmap string string :=
  fold_left (λ m b, delete b m) names blobs.

(** Between two states the services differ in the blobs of the mission's
    container at most, and neither the controller nor the local machine has
    changed. *)
Definition only_blobs_changed (st st' : State) (blobs' : gmap string string) : Prop :=
  self st' = self st ∧
  local st' = local st ∧
  refused_blobs (storage st') = refused_blobs (storage st) ∧
  containers (storage st')
  = <[container_name (info (self st)) := Present blobs']> (containers (storage st)).

(** ** The local file system as a tree

    [file_ok]: a file has a path of directory-entry names, lies in a
    directory, and is not itself a directory.  [fs_wf]: every file is so,
    and every directory lies in a directory. *)

#[global] Instance valid_segment_dec (s : string) : Decision (valid_segment s).
Proof. unfold valid_segment. apply _. Defined.

Definition file_ok (l : Local) (q : Path) : Prop :=
  q ≠ [] ∧ Forall valid_segment q ∧
  os.isdir_in l (os_path.dirname q) = true ∧ q ∉ dirs l.

#[global] Instance file_ok_dec (l : Local) (q : Path) : Decision (file_ok l q).
Proof. unfold file_ok. apply _. Defined.

Definition fs_wf (l : Local) : Prop :=
  map_Forall (λ q _, file_ok l q) (files l) ∧
  set_Forall (λ d, os.isdir_in l (os_path.dirname d) = true) (dirs l).

#[global] Instance fs_wf_dec (l : Local) : Decision (fs_wf l).
Proof. unfold fs_wf. apply _. Defined.

(** The files below directory [p], however deep. *)
Definition files_under (l : Local) (p : Path) : list Path :=
  filter (λ q, p `prefix_of` q ∧ q ≠ p) (fst <$> map_to_list (files l)).

(** The paths that the two loops of [_upload_dir] go through, in order. *)
Definition walked_paths (walked : list (Path * list string)) : list Path :=
  concat ((λ entry : Path * list string,
             os_path.join entry.1 <$> entry.2) <$> walked).

(** The blob name that [_upload_dir] gives the file [q] of the case
    directory [p]. *)
Definition blob_name_of (p q : Path) : string :=
  os_path.relpath q (os_path.dirname p).

(** The blobs after the files [qs] of the case directory [p] were
    uploaded. *)
Definition upload_all (l : Local) (p : Path) (qs : list Path)
    (blobs : gmap string string) : gmap string string :=
  fold_left (λ m q, <[blob_name_of p q := default "" (files l !! q)]> m) qs blobs.

(** What [_download_dir] does with one listed blob of the case with base
    name [dir_base_name]. *)
Definition download_blob (name dir_base_name blob_name : string) : M unit :=
  d ← gets (λ st, uploaded_dirs (self st));
  parent ← dict_get d dir_base_name;
  let file_abs_path := os_path.join parent blob_name in
  there ← os.isdir (os_path.join_dirname parent blob_name);
  (if negb (there : bool) then os.makedirs (os_path.join_dirname parent blob_name)
   else mret tt) ;;
  storage_client.get_blob_to_path name blob_name file_abs_path.

(** ** What a method leaves as it is *)

(** Every run of [m] from a state in which [I] holds ends, with a value or
    with an exception, in a state in which [I] holds. *)
Definition keeps {A : Type} (I : State → Prop) (m : M A) : Prop :=
  ∀ s r s', I s → m s = (r, s') → I s'.

(** A request that reads blobs and changes nothing in the container. *)
Definition is_blob_read (ev : Event) : bool :=
  match ev with
  | EvListBlobs _ _ _ | EvGetBlob _ _ _ => true
  | _ => false
  end.

(** Since [st], only blobs were read and only local files and directories
    were written: the controller, the accounts and the clock are as they
    were, every directory and every file of the machine is still there
    (a file possibly with other content), and the requests sent were
    listings and downloads. *)
Definition only_fetched (st s : State) : Prop :=
  self s = self st ∧ storage s = storage st ∧ batch s = batch st ∧
  clock s = clock st ∧ cwd (local s) = cwd (local st) ∧
  dirs (local st) ⊆ dirs (local s) ∧
  (∀ q, is_Some (files (local st) !! q) → is_Some (files (local s) !! q)) ∧
  ∃ evs, trace s = trace st ++ evs ∧ Forall (λ ev, is_blob_read ev = true) evs.

(** Like [keeps], with what is known of the value that [m] returns. *)
Definition yields {A : Type} (I : State → Prop) (Q : A → Prop) (m : M A) : Prop :=
  ∀ s r s', I s → m s = (r, s') → I s' ∧ ∀ a, r = Return a → Q a.

Definition is_blob_upload (ev : Event) : bool :=
  match ev with
  | EvCreateBlob _ _ _ => true
  | _ => false
  end.

(** Since [st], blobs were uploaded and the ledger was extended, and no
    more: the controller's mission and session are as they were and no
    ledger entry was dropped; the batch account and the clock are as they
    were; on the machine nothing changed but the file [uploaded_dirs.dat]
    of the working directory; every blob of every container is still
    there (possibly with other content); and the requests sent were
    uploads of blobs. *)
Definition only_staged (st s : State) : Prop :=
  info (self s) = info (self st) ∧
  container_url (self s) = container_url (self st) ∧
  container_token (self s) = container_token (self st) ∧
  (∀ k, is_Some (uploaded_dirs (self st) !! k) →
        is_Some (uploaded_dirs (self s) !! k)) ∧
  batch s = batch st ∧ clock s = clock st ∧
  cwd (local s) = cwd (local st) ∧ dirs (local s) = dirs (local st) ∧
  (∀ q, q ≠ scratch_path st → files (local s) !! q = files (local st) !! q) ∧
  (∀ name blobs, containers (storage st) !! name = Some (Present blobs) →
     ∃ blobs', containers (storage s) !! name = Some (Present blobs') ∧
               ∀ b, is_Some (blobs !! b) → is_Some (blobs' !! b)) ∧
  ∃ evs, trace s = trace st ++ evs ∧ Forall (λ ev, is_blob_upload ev = true) evs.

(** A request of a purge of the blobs under [prefix]: a listing, the
    deletion of a blob under the prefix, the upload of the ledger blob. *)
Definition is_purge_request (prefix : string) (ev : Event) : bool :=
  match ev with
  | EvListBlobs _ _ _ => true
  | EvDeleteBlob _ b => starts_with prefix b
  | EvCreateBlob _ b _ => bool_decide (b = "uploaded_dirs.dat")
  | _ => false
  end.

(** Since [st], blobs under [prefix] were deleted and the ledger was
    shortened and persisted, and no more: the controller's mission and
    session are as they were and the ledger has no new entry; the batch
    account and the clock are as they were; on the machine nothing changed
    but the file [uploaded_dirs.dat] of the working directory; the other
    containers hold what they held, and in the mission's container every
    blob that is neither under the prefix nor the ledger blob is as it
    was; and the requests sent were those of a purge. *)
Definition only_purged (prefix : string) (st s : State) : Prop :=
  info (self s) = info (self st) ∧
  container_url (self s) = container_url (self st) ∧
  container_token (self s) = container_token (self st) ∧
  uploaded_dirs (self s) ⊆ uploaded_dirs (self st) ∧
  batch s = batch st ∧ clock s = clock st ∧
  cwd (local s) = cwd (local st) ∧ dirs (local s) = dirs (local st) ∧
  (∀ q, q ≠ scratch_path st → files (local s) !! q = files (local st) !! q) ∧
  (∀ name blobs, containers (storage st) !! name = Some (Present blobs) →
     ∃ blobs', containers (storage s) !! name = Some (Present blobs') ∧
       (name ≠ container_name (info (self st)) → blobs' = blobs) ∧
       ∀ b, starts_with prefix b = false → b ≠ "uploaded_dirs.dat" →
            blobs' !! b = blobs !! b) ∧
  ∃ evs, trace s = trace st ++ evs ∧
         Forall (λ ev, is_purge_request prefix ev = true) evs.

(** ** The rest of the accounts: pool and container deletion, jobs, tasks

    [_delete_pool], [_delete_storage_container], [_create_job],
    [_delete_job] and [add_task] send requests of further kinds and drive
    the job service of the batch account.  Their state is a [World]: the
    state of the methods above, the pools that the service is deleting,
    the jobs of the batch account with their tasks, and the requests of
    these further kinds in the order in which they were sent. *)

Module models.

Record PoolInformation : Type := { pool_id : string }.

(** [JobAddParameter(id, pool_info)] *)
Record JobAddParameter : Type := {
  job_id : string;
  pool_info : PoolInformation
}.

Record TaskContainerSettings : Type := {
  image_name : string;
  container_run_options : string
}.

Record ResourceFile : Type := {
  storage_container_url : option string;
  blob_prefix : string
}.

Inductive OutputFileUploadCondition : Type :=
| task_success | task_failure | task_completion.

Record OutputFileUploadOptions : Type := {
  upload_condition : OutputFileUploadCondition
}.

Record OutputFileBlobContainerDestination : Type := {
  container_url : option string;
  path : string
}.

Record OutputFileDestination : Type := {
  container : OutputFileBlobContainerDestination
}.

Record OutputFile : Type := {
  file_pattern : string;
  upload_options : OutputFileUploadOptions;
  destination : OutputFileDestination
}.

(** [TaskAddParameter(id, command_line, container_settings, resource_files,
    output_files)] *)
Record TaskAddParameter : Type := {
  task_id : string;
  command_line : string;
  container_settings : TaskContainerSettings;
  resource_files : list ResourceFile;
  output_files : list OutputFile
}.

End models.

(** A job as the service holds it: the pool it runs on and its tasks by
    id. *)
Record JobEntry : Type := {
  job_pool : string;
  job_tasks : gmap string models.TaskAddParameter
}.

Inductive Request : Type :=
| ReqPoolDelete (pool_id : string)
| ReqDeleteContainer (name : string) (fail_not_exist : bool)
| ReqJobAdd (job : models.JobAddParameter)
| ReqJobDelete (job_id : string)
| ReqTaskAdd (job_id : string) (task : models.TaskAddParameter).

Record World : Type := {
  base : State;
  (** the pools that the service is deleting: they are still among the
      pools of the account *)
  pools_in_deletion : gset string;
  jobs : gmap string JobEntry;
  (** job ids that the service refuses to create: the account's quota of
      active jobs is used up *)
  refused_jobs : gset string;
  (** the number of creation attempts that a container deleted now answers
      with "being deleted" *)
  deletion_lag : nat;
  requests : list Request
}.

Definition with_base (f : State → State) (w : World) : World :=
  {| base := f (base w); pools_in_deletion := pools_in_deletion w;
     jobs := jobs w; refused_jobs := refused_jobs w;
     deletion_lag := deletion_lag w; requests := requests w |}.

Definition with_pools_in_deletion (f : gset string → gset string)
    (w : World) : World :=
  {| base := base w; pools_in_deletion := f (pools_in_deletion w);
     jobs := jobs w; refused_jobs := refused_jobs w;
     deletion_lag := deletion_lag w; requests := requests w |}.

Definition with_jobs (f : gmap string JobEntry → gmap string JobEntry)
    (w : World) : World :=
  {| base := base w; pools_in_deletion := pools_in_deletion w;
     jobs := f (jobs w); refused_jobs := refused_jobs w;
     deletion_lag := deletion_lag w; requests := requests w |}.

Definition with_requests (f : list Request → list Request) (w : World) : World :=
  {| base := base w; pools_in_deletion := pools_in_deletion w;
     jobs := jobs w; refused_jobs := refused_jobs w;
     deletion_lag := deletion_lag w; requests := f (requests w) |}.

Definition W (A : Type) : Type := World → Result A * World.

#[global] Instance W_ret : MRet W := λ A a w, (Return a, w).

#[global] Instance W_bind : MBind W := λ A B f m w,
  match m w with
  | (Return a, w') => f a w'
  | (Raise e, w') => (Raise e, w')
  | (Diverge, w') => (Diverge, w')
  end.

(** A method of the first part, run on the state inside the world. *)
Definition lift {A : Type} (m : M A) : W A := λ w,
  match m (base w) with
  | (r, st') => (r, with_base (λ _, st') w)
  end.

Definition W_raise {A : Type} (e : Exn) : W A := λ w, (Raise e, w).
Definition W_gets {A : Type} (f : World → A) : W A := λ w, (Return (f w), w).
Definition W_modify (f : World → World) : W unit := λ w, (Return tt, f w).
Definition send (r : Request) : W unit := W_modify (with_requests (λ t, t ++ [r])).

(** [self.info] *)
Definition W_info : W MissionInfo := W_gets (λ w, info (self (base w))).

(** [try: body  except Exception as err: handler(err)] *)
Definition W_catch {A : Type} (body : W A) (handler : Exn → W A) : W A := λ w,
  match body w with
  | (Raise e, w') => handler e w'
  | other => other
  end.

(** *** azure.batch: [batch_client.pool.delete], [batch_client.job],
    [batch_client.task] *)

Module batch_client.

(** [err.message.value]: the sentence that the service sends with an error
    code; the request id and the time that follow it are left out. *)
Definition message_value (code : string) : string :=
  if bool_decide (code = "JobExists")
  then "The specified job already exists."
  else if bool_decide (code = "JobNotFound")
  then "The specified job does not exist."
  else if bool_decide (code = "TaskExists")
  then "The specified task already exists."
  else if bool_decide (code = "PoolNotFound")
  then "The specified pool does not exist."
  else if bool_decide (code = "PoolBeingDeleted")
  then "The specified pool is being deleted."
  else if bool_decide (code = "ActiveJobAndScheduleQuotaReached")
  then "The specified account has reached its quota of active jobs and job schedules."
  else code.

(** [pool.delete(pool_id)]: the pool starts being deleted.  While the
    service is at it the pool is still there ([pool.exists] answers true)
    and a further deletion is refused.  When the service is done is not
    modelled: no method waits for it. *)
Definition pool_delete (pool_id : string) : W unit :=
  send (ReqPoolDelete pool_id) ;;
  found ← W_gets (λ w, batch (base w) !! pool_id);
  deleting ← W_gets pools_in_deletion;
  match found with
  | None => W_raise (BatchErrorException "PoolNotFound")
  | Some _ =>
      if bool_decide (pool_id ∈ deleting)
      then W_raise (BatchErrorException "PoolBeingDeleted")
      else W_modify (with_pools_in_deletion (λ d, {[ pool_id ]} ∪ d))
  end.

(** [job.add(job)]: a job on the pool it names, without tasks. *)
Definition job_add (job : models.JobAddParameter) : W unit :=
  send (ReqJobAdd job) ;;
  found ← W_gets (λ w, jobs w !! models.job_id job);
  refused ← W_gets refused_jobs;
  match found with
  | Some _ => W_raise (BatchErrorException "JobExists")
  | None =>
      if bool_decide (models.job_id job ∈ refused)
      then W_raise (BatchErrorException "ActiveJobAndScheduleQuotaReached")
      else W_modify (with_jobs (insert (models.job_id job)
             {| job_pool := models.pool_id (models.pool_info job);
                job_tasks := ∅ |}))
  end.

(** [job.delete(job_id)]: the job goes with its tasks. *)
Definition job_delete (job_id : string) : W unit :=
  send (ReqJobDelete job_id) ;;
  found ← W_gets (λ w, jobs w !! job_id);
  match found with
  | None => W_raise (BatchErrorException "JobNotFound")
  | Some _ => W_modify (with_jobs (delete job_id))
  end.

(** [task.add(job_id, task)] *)
Definition task_add (job_id : string) (task : models.TaskAddParameter) : W unit :=
  send (ReqTaskAdd job_id task) ;;
  found ← W_gets (λ w, jobs w !! job_id);
  match found with
  | None => W_raise (BatchErrorException "JobNotFound")
  | Some j =>
      if bool_decide (is_Some (job_tasks j !! models.task_id task))
      then W_raise (BatchErrorException "TaskExists")
      else W_modify (with_jobs (insert job_id
             {| job_pool := job_pool j;
                job_tasks := <[models.task_id task := task]> (job_tasks j) |}))
  end.

End batch_client.

(** [storage_client.delete_container(container_name, fail_not_exist)]: a
    container that is there starts being deleted, with its blobs; [False]
    is the answer for a container that is not there when that is not to
    fail. *)
Definition delete_container (name : string) (fail_not_exist : bool) : W bool :=
  send (ReqDeleteContainer name fail_not_exist) ;;
  found ← W_gets (λ w, containers (storage (base w)) !! name);
  lag ← W_gets deletion_lag;
  match found with
  | Some (Present _) =>
      W_modify (with_base (with_storage (λ s,
        set_containers (<[name := Deleting lag]> (containers s)) s))) ;;
      mret true
  | Some (Deleting _) => W_raise (AzureConflictHttpError "ContainerBeingDeleted")
  | None =>
      if fail_not_exist
      then W_raise (AzureMissingResourceHttpError "ContainerNotFound")
      else mret false
  end.

(** The double quote of the command line. *)
Definition dquote : string := String "034"%char "".

Section MissionControllerJobs.

Context `{Pickle}.

(** [_delete_pool]: "Delete a pool on Azure based on the content set in
    self." *)
Definition _delete_pool : W unit :=
  i ← W_info;
  there ← lift (pool.exists_ (pool_name i));
  if (there : bool) then batch_client.pool_delete (pool_name i)
  else mret tt.

(** [_delete_storage_container] *)
Definition _delete_storage_container : W unit :=
  i ← W_info;
  delete_container (container_name i) true ;;
  mret tt.

(** [_create_job]: "Create a job (i.e. task scheduler) for this mission." *)
Definition _create_job : W unit :=
  i ← W_info;
  let job_params :=
    {| models.job_id := job_name i;
       models.pool_info := {| models.pool_id := pool_name i |} |} in
  W_catch
    (batch_client.job_add job_params)
    (λ err,
      match err with
      | BatchErrorException code =>
          if starts_with "The specified job already exists."
               (batch_client.message_value code)
          then mret tt
          else W_raise err
      | _ => W_raise err
      end).

(** [_delete_job]: "Delete the mission job (i.e. task scheduler)." *)
Definition _delete_job : W unit :=
  i ← W_info;
  batch_client.job_delete (job_name i).

(** [add_task]: "Add a task to the mission's job (i.e., task
    scheduler)." *)
Definition add_task (case : string) : W unit :=
  lift (_upload_dir case) ;;
  case_path ← W_gets (λ w, os_path.abspath (cwd (local (base w))) case);
  let case := os_path.basename case_path in
  url ← W_gets (λ w, container_url (self (base w)));
  let task_container_settings :=
    {| models.image_name := "barbagroup/landspill:applications";
       models.container_run_options :=
         "--rm " +:+ "--workdir /home/landspill/geoclaw-landspill-cases" |} in
  let input_data :=
    [ {| models.storage_container_url := url;
         models.blob_prefix := case +:+ "/" |} ] in
  let output_data :=
    [ {| models.file_pattern := case +:+ "/**/*";
         models.upload_options :=
           {| models.upload_condition := models.task_completion |};
         models.destination :=
           {| models.container :=
                {| models.container_url := url; models.path := case |} |} |} ] in
  let command :=
    "/bin/bash -c " +:+ dquote +:+
    ("cp -r $AZ_BATCH_TASK_WORKING_DIR/" +:+ case +:+ " ./ && ") +:+
    ("python run.py " +:+ case +:+ " && ") +:+
    ("python createnc.py " +:+ case +:+ " && ") +:+
    ("python plotdepths.py --border " +:+ case +:+ " && ") +:+
    ("cp -r ./" +:+ case +:+ " $AZ_BATCH_TASK_WORKING_DIR") +:+
    dquote in
  let task_params :=
    {| models.task_id := case;
       models.command_line := command;
       models.container_settings := task_container_settings;
       models.resource_files := input_data;
       models.output_files := output_data |} in
  i ← W_info;
  batch_client.task_add (job_name i) task_params.

End MissionControllerJobs.

(** The task that [add_task] makes of a case with base name [case], for a
    controller whose container URL is [url]. *)
Definition task_of (url : option string) (case : string)
    : models.TaskAddParameter :=
  {| models.task_id := case;
     models.command_line :=
       "/bin/bash -c " +:+ dquote +:+
       ("cp -r $AZ_BATCH_TASK_WORKING_DIR/" +:+ case +:+ " ./ && ") +:+
       ("python run.py " +:+ case +:+ " && ") +:+
       ("python createnc.py " +:+ case +:+ " && ") +:+
       ("python plotdepths.py --border " +:+ case +:+ " && ") +:+
       ("cp -r ./" +:+ case +:+ " $AZ_BATCH_TASK_WORKING_DIR") +:+
       dquote;
     models.container_settings :=
       {| models.image_name := "barbagroup/landspill:applications";
          models.container_run_options :=
            "--rm --workdir /home/landspill/geoclaw-landspill-cases" |};
     models.resource_files :=
       [ {| models.storage_container_url := url;
            models.blob_prefix := case +:+ "/" |} ];
     models.output_files :=
       [ {| models.file_pattern := case +:+ "/**/*";
            models.upload_options :=
              {| models.upload_condition := models.task_completion |};
            models.destination :=
              {| models.container :=
                   {| models.container_url := url; models.path := case |} |} |} ]
  |}.

(** ** More scenes for the statements *)

Module Scenario.

(** The mission's pool is there with the four nodes the mission asks for,
    on machines of another size, and still resizing. *)
Definition other_vm_pool : State :=
  with_batch (λ _, {[ "pool" :=
    {| cloud := {| target_dedicated_nodes := 4; allocation_state := resizing |};
       entry_vm_size := "STANDARD_D2_V2"; unsettled_polls := O |} ]})
    Example.fresh.

(** The mission's pool is there, steady, with two nodes. *)
Definition small_pool : State :=
  with_batch (λ _, {[ "pool" :=
    {| cloud := {| target_dedicated_nodes := 2; allocation_state := steady |};
       entry_vm_size := "STANDARD_A1"; unsettled_polls := O |} ]})
    Example.fresh.

(** A controller that has a session, and a ledger that no blob backs, on
    its empty container. *)
Definition second_call : State :=
  with_self (set_uploaded_dirs {[ "old" := ["tmp"] ]}) Example.provisioned.

(** The mission's container holds a ledger blob that is no pickle. *)
Definition garbled : State :=
  with_storage (set_containers
    {[ "mission" := Present {[ "uploaded_dirs.dat" := "not a pickle" ]} ]})
    Example.fresh.

(** The service refuses the blob of one file of the case. *)
Definition refusing_a_file : State :=
  with_storage (λ s,
    {| containers := containers s;
       refused_blobs := {[ "case/sub/b.txt" ]};
       protocol := protocol s; primary_endpoint := primary_endpoint s;
       sign := sign s |}) Example.provisioned.

(** The process is started again, and the user keeps a file of notes named
    [uploaded_dirs.dat] in the working directory. *)
Definition restarted_with_notes : State :=
  with_local (λ l,
    set_files (<[ ["home"; "u"; "uploaded_dirs.dat"] := "my notes" ]> (files l)) l)
    Example.restarted.

(** The same mission with its job service: no pool in deletion, no job
    yet, no job refused, a container that answers two creation attempts
    with "being deleted" after it was deleted. *)
Definition world_of (st : State) : World :=
  {| base := st; pools_in_deletion := ∅; jobs := ∅; refused_jobs := ∅;
     deletion_lag := 2; requests := [] |}.

(** The mission's job is there, without tasks. *)
Definition with_job (w : World) : World :=
  with_jobs (insert "job" {| job_pool := "pool"; job_tasks := ∅ |}) w.

(** The account's quota of active jobs is used up. *)
Definition no_quota : World :=
  {| base := Example.fresh; pools_in_deletion := ∅; jobs := ∅;
     refused_jobs := {[ "job" ]}; deletion_lag := 2; requests := [] |}.

End Scenario.

(** * Properties *)

(** ** Running the monad *)

Section Run.
Context {A B : Type}.
Implicit Types (m : M A) (k : A → M B) (st : State).

Lemma run_bind m k st :
  (m ≫= k) st = match m st with
                | (Return a, st') => k a st'
                | (Raise e, st') => (Raise e, st')
                | (Diverge, st') => (Diverge, st')
                end.
Proof. reflexivity. Qed.

Lemma run_bind_return m k st a st' :
  m st = (Return a, st') → (m ≫= k) st = k a st'.
Proof. intros Hm. rewrite run_bind, Hm. reflexivity. Qed.

Lemma run_bind_raise m k st e st' :
  m st = (Raise e, st') → (m ≫= k) st = (Raise e, st').
Proof. intros Hm. rewrite run_bind, Hm. reflexivity. Qed.

Lemma run_bind_gets (f : State → A) k st : (gets f ≫= k) st = k (f st) st.
Proof. reflexivity. Qed.

Lemma run_bind_mret (a : A) k st : (mret a ≫= k) st = k a st.
Proof. reflexivity. Qed.

Lemma run_bind_throw (e : Exn) k st : (raise e ≫= k) st = (Raise e, st).
Proof. reflexivity. Qed.
End Run.

Lemma run_bind_modify {B : Type} (f : State → State) (k : unit → M B) st :
  (modify f ≫= k) st = k tt (f st).
Proof. reflexivity. Qed.

Lemma run_bind_log {B : Type} (ev : Event) (k : unit → M B) st :
  (log ev ≫= k) st = k tt (with_trace (λ t, t ++ [ev]) st).
Proof. reflexivity. Qed.

Lemma run_bind_assoc {A B C : Type} (m : M A) (f : A → M B) (g : B → M C) st :
  ((m ≫= f) ≫= g) st = (m ≫= λ x, f x ≫= g) st.
Proof. rewrite !run_bind. destruct (m st) as [[a|e|] st']; reflexivity. Qed.

Lemma run_bind_assert_true {B : Type} (k : unit → M B) st :
  (py_assert true ≫= k) st = k tt st.
Proof. reflexivity. Qed.

Lemma run_bind_assert_false {B : Type} (k : unit → M B) st :
  (py_assert false ≫= k) st = (Raise AssertionError, st).
Proof. reflexivity. Qed.

Create Rewrite HintDb run.

#[global] Hint Rewrite @run_bind_gets @run_bind_mret @run_bind_throw
  @run_bind_modify @run_bind_log @run_bind_assoc
  @run_bind_assert_true @run_bind_assert_false : run.

(** The projections of an updated state. *)
Ltac simpl_state :=
  cbn [self batch storage local clock trace
       with_self with_batch with_storage with_local with_clock with_trace
       info container_token container_url uploaded_dirs
       set_container_token set_container_url set_uploaded_dirs
       containers refused_blobs protocol primary_endpoint sign set_containers
       cwd files dirs set_files set_dirs fst snd] in *.

(** One round of symbolic execution: the binds whose first action is known
    are run. *)
Ltac run := unfold self_info; autorewrite with run.

(** The same, deciding on the way the tests that the context settles. *)
Ltac run_deciding :=
  repeat (run; rewrite ?bool_decide_true by done;
          rewrite ?bool_decide_false by done).

(** ** The checks that come first in the directory methods *)

Section Guards.

Context `{Pickle}.

Lemma upload_dir_known_case st dir_path parent :
  uploaded_dirs (self st) !! os_path.basename (case_path st dir_path)
    = Some parent →
  _upload_dir dir_path st
  = (Raise (RuntimeError
             (CaseExists (os_path.basename (case_path st dir_path)))), st).
Proof.
  intros Hin. unfold case_path in *. unfold _upload_dir. run.
  rewrite Hin, bool_decide_true by eauto. reflexivity.
Qed.

Lemma download_dir_no_session st dir_path ignore_not_exist :
  ¬ session_established st →
  _download_dir dir_path ignore_not_exist st = (Raise AssertionError, st).
Proof.
  intros Hno. unfold _download_dir. run.
  destruct (container_url (self st)) as [u|] eqn:Hu.
  - destruct (container_token (self st)) as [t|] eqn:Ht.
    + destruct Hno. split; congruence.
    + run_deciding. rewrite Ht. reflexivity.
  - reflexivity.
Qed.

Lemma delete_dir_no_session st dir_path ignore_not_exist :
  ¬ session_established st →
  _delete_dir dir_path ignore_not_exist st = (Raise AssertionError, st).
Proof.
  intros Hno. unfold _delete_dir. run.
  destruct (container_url (self st)) as [u|] eqn:Hu.
  - destruct (container_token (self st)) as [t|] eqn:Ht.
    + destruct Hno. split; congruence.
    + run_deciding. rewrite Ht. reflexivity.
  - reflexivity.
Qed.

Lemma download_dir_unknown_case st dir_path ignore_not_exist :
  session_established st →
  uploaded_dirs (self st) !! os_path.basename (case_path st dir_path) = None →
  _download_dir dir_path ignore_not_exist st
  = (if ignore_not_exist then Return tt
     else Raise (RuntimeError (NotInContainer (case_path st dir_path))), st).
Proof.
  intros [Hu Ht] Hno. unfold case_path in *. unfold _download_dir.
  run_deciding. rewrite Hno.
  rewrite bool_decide_false by (intros [? ?]; done).
  destruct ignore_not_exist; reflexivity.
Qed.

Lemma delete_dir_unknown_case st dir_path ignore_not_exist :
  session_established st →
  uploaded_dirs (self st) !! os_path.basename (case_path st dir_path) = None →
  _delete_dir dir_path ignore_not_exist st
  = (if ignore_not_exist then Return tt
     else Raise (RuntimeError (NotInContainer (case_path st dir_path))), st).
Proof.
  intros [Hu Ht] Hno. unfold case_path in *. unfold _delete_dir.
  run_deciding. rewrite Hno.
  rewrite bool_decide_false by (intros [? ?]; done).
  destruct ignore_not_exist; reflexivity.
Qed.

End Guards.

(** C5: for every local path whose case base name already has an entry in
    the ledger, whatever parent directory that entry records (so also when
    the path has a different parent), [_upload_dir] raises the RuntimeError
    of a duplicate case and leaves the state exactly as it was: no request
    was issued, so no blob was uploaded and the persisted ledger blob is
    unchanged, and the in-memory ledger is unchanged. *)
Theorem upload_dir_duplicate_case `{Pickle} (st : State) (dir_path : string)
    (parent : Path) :
  uploaded_dirs (self st) !! os_path.basename (case_path st dir_path)
    = Some parent →
  _upload_dir dir_path st
  = (Raise (RuntimeError
             (CaseExists (os_path.basename (case_path st dir_path)))), st).
Proof.
  intros Hknown. unfold case_path in *. unfold _upload_dir. run.
  destruct (decide (is_Some (uploaded_dirs (self st)
              !! os_path.basename (os_path.abspath (cwd (local st)) dir_path))))
    as [_|Hunknown].
  - rewrite bool_decide_true by eauto. reflexivity.
  - destruct Hunknown. eauto.
Qed.

Lemma upload_dir_duplicate_case_witness :
  os_path.dirname (case_path Example.staged "/tmp/other/case") ≠ ["home"; "u"] ∧
  @_upload_dir digits_pickle "/tmp/other/case" Example.staged
  = (Raise (RuntimeError (CaseExists "case")), Example.staged).
Proof.
  split; [by vm_compute|].
  apply (@upload_dir_duplicate_case digits_pickle Example.staged
           "/tmp/other/case" ["home"; "u"]).
  vm_compute. reflexivity.
Defined.

(** C8: for every local path whose case base name is absent from the
    ledger of a controller with an established session, [_download_dir] and
    [_delete_dir] return with the state exactly as it was (no storage
    request, no ledger mutation) when [ignore_not_exist] is true, and raise
    the RuntimeError "not in the container" with the state as it was when
    it is false: the flag alone chooses. *)
Theorem missing_case_policy `{Pickle} (st : State) (dir_path : string)
    (ignore_not_exist : bool) :
  session_established st →
  uploaded_dirs (self st) !! os_path.basename (case_path st dir_path) = None →
  let outcome :=
    if ignore_not_exist then Return tt
    else Raise (RuntimeError (NotInContainer (case_path st dir_path))) in
  _download_dir dir_path ignore_not_exist st = (outcome, st) ∧
  _delete_dir dir_path ignore_not_exist st = (outcome, st).
Proof.
  intros Hs Hno. split.
  - by apply download_dir_unknown_case.
  - by apply delete_dir_unknown_case.
Qed.

Lemma missing_case_policy_witness :
  (_download_dir "other" true Example.staged
     = (Return tt, Example.staged) ∧
   @_delete_dir digits_pickle "other" true Example.staged
     = (Return tt, Example.staged)) ∧
  (_download_dir "other" false Example.staged
     = (Raise (RuntimeError (NotInContainer ["home"; "u"; "other"])),
        Example.staged) ∧
   @_delete_dir digits_pickle "other" false Example.staged
     = (Raise (RuntimeError (NotInContainer ["home"; "u"; "other"])),
        Example.staged)).
Proof.
  split.
  - apply (@missing_case_policy digits_pickle Example.staged "other" true).
    + split; by vm_compute.
    + vm_compute. reflexivity.
  - apply (@missing_case_policy digits_pickle Example.staged "other" false).
    + split; by vm_compute.
    + vm_compute. reflexivity.
Defined.

(** C8 as it is written fails on a controller without a container
    session, such as the one that [__init__] leaves: for a base name that
    the ledger does not know, [_download_dir] and [_delete_dir] raise the
    AssertionError whatever the flag.  With the flag true the call does
    not return, with the flag false the error is not the one of a missing
    case, and the flag does not choose. *)
Lemma missing_case_without_session_asserts :
  uploaded_dirs (self Example.fresh)
    !! os_path.basename (case_path Example.fresh "other") = None ∧
  _download_dir "other" true Example.fresh
  = (Raise AssertionError, Example.fresh) ∧
  _download_dir "other" false Example.fresh
  = (Raise AssertionError, Example.fresh) ∧
  @_delete_dir digits_pickle "other" true Example.fresh
  = (Raise AssertionError, Example.fresh) ∧
  @_delete_dir digits_pickle "other" false Example.fresh
  = (Raise AssertionError, Example.fresh) ∧
  _download_dir "other" true Example.fresh ≠ (Return tt, Example.fresh) ∧
  _download_dir "other" false Example.fresh
  ≠ (Raise (RuntimeError (NotInContainer (case_path Example.fresh "other"))),
     Example.fresh) ∧
  @_delete_dir digits_pickle "other" true Example.fresh
  ≠ (Return tt, Example.fresh) ∧
  @_delete_dir digits_pickle "other" false Example.fresh
  ≠ (Raise (RuntimeError (NotInContainer (case_path Example.fresh "other"))),
     Example.fresh).
Proof.
  assert (Hno : ¬ session_established Example.fresh).
  { intros [Hurl _]. by apply Hurl. }
  pose proof (download_dir_no_session Example.fresh "other" true Hno) as Hd1.
  pose proof (download_dir_no_session Example.fresh "other" false Hno) as Hd2.
  pose proof (@delete_dir_no_session digits_pickle Example.fresh "other" true Hno)
    as Hp1.
  pose proof (@delete_dir_no_session digits_pickle Example.fresh "other" false Hno)
    as Hp2.
  split; [reflexivity|].
  split; [exact Hd1|]. split; [exact Hd2|].
  split; [exact Hp1|]. split; [exact Hp2|].
  rewrite Hd1, Hd2, Hp1, Hp2. repeat split; discriminate.
Qed.

(** C9: without an established container session ([container_url] or
    [container_token] is [None]) [_download_dir] and [_delete_dir] raise an
    AssertionError for every path and every value of [ignore_not_exist],
    also when the case base name is absent from the ledger: the session is
    checked before the ledger.  [_upload_dir] checks the ledger first: for
    a base name that has an entry it raises the RuntimeError of a duplicate
    case although there is no session. *)
Theorem session_check_order `{Pickle} (st : State) (dir_path : string) :
  ¬ session_established st →
  (∀ ignore_not_exist : bool,
     _download_dir dir_path ignore_not_exist st = (Raise AssertionError, st) ∧
     _delete_dir dir_path ignore_not_exist st = (Raise AssertionError, st)) ∧
  (∀ parent : Path,
     uploaded_dirs (self st) !! os_path.basename (case_path st dir_path)
       = Some parent →
     _upload_dir dir_path st
     = (Raise (RuntimeError
                (CaseExists (os_path.basename (case_path st dir_path)))), st)).
Proof.
  intros Hno. split.
  - intros ignore_not_exist. split.
    + by apply download_dir_no_session.
    + by apply delete_dir_no_session.
  - intros parent. apply upload_dir_known_case.
Qed.

Lemma session_check_order_witness :
  uploaded_dirs (self Example.sessionless) !! "other" = None ∧
  _download_dir "other" true Example.sessionless
    = (Raise AssertionError, Example.sessionless) ∧
  @_delete_dir digits_pickle "other" true Example.sessionless
    = (Raise AssertionError, Example.sessionless) ∧
  @_upload_dir digits_pickle "case" Example.sessionless
    = (Raise (RuntimeError (CaseExists "case")), Example.sessionless).
Proof.
  assert (Hno : ¬ session_established Example.sessionless)
    by (intros [Hu _]; by apply Hu).
  pose proof (@session_check_order digits_pickle Example.sessionless "other" Hno)
    as [Hother _].
  pose proof (@session_check_order digits_pickle Example.sessionless "case" Hno)
    as [_ Hcase].
  split; [by vm_compute|].
  split; [apply (Hother true)|].
  split; [apply (Hother true)|].
  apply (Hcase ["home"; "u"]). vm_compute. reflexivity.
Defined.

(** ** The pool *)

Section Pool.

Implicit Types (st : State) (p : PoolEntry).

Lemma create_pool_absent fuel st :
  batch st !! pool_name (info (self st)) = None →
  _create_pool fuel st
  = (Return tt,
     with_batch (insert (pool_name (info (self st)))
       {| cloud := {| target_dedicated_nodes := n_nodes (info (self st));
                      allocation_state := resizing |};
          entry_vm_size := vm_type (info (self st)); unsettled_polls := O |})
       (with_trace (λ t, t ++ [EvPoolExists (pool_name (info (self st)));
                               EvPoolAdd (pool_conf (info (self st)))]) st)).
Proof.
  intros Hno. unfold _create_pool, pool.exists_, pool.add. run. cbn.
  rewrite Hno.
  rewrite bool_decide_false by (intros [? ?]; done).
  run. cbn. rewrite Hno. run.
  unfold with_batch, with_trace; cbn. rewrite <- app_assoc. reflexivity.
Qed.

Lemma create_pool_matching fuel st p :
  batch st !! pool_name (info (self st)) = Some p →
  target_dedicated_nodes (cloud p) = n_nodes (info (self st)) →
  allocation_state (cloud p) ≠ stopping →
  _create_pool fuel st
  = (Return tt,
     with_trace (λ t, t ++ [EvPoolExists (pool_name (info (self st)));
                            EvPoolGet (pool_name (info (self st)))
                              (Some (cloud p))]) st).
Proof.
  intros Hp Htarget Hstate.
  assert (Hobs : pool.observe p = p).
  { unfold pool.observe. by destruct (allocation_state (cloud p)). }
  unfold _create_pool, pool.exists_, pool.get. run. cbn.
  rewrite Hp. rewrite bool_decide_true by eauto.
  run. cbn. rewrite Hp. run. rewrite Hobs.
  rewrite bool_decide_false by (intros Hne; by apply Hne).
  unfold with_batch, with_trace; cbn.
  rewrite insert_id by done. rewrite <- app_assoc. reflexivity.
Qed.

(** The loop that waits for a stopping pool: it ends after one look more
    than the pool needs to settle, with the pool steady. *)
Lemma wait_steady_stopping (k : nat) :
  ∀ fuel st p pool_id pool_info,
    batch st !! pool_id = Some p →
    allocation_state (cloud p) = stopping →
    unsettled_polls p = k →
    (k < fuel)%nat →
    allocation_state pool_info ≠ steady →
    ∃ st',
      wait_steady fuel pool_id pool_info st
      = (Return {| target_dedicated_nodes := target_dedicated_nodes (cloud p);
                   allocation_state := steady |}, st') ∧
      batch st' !! pool_id = Some (pool.set_state steady
           {| cloud := cloud p; entry_vm_size := entry_vm_size p;
              unsettled_polls := O |}) ∧
      self st' = self st ∧
      trace st'
      = trace st ++ steady_wait pool_id (target_dedicated_nodes (cloud p)) k.
Proof.
  induction k as [|k IH]; intros fuel st p pool_id pool_info Hp Hstop Hk Hfuel Hinfo.
  - destruct fuel as [|fuel]; [lia|]. cbn [wait_steady].
    rewrite bool_decide_true by done.
    unfold sleep, pool.get. run. cbn. rewrite Hp. run.
    assert (Hobs : pool.observe p = pool.set_state steady
              {| cloud := cloud p; entry_vm_size := entry_vm_size p;
                 unsettled_polls := O |}).
    { unfold pool.observe. rewrite Hstop, Hk. reflexivity. }
    rewrite Hobs. destruct fuel; cbn.
    all: eexists; split; [reflexivity|]; cbn.
    all: rewrite lookup_insert_eq.
    all: split; [reflexivity|]; split; [reflexivity|].
    all: unfold steady_wait; cbn; rewrite <- app_assoc; reflexivity.
  - destruct fuel as [|fuel]; [lia|]. cbn [wait_steady].
    rewrite bool_decide_true by done.
    unfold sleep, pool.get. run. cbn. rewrite Hp. run.
    assert (Hobs : pool.observe p
              = {| cloud := cloud p; entry_vm_size := entry_vm_size p;
                   unsettled_polls := k |}).
    { unfold pool.observe. rewrite Hstop, Hk. reflexivity. }
    rewrite Hobs.
    edestruct (IH fuel
      (with_batch (insert pool_id
         {| cloud := cloud p; entry_vm_size := entry_vm_size p;
            unsettled_polls := k |})
         (with_trace (λ t, t ++ [EvPoolGet pool_id (Some (cloud p))])
            (with_clock (λ t, t + 2)
               (with_trace (λ t, t ++ [EvSleep 2]) st))))
      {| cloud := cloud p; entry_vm_size := entry_vm_size p;
         unsettled_polls := k |} pool_id (cloud p))
      as (st' & Hrun & Hbatch & Hself & Htrace).
    + cbn. by rewrite lookup_insert_eq.
    + done.
    + done.
    + lia.
    + rewrite Hstop. done.
    + exists st'. split; [exact Hrun|]. split; [exact Hbatch|].
      split; [exact Hself|]. rewrite Htrace. cbn.
      unfold steady_wait. cbn. rewrite <- !app_assoc. cbn.
      destruct (cloud p) as [target state]; cbn in *. subst state.
      reflexivity.
Qed.

End Pool.

Section PoolConvergence.

Implicit Types (st : State) (p : PoolEntry).

Lemma filter_resize_steady_wait pool_id target k :
  List.filter is_pool_resize (steady_wait pool_id target k) = [].
Proof.
  unfold steady_wait. rewrite List.filter_app. cbn. rewrite app_nil_r.
  induction k as [|k IH]; [reflexivity|exact IH].
Qed.

Lemma create_pool_resizing fuel st p :
  batch st !! pool_name (info (self st)) = Some p →
  target_dedicated_nodes (cloud p) ≠ n_nodes (info (self st)) →
  allocation_state (cloud p) = resizing →
  (unsettled_polls p < fuel)%nat →
  ∃ st',
    _create_pool fuel st = (Return tt, st') ∧
    trace st'
    = trace st
      ++ [EvPoolExists (pool_name (info (self st)));
          EvPoolGet (pool_name (info (self st))) (Some (cloud p));
          EvPoolStopResize (pool_name (info (self st)))]
      ++ steady_wait (pool_name (info (self st)))
           (target_dedicated_nodes (cloud p)) (unsettled_polls p)
      ++ [resize_request (info (self st))].
Proof.
  intros Hp Htarget Hstate Hfuel.
  assert (Hobs : pool.observe p = p).
  { unfold pool.observe. by rewrite Hstate. }
  unfold _create_pool, pool.exists_, pool.get. run. cbn.
  rewrite Hp. rewrite bool_decide_true by eauto.
  run. cbn. rewrite Hp. run. rewrite Hobs.
  rewrite bool_decide_true by done. rewrite bool_decide_true by done.
  unfold pool.stop_resize. run. cbn. rewrite lookup_insert_eq.
  rewrite bool_decide_true by done. run.
  match goal with |- context [(wait_steady fuel ?n ?c ≫= _) ?s] =>
    destruct (wait_steady_stopping (unsettled_polls p) fuel s
                (pool.set_state stopping p) n c)
      as (st' & Hrun & Hbatch & Hself & Htrace)
  end.
  { cbn. by rewrite lookup_insert_eq. }
  { reflexivity. }
  { reflexivity. }
  { exact Hfuel. }
  { rewrite Hstate. done. }
  rewrite (run_bind_return _ _ _ _ _ Hrun).
  unfold pool.resize. run. cbn. rewrite Hbatch. cbn.
  rewrite bool_decide_true by done. run.
  eexists. split; [reflexivity|]. cbn. rewrite Htrace. cbn.
  rewrite <- !app_assoc. reflexivity.
Qed.

Lemma create_pool_not_resizing fuel st p :
  batch st !! pool_name (info (self st)) = Some p →
  target_dedicated_nodes (cloud p) ≠ n_nodes (info (self st)) →
  allocation_state (cloud p) ≠ resizing →
  ∃ r st',
    _create_pool fuel st = (r, st') ∧ r ≠ Diverge ∧
    trace st'
    = trace st
      ++ [EvPoolExists (pool_name (info (self st)));
          EvPoolGet (pool_name (info (self st))) (Some (cloud (pool.observe p)));
          resize_request (info (self st))].
Proof.
  intros Hp Htarget Hstate.
  assert (Hobs_target : target_dedicated_nodes (cloud (pool.observe p))
                        = target_dedicated_nodes (cloud p)).
  { unfold pool.observe.
    destruct (allocation_state (cloud p)), (unsettled_polls p); reflexivity. }
  assert (Hobs_state : allocation_state (cloud (pool.observe p)) ≠ resizing).
  { unfold pool.observe.
    destruct (allocation_state (cloud p)) eqn:Hs, (unsettled_polls p);
      cbn; rewrite ?Hs; done. }
  unfold _create_pool, pool.exists_, pool.get. run. cbn.
  rewrite Hp. rewrite bool_decide_true by eauto.
  run. cbn. rewrite Hp. run.
  rewrite bool_decide_true by (by rewrite Hobs_target).
  rewrite bool_decide_false by done. run.
  unfold pool.resize. run. cbn. rewrite lookup_insert_eq.
  destruct (bool_decide (allocation_state (cloud (pool.observe p)) = steady)).
  - run. eexists _, _. split; [reflexivity|]. split; [done|]. cbn.
    rewrite <- !app_assoc. reflexivity.
  - eexists _, _. split; [reflexivity|]. split; [done|]. cbn.
    rewrite <- !app_assoc. reflexivity.
Qed.

End PoolConvergence.

(** C1: for every descriptor and every state of the services in which the
    mission's pool does not exist, [_create_pool] run twice in a row returns
    both times; the two calls together issue exactly one pool-creation
    request (for the descriptor's pool) and no resize request; and the second
    call only looks (a [pool.exists] and a [pool.get]): it raises nothing
    and leaves everything but the trace as the first call left it. *)
Theorem create_pool_idempotent (fuel fuel' : nat) (st : State) :
  batch st !! pool_name (info (self st)) = None →
  ∃ st1 st2 evs,
    _create_pool fuel st = (Return tt, st1) ∧
    _create_pool fuel' st1 = (Return tt, st2) ∧
    trace st2 = trace st ++ evs ∧
    List.filter is_pool_add evs = [EvPoolAdd (pool_conf (info (self st)))] ∧
    List.filter is_pool_resize evs = [] ∧
    st2 = with_trace (λ t, t ++ [EvPoolExists (pool_name (info (self st)));
                                 EvPoolGet (pool_name (info (self st)))
                                   (Some {| target_dedicated_nodes :=
                                              n_nodes (info (self st));
                                            allocation_state := resizing |})])
            st1.
Proof.
  intros Hno. eexists _, _, _.
  split; [by apply create_pool_absent|].
  split.
  { eapply create_pool_matching.
    - cbn. by rewrite lookup_insert_eq.
    - reflexivity.
    - done. }
  cbn. split; [|split; [|split]].
  - rewrite <- app_assoc. reflexivity.
  - reflexivity.
  - reflexivity.
  - reflexivity.
Qed.

Lemma create_pool_idempotent_witness :
  ∃ st1 st2 evs,
    _create_pool 0 Example.fresh = (Return tt, st1) ∧
    _create_pool 0 st1 = (Return tt, st2) ∧
    trace st2 = trace Example.fresh ++ evs ∧
    List.filter is_pool_add evs = [EvPoolAdd (pool_conf Example.mission)] ∧
    List.filter is_pool_resize evs = [] ∧
    st2 = with_trace (λ t, t ++ [EvPoolExists "pool";
                                 EvPoolGet "pool"
                                   (Some {| target_dedicated_nodes := 4;
                                            allocation_state := resizing |})])
            st1.
Proof. apply (create_pool_idempotent 0 0 Example.fresh). reflexivity. Defined.

(** C2: for every existing pool whose target node count differs from the
    descriptor's, and a counter that outlasts the pool's settling,
    [_create_pool] comes to an end having issued exactly one resize request,
    which carries the descriptor's node count and the "requeue" deallocation
    option.  When the pool was resizing, the call returns and its requests
    are, in this order: the existence check, the look that found the pool
    resizing, a stop-resize, the looks of the wait (each after a sleep of
    two seconds, none but the last reporting a steady pool), and the resize
    request as the very last, straight after the look that reported the pool
    steady. *)
Theorem create_pool_convergent_resize (fuel : nat) (st : State) (p : PoolEntry) :
  batch st !! pool_name (info (self st)) = Some p →
  target_dedicated_nodes (cloud p) ≠ n_nodes (info (self st)) →
  (unsettled_polls p < fuel)%nat →
  ∃ r st' evs,
    _create_pool fuel st = (r, st') ∧ r ≠ Diverge ∧
    trace st' = trace st ++ evs ∧
    List.filter is_pool_resize evs = [resize_request (info (self st))] ∧
    (allocation_state (cloud p) = resizing →
       r = Return tt ∧
       evs = [EvPoolExists (pool_name (info (self st)));
              EvPoolGet (pool_name (info (self st))) (Some (cloud p));
              EvPoolStopResize (pool_name (info (self st)))]
             ++ steady_wait (pool_name (info (self st)))
                  (target_dedicated_nodes (cloud p)) (unsettled_polls p)
             ++ [resize_request (info (self st))]).
Proof.
  intros Hp Htarget Hfuel.
  destruct (decide (allocation_state (cloud p) = resizing)) as [Hstate|Hstate].
  - destruct (create_pool_resizing fuel st p Hp Htarget Hstate Hfuel)
      as (st' & Hrun & Htrace).
    eexists _, _, _. split; [exact Hrun|]. split; [done|].
    split; [exact Htrace|]. split.
    + cbn. rewrite List.filter_app, filter_resize_steady_wait. reflexivity.
    + intros _. split; reflexivity.
  - destruct (create_pool_not_resizing fuel st p Hp Htarget Hstate)
      as (r & st' & Hrun & Hr & Htrace).
    eexists _, _, _. split; [exact Hrun|]. split; [exact Hr|].
    split; [exact Htrace|]. split; [reflexivity|]. intros Hres. done.
Qed.

Lemma create_pool_convergent_resize_witness :
  ∃ r st' evs,
    _create_pool 4 Example.resizing_pool = (r, st') ∧ r ≠ Diverge ∧
    trace st' = trace Example.resizing_pool ++ evs ∧
    List.filter is_pool_resize evs = [resize_request Example.mission] ∧
    (resizing = resizing →
       r = Return tt ∧
       evs = [EvPoolExists "pool";
              EvPoolGet "pool" (Some {| target_dedicated_nodes := 2;
                                        allocation_state := resizing |});
              EvPoolStopResize "pool"]
             ++ steady_wait "pool" 2 3
             ++ [resize_request Example.mission]).
Proof.
  apply (create_pool_convergent_resize 4 Example.resizing_pool
    {| cloud := {| target_dedicated_nodes := 2; allocation_state := resizing |};
       entry_vm_size := "STANDARD_A1"; unsettled_polls := 3 |}).
  - reflexivity.
  - cbn. lia.
  - cbn. lia.
Defined.

(** ** The storage container *)

Lemma run_catch {A : Type} (body : M A) (handler : Exn → M A) st :
  catch body handler st = match body st with
                          | (Raise e, st') => handler e st'
                          | other => other
                          end.
Proof. reflexivity. Qed.

Section Container.

Context `{Pickle}.
Implicit Types (st : State) (name : string).

Lemma create_container_being_deleted name st m :
  containers (storage st) !! name = Some (Deleting (S m)) →
  storage_client.create_container name true st
  = (Raise (AzureConflictHttpError "ContainerBeingDeleted"),
     with_storage (λ s, set_containers (<[name := Deleting m]> (containers s)) s)
       (with_trace (λ t, t ++ [EvCreateContainer name true]) st)).
Proof.
  intros Hc. unfold storage_client.create_container. run. cbn.
  rewrite Hc. run. reflexivity.
Qed.

Lemma create_container_still_deleted name st m :
  containers (storage st) !! name = Some (Deleting (S m)) →
  storage_client.create_container name false st
  = (Return false,
     with_storage (λ s, set_containers (<[name := Deleting m]> (containers s)) s)
       (with_trace (λ t, t ++ [EvCreateContainer name false]) st)).
Proof.
  intros Hc. unfold storage_client.create_container. run. cbn.
  rewrite Hc. run. reflexivity.
Qed.

Lemma create_container_gone name fail_on_exist st :
  containers (storage st) !! name = Some (Deleting O) →
  storage_client.create_container name fail_on_exist st
  = (Return true,
     with_storage (λ s, set_containers (<[name := Present ∅]> (containers s)) s)
       (with_trace (λ t, t ++ [EvCreateContainer name fail_on_exist]) st)).
Proof.
  intros Hc. unfold storage_client.create_container, storage_client.put_blobs.
  run. cbn. rewrite Hc. run. reflexivity.
Qed.

(** The retry loop on a container that is gone after [m] more refusals:
    [m + 1] attempts, the last of which creates the container, provided
    the counter stays within its bound. *)
Lemma retry_create_succeeds (m : nat) :
  ∀ fuel st name counter,
    containers (storage st) !! name = Some (Deleting m) →
    (m < fuel)%nat →
    counter + Z.of_nat m + 1 ≤ 120 →
    ∃ st',
      retry_create fuel name false counter st = (Return tt, st') ∧
      containers (storage st') !! name = Some (Present ∅) ∧
      self st' = self st ∧
      sign (storage st') = sign (storage st) ∧
      clock st' = clock st + 5 * (Z.of_nat m + 1) ∧
      trace st' = trace st ++ retry_trace name (S m).
Proof.
  induction m as [|m IH]; intros fuel st name counter Hc Hfuel Hbound.
  - destruct fuel as [|fuel]; [lia|]. cbn [retry_create negb].
    unfold sleep. run.
    erewrite run_bind_return; last by apply create_container_gone.
    rewrite bool_decide_false by lia.
    destruct fuel; cbn.
    all: eexists; split; [reflexivity|]; cbn.
    all: rewrite lookup_insert_eq.
    all: repeat (split; [reflexivity|]).
    all: unfold retry_trace; cbn; rewrite <- app_assoc; reflexivity.
  - destruct fuel as [|fuel]; [lia|]. cbn [retry_create negb].
    unfold sleep. run.
    erewrite run_bind_return; last by apply create_container_still_deleted.
    rewrite bool_decide_false by lia.
    match goal with |- context [retry_create fuel name false ?c ?s] =>
      destruct (IH fuel s name c)
        as (st' & Hrun & Hcont & Hself & Hsign & Hclock & Htrace)
    end.
    + cbn. by rewrite lookup_insert_eq.
    + lia.
    + lia.
    + exists st'. split; [exact Hrun|]. split; [exact Hcont|].
      split; [exact Hself|]. split; [exact Hsign|].
      split; [rewrite Hclock; cbn; lia|].
      rewrite Htrace. cbn. unfold retry_trace. cbn.
      rewrite <- !app_assoc. reflexivity.
Qed.

(** The retry loop on a container that outlasts the bound: [r] attempts
    bring the counter to 121 and the loop raises. *)
Lemma retry_create_times_out (r : nat) :
  ∀ fuel st name counter m,
    containers (storage st) !! name = Some (Deleting m) →
    counter + Z.of_nat r = 120 →
    (r < m)%nat →
    (r < fuel)%nat →
    ∃ st',
      retry_create fuel name false counter st
      = (Raise (RuntimeError DeletionTimeout), st') ∧
      trace st' = trace st ++ retry_trace name (S r).
Proof.
  induction r as [|r IH]; intros fuel st name counter m Hc Hcount Hm Hfuel.
  - destruct fuel as [|fuel]; [lia|]. destruct m as [|m]; [lia|].
    cbn [retry_create negb]. unfold sleep. run.
    erewrite run_bind_return; last by apply create_container_still_deleted.
    rewrite bool_decide_true by lia.
    eexists. split; [reflexivity|]. cbn.
    unfold retry_trace; cbn. rewrite <- app_assoc. reflexivity.
  - destruct fuel as [|fuel]; [lia|]. destruct m as [|m]; [lia|].
    cbn [retry_create negb]. unfold sleep. run.
    erewrite run_bind_return; last by apply create_container_still_deleted.
    rewrite bool_decide_false by lia.
    match goal with |- context [retry_create fuel name false ?c ?s] =>
      destruct (IH fuel s name c m) as (st' & Hrun & Htrace)
    end.
    + cbn. by rewrite lookup_insert_eq.
    + lia.
    + lia.
    + lia.
    + exists st'. split; [exact Hrun|]. rewrite Htrace. cbn.
      unfold retry_trace. cbn. rewrite <- !app_assoc. reflexivity.
Qed.

Lemma filter_create_retry_trace name k :
  List.filter is_create_container (retry_trace name k)
  = replicate k (EvCreateContainer name false).
Proof.
  induction k as [|k IH]; [reflexivity|].
  unfold retry_trace in *. cbn. by rewrite IH.
Qed.

End Container.

Section ContainerRetry.

Context `{Pickle}.

(** [_create_storage_container] on a container that is being deleted is
    the first refused attempt, the retry loop, and then the session. *)
Lemma create_storage_container_retry fuel st m r st1 :
  containers (storage st) !! container_name (info (self st))
    = Some (Deleting (S m)) →
  retry_create fuel (container_name (info (self st))) false 0
    (with_storage (λ s, set_containers
         (<[container_name (info (self st)) := Deleting m]> (containers s)) s)
       (with_trace (λ t, t ++ [EvCreateContainer
                                 (container_name (info (self st))) true]) st))
  = (r, st1) →
  ∃ st',
    _create_storage_container fuel st = (r, st') ∧
    trace st' = trace st1 ∧
    containers (storage st') = containers (storage st1) ∧
    clock st' = clock st1 ∧
    (r = Return tt → session_established st').
Proof.
  intros Hc Hloop.
  unfold _create_storage_container. run. rewrite run_bind, run_catch.
  rewrite run_bind. rewrite (create_container_being_deleted _ _ _ Hc).
  cbn [bool_decide].
  rewrite bool_decide_false by done. rewrite bool_decide_true by done.
  rewrite Hloop. destruct r as [[]|e|].
  - unfold storage_client.generate_container_shared_access_signature,
      storage_client.make_container_url. run.
    eexists. split; [reflexivity|]. cbn.
    repeat (split; [reflexivity|]). intros _. split; done.
  - eexists. split; [reflexivity|]. repeat (split; [reflexivity|]). done.
  - eexists. split; [reflexivity|]. repeat (split; [reflexivity|]). done.
Qed.

End ContainerRetry.

(** C3, as the code has it: let the mission's container be in deletion so
    that the first creation attempt and the [N - 1] attempts after it are
    answered "being deleted" and the [N]-th retry would succeed, and let the
    counter of the model outlast the loop.  For every [N] from 1 to 120,
    [_create_storage_container] returns after exactly [N + 1] creation
    attempts, every retry straight after a sleep of five seconds ([5 * N]
    seconds in all), with the container created by the last one and the
    session established.  When the container is still being deleted at the
    121st retry ([N] above 121), the call raises the RuntimeError of the
    timeout after 122 creation attempts and tries no further. *)
Theorem create_container_bounded_retry `{Pickle} (fuel N : nat) (st : State) :
  containers (storage st) !! container_name (info (self st))
    = Some (Deleting N) →
  (121 ≤ fuel)%nat →
  ((1 ≤ N ≤ 120)%nat →
     ∃ st',
       _create_storage_container fuel st = (Return tt, st') ∧
       trace st'
       = trace st
         ++ EvCreateContainer (container_name (info (self st))) true
            :: retry_trace (container_name (info (self st))) N ∧
       length (List.filter is_create_container
                 (EvCreateContainer (container_name (info (self st))) true
                  :: retry_trace (container_name (info (self st))) N))
       = S N ∧
       containers (storage st') !! container_name (info (self st))
       = Some (Present ∅) ∧
       clock st' = clock st + 5 * Z.of_nat N ∧
       session_established st') ∧
  ((121 < N)%nat →
     ∃ st',
       _create_storage_container fuel st
       = (Raise (RuntimeError DeletionTimeout), st') ∧
       trace st'
       = trace st
         ++ EvCreateContainer (container_name (info (self st))) true
            :: retry_trace (container_name (info (self st))) 121 ∧
       length (List.filter is_create_container
                 (EvCreateContainer (container_name (info (self st))) true
                  :: retry_trace (container_name (info (self st))) 121))
       = 122%nat).
Proof.
  intros Hc Hfuel. split.
  - intros [Hlo Hhi]. destruct N as [|m]; [lia|].
    destruct (retry_create_succeeds m fuel
      (with_storage (λ s, set_containers
           (<[container_name (info (self st)) := Deleting m]> (containers s)) s)
         (with_trace (λ t, t ++ [EvCreateContainer
                                   (container_name (info (self st))) true]) st))
      (container_name (info (self st))) 0)
      as (st1 & Hloop & Hcont & Hself & Hsign & Hclock & Htrace).
    { cbn. by rewrite lookup_insert_eq. }
    { lia. }
    { lia. }
    destruct (create_storage_container_retry fuel st m _ _ Hc Hloop)
      as (st' & Hrun & Htrace' & Hcont' & Hclock' & Hsession).
    exists st'. split; [exact Hrun|].
    split; [rewrite Htrace', Htrace; cbn; by rewrite <- app_assoc|].
    split.
    { cbn [List.filter is_create_container length].
      by rewrite filter_create_retry_trace, length_replicate. }
    split; [by rewrite Hcont'|].
    split; [rewrite Hclock', Hclock; cbn; lia|].
    by apply Hsession.
  - intros Hlarge. destruct N as [|m]; [lia|].
    destruct (retry_create_times_out 120 fuel
      (with_storage (λ s, set_containers
           (<[container_name (info (self st)) := Deleting m]> (containers s)) s)
         (with_trace (λ t, t ++ [EvCreateContainer
                                   (container_name (info (self st))) true]) st))
      (container_name (info (self st))) 0 m)
      as (st1 & Hloop & Htrace).
    { cbn. by rewrite lookup_insert_eq. }
    { reflexivity. }
    { lia. }
    { lia. }
    destruct (create_storage_container_retry fuel st m _ _ Hc Hloop)
      as (st' & Hrun & Htrace' & _).
    exists st'. split; [exact Hrun|].
    split; [rewrite Htrace', Htrace; cbn; by rewrite <- app_assoc|].
    cbn [List.filter is_create_container length].
    by rewrite filter_create_retry_trace, length_replicate.
Qed.

Lemma create_container_bounded_retry_witness :
  ∃ st',
    @_create_storage_container digits_pickle 121 (Example.being_deleted 3)
    = (Return tt, st') ∧
    trace st'
    = [EvCreateContainer "mission" true;
       EvSleep 5; EvCreateContainer "mission" false;
       EvSleep 5; EvCreateContainer "mission" false;
       EvSleep 5; EvCreateContainer "mission" false] ∧
    containers (storage st') !! "mission" = Some (Present ∅) ∧
    clock st' = 1015 ∧
    session_established st'.
Proof.
  destruct (@create_container_bounded_retry digits_pickle 121 3
              (Example.being_deleted 3)) as [Hok _].
  - reflexivity.
  - lia.
  - destruct Hok as (st' & Hrun & Htrace & _ & Hcont & Hclock & Hsession); [lia|].
    exists st'. repeat split; try assumption; apply Hsession.
Defined.

(** C3 as it is written fails at N = 200: the first attempt and the 199
    after it are answered "being deleted" and the 200th retry would succeed,
    but the call makes 122 attempts, not 201, and raises the timeout. *)
Lemma create_container_gives_up_before_200 :
  let outcome :=
    @_create_storage_container digits_pickle 300 (Example.being_deleted 200) in
  outcome.1 = Raise (RuntimeError DeletionTimeout) ∧
  length (List.filter is_create_container (trace outcome.2)) = 122%nat ∧
  ¬ (outcome.1 = Return tt ∧
     length (List.filter is_create_container (trace outcome.2)) = 201%nat).
Proof.
  vm_compute. split; [reflexivity|]. split; [reflexivity|].
  intros [Hreturn _]. discriminate Hreturn.
Qed.

(** ** Recovering the ledger *)

Section Ledger.
Context `{Pickle}.

Lemma write_file_run p content st :
  os.write_file p content st
  = if os.isdir_in (local st) p then (Raise (IsADirectoryError p), st)
    else if os.isdir_in (local st) (os_path.dirname p)
    then (Return tt, with_local (set_files (<[p := content]> (files (local st)))) st)
    else (Raise (FileNotFoundError p), st).
Proof.
  unfold os.write_file. run.
  destruct (os.isdir_in (local st) p); [reflexivity|].
  destruct (os.isdir_in (local st) (os_path.dirname p)); reflexivity.
Qed.

Lemma create_storage_container_existing fuel st blobs content :
  mission_blobs st = Some blobs →
  blobs !! "uploaded_dirs.dat" = Some content →
  ∃ r st',
    _create_storage_container fuel st = (r, st') ∧
    (r = Return tt → pickle_loads content = Some (uploaded_dirs (self st'))) ∧
    (scratch_writable st → is_Some (pickle_loads content) → r = Return tt).
Proof.
  intros Hblobs Hcontent. unfold mission_blobs in Hblobs.
  pose proof Hblobs as Hc. unfold storage_client.blobs_of in Hc.
  destruct (containers (storage st) !! container_name (info (self st)))
    as [[blobs'|]|] eqn:Hcont; try discriminate. injection Hc as ->.
  assert (Hfirst : storage_client.create_container
                     (container_name (info (self st))) true st
                   = (Raise (AzureConflictHttpError "ContainerAlreadyExists"),
                      with_trace (λ t, t ++ [EvCreateContainer
                        (container_name (info (self st))) true]) st)).
  { unfold storage_client.create_container. run. simpl_state.
    rewrite Hcont. reflexivity. }
  unfold _create_storage_container. run. rewrite run_bind, run_catch.
  rewrite run_bind, Hfirst. cbn [bool_decide].
  rewrite bool_decide_true by done.
  unfold storage_client.exists_. run. simpl_state. rewrite Hblobs.
  rewrite bool_decide_true by eauto.
  unfold os.local_path. run. simpl_state. fold (scratch_path st).
  unfold storage_client.get_blob_to_path. run.
  rewrite run_bind, write_file_run. simpl_state. unfold scratch_writable.
  destruct (os.isdir_in (local st) (scratch_path st)) eqn:Hdir.
  { eexists _, _. split; [reflexivity|]. split; [done|]. by intros [? _]. }
  destruct (os.isdir_in (local st) (os_path.dirname (scratch_path st)))
    eqn:Hparent.
  2:{ eexists _, _. split; [reflexivity|]. split; [done|]. by intros [_ ?]. }
  run. unfold storage_client.require_container. run. simpl_state.
  rewrite Hblobs. run. rewrite Hcontent.
  rewrite run_bind, write_file_run. unfold os.isdir_in in *. simpl_state.
  rewrite Hdir, Hparent.
  unfold os.read_file. run. simpl_state. rewrite lookup_insert_eq. run.
  destruct (pickle_loads content) as [d|] eqn:Hloads.
  2:{ eexists _, _. split; [reflexivity|]. split; [done|].
      intros _ [? ?]. done. }
  unfold os.remove. run. simpl_state. rewrite lookup_insert_eq.
  rewrite bool_decide_true by eauto.
  unfold storage_client.generate_container_shared_access_signature,
    storage_client.make_container_url. run.
  eexists _, _. split; [reflexivity|]. split; done.
Qed.
End Ledger.

(** C4: for every state of the services in which the mission's container
    exists and holds a blob [uploaded_dirs.dat], whenever
    [_create_storage_container] returns, the in-memory ledger is what
    [pickle.loads] makes of that blob's content; and it does return when the
    content can be unpickled and the local file it passes through can be
    written. *)
Theorem create_container_recovers_ledger `{Pickle} (fuel : nat) (st : State)
    (blobs : gmap string string) (content : string) :
  mission_blobs st = Some blobs →
  blobs !! "uploaded_dirs.dat" = Some content →
  (∀ st', _create_storage_container fuel st = (Return tt, st') →
          pickle_loads content = Some (uploaded_dirs (self st'))) ∧
  (scratch_writable st → is_Some (pickle_loads content) →
   ∃ st', _create_storage_container fuel st = (Return tt, st')).
Proof.
  intros Hblobs Hcontent.
  destruct (create_storage_container_existing fuel st blobs content Hblobs Hcontent)
    as (r & st1 & Hrun & Hledger & Hreturns).
  split.
  - intros st' Hrun'. rewrite Hrun in Hrun'. injection Hrun' as -> ->.
    by apply Hledger.
  - intros Hwritable Hloads. exists st1. rewrite Hrun.
    by rewrite Hreturns.
Qed.

Lemma create_container_recovers_ledger_witness :
  ∃ st',
    @_create_storage_container digits_pickle 0 Example.restarted
    = (Return tt, st') ∧
    uploaded_dirs (self Example.restarted) = ∅ ∧
    uploaded_dirs (self st') = {[ "case" := ["home"; "u"] ]}.
Proof.
  destruct (@create_container_recovers_ledger digits_pickle 0 Example.restarted
              Example.staged_blobs
              (@pickle_dumps digits_pickle {[ "case" := ["home"; "u"] ]}))
    as [Hledger Hreturns].
  - vm_compute. reflexivity.
  - vm_compute. reflexivity.
  - destruct Hreturns as [st' Hrun].
    + split; vm_compute; reflexivity.
    + vm_compute. by eexists.
    + exists st'. split; [exact Hrun|]. split; [reflexivity|].
      specialize (Hledger st' Hrun).
      assert (Hloads : @pickle_loads digits_pickle
                (@pickle_dumps digits_pickle {[ "case" := ["home"; "u"] ]})
              = Some {[ "case" := ["home"; "u"] ]})
        by (vm_compute; reflexivity).
      rewrite Hloads in Hledger. by injection Hledger as <-.
Defined.

(** ** Strings and paths *)

Section Strings.

Implicit Types (s p x y : string) (segs : list string).

Lemma str_app_nil s : "" +:+ s = s.
Proof. reflexivity. Qed.

Lemma str_app_cons c x s : String c x +:+ s = String c (x +:+ s).
Proof. reflexivity. Qed.

Lemma str_app_assoc x y s : (x +:+ y) +:+ s = x +:+ (y +:+ s).
Proof.
  induction x as [|c x IH]; [done|]. rewrite !str_app_cons. by rewrite IH.
Qed.

Lemma starts_with_nil s : starts_with "" s = true.
Proof. by destruct s. Qed.

Lemma starts_with_cons c p c' s :
  starts_with (String c p) (String c' s)
  = if Ascii.ascii_dec c c' then starts_with p s else false.
Proof. reflexivity. Qed.

Lemma starts_with_app p s : starts_with p (p +:+ s) = true.
Proof.
  induction p as [|c p IH]; [apply starts_with_nil|].
  rewrite str_app_cons, starts_with_cons.
  destruct (Ascii.ascii_dec c c) as [_|Hne]; [exact IH|by destruct Hne].
Qed.

Lemma starts_with_has_slash x s :
  starts_with (x +:+ "/") s = true → has_slash s = true.
Proof.
  revert s. induction x as [|c x IH]; intros [|c' s]; try done.
  - rewrite str_app_nil, starts_with_cons.
    destruct (Ascii.ascii_dec "/" c') as [<-|]; [intros _; reflexivity|done].
  - rewrite str_app_cons, starts_with_cons.
    destruct (Ascii.ascii_dec c c') as [_|]; [|done].
    intros Hp. simpl. rewrite (IH s Hp). by rewrite orb_true_r.
Qed.

Lemma split_slash_no_slash s : has_slash s = false → split_slash s = [s].
Proof.
  induction s as [|c s IH]; simpl; [done|].
  intros [Hc Hs]%orb_false_iff. rewrite Hc, (IH Hs). reflexivity.
Qed.

Lemma split_slash_app x y :
  has_slash x = false → split_slash (x +:+ "/" +:+ y) = x :: split_slash y.
Proof.
  induction x as [|c x IH]; [done|]. rewrite str_app_cons. simpl.
  intros [Hc Hx]%orb_false_iff. rewrite Hc, (IH Hx). reflexivity.
Qed.

Lemma split_join_slash segs :
  segs ≠ [] → Forall (λ s, has_slash s = false) segs →
  split_slash (join_slash segs) = segs.
Proof.
  induction segs as [|x [|y segs] IH]; intros Hne Hall; [done| |].
  - cbn. apply split_slash_no_slash. by inversion Hall.
  - inversion Hall as [|? ? Hx Hrest]; subst.
    change (join_slash (x :: y :: segs)) with (x +:+ "/" +:+ join_slash (y :: segs)).
    rewrite split_slash_app by done. f_equal. by apply IH.
Qed.

Lemma join_slash_under x y segs :
  starts_with (x +:+ "/") (join_slash (x :: y :: segs)) = true.
Proof.
  change (join_slash (x :: y :: segs)) with (x +:+ "/" +:+ join_slash (y :: segs)).
  pose proof (starts_with_app (x +:+ "/") (join_slash (y :: segs))) as Hp.
  by rewrite str_app_assoc in Hp.
Qed.

Lemma join_slash_relative x segs :
  valid_segment x → starts_with "/" (join_slash (x :: segs)) = false.
Proof.
  intros (Hne & _ & _ & Hslash). destruct x as [|c x]; [done|].
  simpl in Hslash. apply orb_false_iff in Hslash as [Hc _].
  assert (Hhead : ∀ s, starts_with "/" (String c s) = false).
  { intros s. rewrite starts_with_cons.
    destruct (Ascii.ascii_dec "/" c) as [<-|]; [done|reflexivity]. }
  destruct segs; simpl; rewrite ?str_app_cons; apply Hhead.
Qed.

Lemma fold_norm_step_valid segs (acc : Path) :
  Forall valid_segment segs →
  fold_left os_path.norm_step segs acc = acc ++ segs.
Proof.
  revert acc. induction segs as [|x segs IH]; intros acc Hall; cbn.
  - by rewrite app_nil_r.
  - inversion Hall as [|? ? (Hne & Hdot & Hdots & _) Hrest]; subst.
    unfold os_path.norm_step at 2.
    rewrite bool_decide_false by (intros [?|?]; done).
    rewrite bool_decide_false by done.
    rewrite (IH _ Hrest), <- app_assoc. reflexivity.
Qed.

End Strings.

(** ** Loops and single requests *)

Lemma for_each_app {A : Type} (l1 l2 : list A) (body : A → M unit) st :
  for_each (l1 ++ l2) body st = (for_each l1 body ;; for_each l2 body) st.
Proof.
  revert st. induction l1 as [|x l1 IH]; intros st; [reflexivity|].
  cbn [app for_each]. rewrite run_bind_assoc, !(run_bind (body x)).
  destruct (body x st) as [[[]|e|] st']; [apply IH|reflexivity|reflexivity].
Qed.

Lemma lookup_delete_all (names : list string) (blobs : gmap string string) b :
  delete_all names blobs !! b = if decide (b ∈ names) then None else blobs !! b.
Proof.
  unfold delete_all. revert blobs.
  induction names as [|x names IH]; intros blobs; cbn [fold_left].
  - by rewrite decide_False by set_solver.
  - rewrite IH. destruct (decide (b ∈ names)) as [Hin|Hnot].
    + by rewrite decide_True by set_solver.
    + destruct (decide (b = x)) as [->|Hne].
      * rewrite decide_True by set_solver. apply lookup_delete_eq.
      * rewrite decide_False by set_solver. by apply lookup_delete_ne.
Qed.

Lemma blobs_under_NoDup prefix (blobs : gmap string string) :
  NoDup (blobs_under prefix blobs).
Proof. apply NoDup_filter, NoDup_fst_map_to_list. Qed.

Lemma elem_of_blobs_under prefix (blobs : gmap string string) b :
  b ∈ blobs_under prefix blobs ↔ is_Some (blobs !! b) ∧ starts_with prefix b = true.
Proof.
  unfold blobs_under. rewrite list_elem_of_filter, list_elem_of_fmap. split.
  - intros [Hp ([k v] & -> & Hin)]. split; [|done].
    apply elem_of_map_to_list in Hin. eauto.
  - intros [[v Hv] Hp]. split; [done|]. exists (b, v). split; [done|].
    by apply elem_of_map_to_list.
Qed.

Section Requests.

Context `{Pickle}.
Implicit Types (st : State) (blobs : gmap string string).

Lemma mission_blobs_containers st blobs :
  mission_blobs st = Some blobs ↔
  containers (storage st) !! container_name (info (self st)) = Some (Present blobs).
Proof.
  unfold mission_blobs, storage_client.blobs_of.
  destruct (containers (storage st) !! container_name (info (self st)))
    as [[?|?]|]; split; congruence.
Qed.

Lemma only_blobs_changed_refl st blobs :
  mission_blobs st = Some blobs → only_blobs_changed st st blobs.
Proof.
  intros Hb%mission_blobs_containers. repeat split. by rewrite insert_id.
Qed.

Lemma only_blobs_changed_trans st st1 st2 blobs1 blobs2 :
  only_blobs_changed st st1 blobs1 → only_blobs_changed st1 st2 blobs2 →
  only_blobs_changed st st2 blobs2.
Proof.
  intros (Hs1 & Hl1 & Hr1 & Hc1) (Hs2 & Hl2 & Hr2 & Hc2).
  repeat split; try congruence.
  rewrite Hc2, Hc1, Hs1. apply insert_insert_eq.
Qed.

Lemma only_blobs_changed_blobs st st' blobs :
  only_blobs_changed st st' blobs → mission_blobs st' = Some blobs.
Proof.
  intros (Hs & _ & _ & Hc). apply mission_blobs_containers.
  rewrite Hc, Hs. apply lookup_insert_eq.
Qed.

Lemma list_blobs_run st blobs prefix num_results :
  mission_blobs st = Some blobs →
  storage_client.list_blobs (container_name (info (self st))) prefix num_results st
  = (Return (take (Z.to_nat num_results) (blobs_under prefix blobs)),
     with_trace (λ t, t ++ [EvListBlobs (container_name (info (self st)))
                              prefix num_results]) st).
Proof.
  intros Hb. unfold storage_client.list_blobs, storage_client.require_container.
  run. simpl_state. unfold mission_blobs in Hb. rewrite Hb. reflexivity.
Qed.

Lemma delete_blob_run st blobs b :
  mission_blobs st = Some blobs →
  is_Some (blobs !! b) →
  storage_client.delete_blob (container_name (info (self st))) b st
  = (Return tt,
     with_storage (λ s, set_containers
         (<[container_name (info (self st)) := Present (delete b blobs)]>
            (containers s)) s)
       (with_trace (λ t, t ++ [EvDeleteBlob (container_name (info (self st))) b])
          st)).
Proof.
  intros Hb Hin. unfold storage_client.delete_blob,
    storage_client.require_container, storage_client.put_blobs.
  run. simpl_state. unfold mission_blobs in Hb. rewrite Hb. run.
  rewrite bool_decide_true by done. reflexivity.
Qed.

(** The loop of [_delete_dir]: every listed blob is deleted. *)
Lemma delete_loop (names : list string) :
  ∀ st blobs,
    mission_blobs st = Some blobs →
    NoDup names →
    (∀ b, b ∈ names → is_Some (blobs !! b)) →
    ∃ st',
      for_each names
        (λ b, storage_client.delete_blob (container_name (info (self st))) b) st
      = (Return tt, st') ∧
      only_blobs_changed st st' (delete_all names blobs) ∧
      trace st'
      = trace st ++ (EvDeleteBlob (container_name (info (self st))) <$> names).
Proof.
  induction names as [|b names IH]; intros st blobs Hb Hnodup Hin.
  - exists st. split; [reflexivity|].
    split; [by apply only_blobs_changed_refl|]. by rewrite app_nil_r.
  - apply NoDup_cons in Hnodup as [Hfresh Hnodup].
    cbn [for_each]. erewrite run_bind_return;
      last (apply delete_blob_run; [exact Hb|apply Hin; set_solver]).
    match goal with |- context [for_each names _ ?s] => set (st1 := s) end.
    assert (Hstep : only_blobs_changed st st1 (delete b blobs)) by done.
    destruct (IH st1 (delete b blobs)) as (st' & Hrun & Hframe & Htrace).
    + by apply (only_blobs_changed_blobs st).
    + done.
    + intros b' Hb'. rewrite lookup_delete_ne by set_solver.
      apply Hin. set_solver.
    + exists st'. split; [exact Hrun|]. split.
      * by apply (only_blobs_changed_trans st st1 st' (delete b blobs)).
      * rewrite Htrace. subst st1. simpl_state. cbn [fmap list_fmap].
        by rewrite <- app_assoc.
Qed.

Lemma read_file_run st p content :
  files (local st) !! p = Some content →
  os.read_file p st = (Return content, st).
Proof. intros Hf. unfold os.read_file. run. by rewrite Hf. Qed.

Lemma create_blob_run st name blobs b p content :
  storage_client.blobs_of (storage st) name = Some blobs →
  files (local st) !! p = Some content →
  b ∉ refused_blobs (storage st) →
  storage_client.create_blob_from_path name b p st
  = (Return tt,
     with_storage (λ s, set_containers
         (<[name := Present (<[b := content]> blobs)]> (containers s)) s)
       (with_trace (λ t, t ++ [EvCreateBlob name b p]) st)).
Proof.
  intros Hb Hf Hok. unfold storage_client.create_blob_from_path,
    storage_client.require_container, storage_client.put_blobs.
  rewrite run_bind, (read_file_run _ _ _ Hf).
  run. simpl_state. rewrite Hb. run.
  rewrite bool_decide_false by done. reflexivity.
Qed.

Lemma create_blob_refused st name blobs b p content :
  storage_client.blobs_of (storage st) name = Some blobs →
  files (local st) !! p = Some content →
  b ∈ refused_blobs (storage st) →
  storage_client.create_blob_from_path name b p st
  = (Raise (AzureHttpError "InternalError"),
     with_trace (λ t, t ++ [EvCreateBlob name b p]) st).
Proof.
  intros Hb Hf Hrefused. unfold storage_client.create_blob_from_path,
    storage_client.require_container.
  rewrite run_bind, (read_file_run _ _ _ Hf).
  run. simpl_state. rewrite Hb. run.
  rewrite bool_decide_true by done. reflexivity.
Qed.

Lemma write_file_ok st p content :
  os.isdir_in (local st) p = false →
  os.isdir_in (local st) (os_path.dirname p) = true →
  os.write_file p content st
  = (Return tt, with_local (set_files (<[p := content]> (files (local st)))) st).
Proof. intros Hp Hparent. by rewrite write_file_run, Hp, Hparent. Qed.

(** Persisting the ledger when the service takes the blob: the blob holds
    the pickled ledger and the local file is gone again. *)
Lemma persist_accepted st blobs :
  mission_blobs st = Some blobs →
  scratch_writable st →
  "uploaded_dirs.dat" ∉ refused_blobs (storage st) →
  ∃ st',
    persist_uploaded_dirs st = (Return tt, st') ∧
    self st' = self st ∧
    mission_blobs st'
    = Some (<["uploaded_dirs.dat" := pickle_dumps (uploaded_dirs (self st))]> blobs) ∧
    files (local st') = delete (scratch_path st) (files (local st)) ∧
    trace st'
    = trace st ++ [EvCreateBlob (container_name (info (self st)))
                     "uploaded_dirs.dat" (scratch_path st)].
Proof.
  intros Hb [Hfree Hcwd] Hok. unfold persist_uploaded_dirs, os.local_path.
  run. fold (scratch_path st).
  erewrite run_bind_return; last by apply write_file_ok.
  erewrite run_bind_return; last first.
  { apply (create_blob_run _ _ blobs); simpl_state; [done| |done].
    apply lookup_insert_eq. }
  unfold os.remove. run. simpl_state. rewrite lookup_insert_eq.
  rewrite bool_decide_true by eauto. run.
  eexists. split; [reflexivity|]. simpl_state.
  split; [reflexivity|]. split.
  { apply mission_blobs_containers. simpl_state. apply lookup_insert_eq. }
  split; [|reflexivity].
  by rewrite delete_insert_eq.
Qed.

(** Persisting the ledger when the service refuses the blob: the exception
    leaves the pickled ledger in the local file and the blobs as they
    were. *)
Lemma persist_refused st blobs :
  mission_blobs st = Some blobs →
  scratch_writable st →
  "uploaded_dirs.dat" ∈ refused_blobs (storage st) →
  ∃ st',
    persist_uploaded_dirs st = (Raise (AzureHttpError "InternalError"), st') ∧
    self st' = self st ∧
    mission_blobs st' = Some blobs ∧
    files (local st')
    = <[scratch_path st := pickle_dumps (uploaded_dirs (self st))]> (files (local st)) ∧
    trace st'
    = trace st ++ [EvCreateBlob (container_name (info (self st)))
                     "uploaded_dirs.dat" (scratch_path st)].
Proof.
  intros Hb [Hfree Hcwd] Hrefused. unfold persist_uploaded_dirs, os.local_path.
  run. fold (scratch_path st).
  erewrite run_bind_return; last by apply write_file_ok.
  erewrite run_bind_raise; last first.
  { eapply (create_blob_refused _ _ blobs); simpl_state; [done| |done].
    apply lookup_insert_eq. }
  eexists. split; [reflexivity|]. simpl_state. done.
Qed.

End Requests.

(** ** Purging a case *)

Section Purge.

Context `{Pickle}.
Implicit Types (st : State) (blobs : gmap string string).

(** [_delete_dir] on a case of the ledger: the listed blobs are deleted, the
    entry is removed, and what remains is to persist the ledger. *)
Lemma delete_dir_known_case st dir_path ignore_not_exist blobs parent :
  session_established st →
  uploaded_dirs (self st) !! os_path.basename (case_path st dir_path) = Some parent →
  mission_blobs st = Some blobs →
  ∃ st1,
    only_blobs_changed st st1
      (delete_all (take (Z.to_nat 50000)
                     (blobs_under (case_prefix st dir_path) blobs)) blobs) ∧
    trace st1
    = trace st
      ++ EvListBlobs (container_name (info (self st))) (case_prefix st dir_path) 50000
         :: (EvDeleteBlob (container_name (info (self st)))
               <$> take (Z.to_nat 50000)
                     (blobs_under (case_prefix st dir_path) blobs)) ∧
    _delete_dir dir_path ignore_not_exist st
    = persist_uploaded_dirs
        (with_self (set_uploaded_dirs
           (delete (os_path.basename (case_path st dir_path))
              (uploaded_dirs (self st)))) st1).
Proof.
  intros [Hu Ht] Hknown Hb. unfold case_prefix, case_path in *.
  set (base := os_path.basename (os_path.abspath (cwd (local st)) dir_path)) in *.
  set (listed := take (Z.to_nat 50000) (blobs_under (base +:+ "/") blobs)).
  destruct (delete_loop listed
    (with_trace (λ t, t ++ [EvListBlobs (container_name (info (self st)))
                              (base +:+ "/") 50000]) st) blobs)
    as (st1 & Hloop & Hframe & Htrace).
  { exact Hb. }
  { eapply sublist_NoDup; [apply blobs_under_NoDup|apply sublist_take]. }
  { intros b Hin. apply subseteq_take in Hin.
    by apply elem_of_blobs_under in Hin as [? _]. }
  simpl_state. exists st1. split.
  { destruct Hframe as (? & ? & ? & ?). by repeat split. }
  split.
  { rewrite Htrace. simpl_state. by rewrite <- app_assoc. }
  unfold _delete_dir. run_deciding. fold base. cbn [negb].
  erewrite run_bind_return; last by apply list_blobs_run.
  fold listed.
  erewrite run_bind_return; last exact Hloop.
  destruct Hframe as (Hself & _). run. rewrite Hself. simpl_state.
  unfold dict_get. rewrite Hknown. run. reflexivity.
Qed.

End Purge.

Section PurgeOutcome.

Context `{Pickle}.
Implicit Types (st : State) (blobs : gmap string string).

Lemma ledger_blob_outside_prefix x : starts_with (x +:+ "/") "uploaded_dirs.dat" = false.
Proof.
  destruct (starts_with (x +:+ "/") "uploaded_dirs.dat") eqn:Hp; [|done].
  by apply starts_with_has_slash in Hp.
Qed.

(** [_delete_dir] on a case of the ledger, when the ledger can be
    persisted. *)
Lemma delete_dir_outcome st dir_path ignore_not_exist blobs parent :
  session_established st →
  uploaded_dirs (self st) !! os_path.basename (case_path st dir_path) = Some parent →
  mission_blobs st = Some blobs →
  scratch_writable st →
  "uploaded_dirs.dat" ∉ refused_blobs (storage st) →
  ∃ st',
    _delete_dir dir_path ignore_not_exist st = (Return tt, st') ∧
    uploaded_dirs (self st')
    = delete (os_path.basename (case_path st dir_path)) (uploaded_dirs (self st)) ∧
    mission_blobs st'
    = Some (<["uploaded_dirs.dat" :=
                pickle_dumps (delete (os_path.basename (case_path st dir_path))
                                (uploaded_dirs (self st)))]>
              (delete_all (take (Z.to_nat 50000)
                             (blobs_under (case_prefix st dir_path) blobs)) blobs)) ∧
    trace st'
    = trace st
      ++ EvListBlobs (container_name (info (self st))) (case_prefix st dir_path) 50000
         :: (EvDeleteBlob (container_name (info (self st)))
               <$> take (Z.to_nat 50000)
                     (blobs_under (case_prefix st dir_path) blobs))
      ++ [EvCreateBlob (container_name (info (self st))) "uploaded_dirs.dat"
            (scratch_path st)].
Proof.
  intros Hsession Hknown Hb Hwritable Hok.
  destruct (delete_dir_known_case st dir_path ignore_not_exist blobs parent
              Hsession Hknown Hb) as (st1 & Hframe & Htrace & Hrun).
  pose proof (only_blobs_changed_blobs _ _ _ Hframe) as Hb1.
  destruct Hframe as (Hself & Hlocal & Hrefused & _).
  match type of Hrun with _ = persist_uploaded_dirs ?s => set (st2 := s) in * end.
  destruct (persist_accepted st2
              (delete_all (take (Z.to_nat 50000)
                 (blobs_under (case_prefix st dir_path) blobs)) blobs))
    as (st' & Hpersist & Hself' & Hblobs' & _ & Htrace').
  { unfold mission_blobs in *. subst st2. simpl_state. exact Hb1. }
  { unfold scratch_writable, scratch_path in *. subst st2. simpl_state.
    by rewrite Hlocal. }
  { subst st2. simpl_state. by rewrite Hrefused. }
  exists st'. split; [by rewrite Hrun|]. split; [by rewrite Hself'|].
  split; [exact Hblobs'|].
  rewrite Htrace'. subst st2. unfold scratch_path. simpl_state.
  rewrite Htrace, Hself, Hlocal. rewrite <- !app_assoc. reflexivity.
Qed.

(** What a listing leaves out when more blobs match than it returns. *)
Lemma beyond_limit_survives (names : list string) (n : nat) blobs :
  NoDup names →
  (∀ b, b ∈ names → is_Some (blobs !! b)) →
  (n < length names)%nat →
  ∃ b, b ∈ names ∧ is_Some (delete_all (take n names) blobs !! b).
Proof.
  intros Hnodup Hin Hlen.
  destruct (lookup_lt_is_Some_2 names n Hlen) as [b Hb].
  exists b. split; [by eapply list_elem_of_lookup_2|].
  rewrite lookup_delete_all, decide_False.
  - apply Hin. by eapply list_elem_of_lookup_2.
  - intros (j & Hj & Hlt)%elem_of_take.
    pose proof (NoDup_lookup _ _ _ _ Hnodup Hb Hj). lia.
Qed.

End PurgeOutcome.

(** C7, as the code has it: for every case base name in the ledger of a
    controller with a session, on a container in which at most 50000 blobs
    are stored under the prefix "{base name}/" (the number of results that
    [_delete_dir] asks of its one listing), when the ledger file can be
    written and uploaded, [_delete_dir] returns having deleted every blob
    under the prefix with one request each, removed the case from the
    in-memory ledger and stored the pickled new ledger as the blob
    [uploaded_dirs.dat]; afterwards no blob remains under the prefix and
    every other blob but the ledger's is as it was. *)
Theorem delete_dir_purges_case `{Pickle} (st : State) (dir_path : string)
    (ignore_not_exist : bool) (blobs : gmap string string) (parent : Path) :
  session_established st →
  uploaded_dirs (self st) !! os_path.basename (case_path st dir_path) = Some parent →
  mission_blobs st = Some blobs →
  scratch_writable st →
  "uploaded_dirs.dat" ∉ refused_blobs (storage st) →
  Z.of_nat (length (blobs_under (case_prefix st dir_path) blobs)) ≤ 50000 →
  ∃ st' blobs',
    _delete_dir dir_path ignore_not_exist st = (Return tt, st') ∧
    uploaded_dirs (self st')
    = delete (os_path.basename (case_path st dir_path)) (uploaded_dirs (self st)) ∧
    mission_blobs st' = Some blobs' ∧
    (∀ b, starts_with (case_prefix st dir_path) b = true → blobs' !! b = None) ∧
    blobs' !! "uploaded_dirs.dat" = Some (pickle_dumps (uploaded_dirs (self st'))) ∧
    (∀ b, starts_with (case_prefix st dir_path) b = false →
          b ≠ "uploaded_dirs.dat" → blobs' !! b = blobs !! b) ∧
    trace st'
    = trace st
      ++ EvListBlobs (container_name (info (self st))) (case_prefix st dir_path) 50000
         :: (EvDeleteBlob (container_name (info (self st)))
               <$> blobs_under (case_prefix st dir_path) blobs)
      ++ [EvCreateBlob (container_name (info (self st))) "uploaded_dirs.dat"
            (scratch_path st)].
Proof.
  intros Hsession Hknown Hb Hwritable Hok Hfew.
  destruct (delete_dir_outcome st dir_path ignore_not_exist blobs parent
              Hsession Hknown Hb Hwritable Hok)
    as (st' & Hrun & Hledger & Hblobs' & Htrace).
  rewrite take_ge in Hblobs', Htrace by lia.
  eexists st', _. split; [exact Hrun|]. split; [exact Hledger|].
  split; [exact Hblobs'|]. split; [|split; [|split]].
  - intros b Hunder.
    rewrite lookup_insert_ne; last first.
    { intros <-. unfold case_prefix in Hunder.
      by rewrite ledger_blob_outside_prefix in Hunder. }
    rewrite lookup_delete_all.
    destruct (decide (b ∈ blobs_under (case_prefix st dir_path) blobs))
      as [_|Hnot]; [done|].
    destruct (blobs !! b) as [v|] eqn:Hv; [|done].
    destruct Hnot. apply elem_of_blobs_under. eauto.
  - rewrite lookup_insert_eq, Hledger. reflexivity.
  - intros b Hout Hne. rewrite lookup_insert_ne by done.
    rewrite lookup_delete_all, decide_False; [done|].
    intros [_ Hunder]%elem_of_blobs_under. congruence.
  - exact Htrace.
Qed.

Lemma delete_dir_purges_case_witness :
  ∃ st' blobs',
    @_delete_dir digits_pickle "case" false Example.staged = (Return tt, st') ∧
    uploaded_dirs (self st') = ∅ ∧
    mission_blobs st' = Some blobs' ∧
    blobs' !! "case/a.txt" = None ∧
    blobs' !! "case/sub/b.txt" = None ∧
    blobs' !! "uploaded_dirs.dat" = Some (@pickle_dumps digits_pickle ∅).
Proof.
  destruct (@delete_dir_purges_case digits_pickle Example.staged "case" false
              Example.staged_blobs ["home"; "u"])
    as (st' & blobs' & Hrun & Hledger & Hblobs & Hgone & Hpersisted & _).
  - split; vm_compute; discriminate.
  - vm_compute. reflexivity.
  - vm_compute. reflexivity.
  - split; vm_compute; reflexivity.
  - assert (Hnone : refused_blobs (storage Example.staged) = ∅)
      by (vm_compute; reflexivity).
    rewrite Hnone. apply not_elem_of_empty.
  - vm_compute. discriminate.
  - exists st', blobs'. split; [exact Hrun|].
    assert (Hempty : uploaded_dirs (self st') = ∅).
    { rewrite Hledger. vm_compute. reflexivity. }
    split; [exact Hempty|]. split; [exact Hblobs|].
    split; [apply Hgone; vm_compute; reflexivity|].
    split; [apply Hgone; vm_compute; reflexivity|].
    rewrite Hpersisted, Hempty. reflexivity.
Defined.

Section Crowd.

Lemma letters_inj : Inj (=) (=) letters.
Proof.
  intros n. induction n as [|n IH]; intros [|m] Heq; try done.
  injection Heq as Heq. f_equal. by apply IH.
Qed.

Lemma crowd_name_inj : Inj (=) (=) Example.crowd_name.
Proof.
  intros n m Heq. unfold Example.crowd_name in Heq.
  apply String.app_inj in Heq. by apply letters_inj.
Qed.

Lemma filter_all {A : Type} (P : A → Prop) `{∀ x, Decision (P x)} (l : list A) :
  Forall P l → filter P l = l.
Proof.
  induction 1 as [|x l Hx Hl IH]; [done|].
  rewrite filter_cons, decide_True by done. by rewrite IH.
Qed.

Lemma crowd_under_prefix (n : nat) :
  length (blobs_under "case/" (Example.crowd_of n)) = n.
Proof.
  unfold blobs_under, Example.crowd_of.
  assert (Hkeys : ((λ k, (Example.crowd_name k, "data")) <$> seq 0 n).*1
                  = Example.crowd_name <$> seq 0 n).
  { rewrite <- list_fmap_compose. reflexivity. }
  assert (Hnodup : NoDup (Example.crowd_name <$> seq 0 n)).
  { apply NoDup_fmap_2; [apply crowd_name_inj|apply NoDup_seq]. }
  rewrite map_to_list_to_map by (by rewrite Hkeys).
  rewrite Hkeys. rewrite filter_all.
  - by rewrite length_fmap, length_seq.
  - apply Forall_fmap, Forall_forall. intros k _.
    apply starts_with_app.
Qed.

End Crowd.

(** C7 as it is written fails on a container that holds 50001 blobs under
    the prefix of a case: [_delete_dir] returns and the case is gone from the
    ledger, but a blob is still stored under "case/". *)
Lemma delete_dir_leaves_a_blob_of_50001 :
  ∃ st' blobs' b,
    @_delete_dir digits_pickle "case" true Example.crowded = (Return tt, st') ∧
    uploaded_dirs (self st') !! "case" = None ∧
    mission_blobs st' = Some blobs' ∧
    starts_with "case/" b = true ∧
    is_Some (blobs' !! b).
Proof.
  destruct (@delete_dir_outcome digits_pickle Example.crowded "case" true
              Example.crowd ["home"; "u"])
    as (st' & Hrun & Hledger & Hblobs & _).
  - split; discriminate.
  - reflexivity.
  - reflexivity.
  - split; reflexivity.
  - apply not_elem_of_empty.
  - change (case_prefix Example.crowded "case") with "case/" in Hblobs.
    change (os_path.basename (case_path Example.crowded "case")) with "case"
      in Hledger, Hblobs.
    destruct (beyond_limit_survives (blobs_under "case/" Example.crowd)
                (Z.to_nat 50000) Example.crowd) as (b & Hb & Hleft).
    { apply blobs_under_NoDup. }
    { intros b Hb. by apply elem_of_blobs_under in Hb as [? _]. }
    { unfold Example.crowd. rewrite crowd_under_prefix. lia. }
    apply elem_of_blobs_under in Hb as [_ Hunder].
    eexists st', _, b. split; [exact Hrun|].
    split; [rewrite Hledger; apply lookup_delete_eq|].
    split; [exact Hblobs|]. split; [exact Hunder|].
    rewrite lookup_insert_ne; [exact Hleft|].
    intros <-. pose proof (ledger_blob_outside_prefix "case") as Hout.
    change ("case" +:+ "/") with "case/" in Hout. congruence.
Qed.

(** ** Paths of a case directory *)

Section Paths.

Implicit Types (p q d parent rest : Path) (f : string).

Lemma valid_segment_no_slash f : valid_segment f → has_slash f = false.
Proof. by intros (_ & _ & _ & ?). Qed.

Lemma join_valid d f : valid_segment f → os_path.join d f = d ++ [f].
Proof.
  intros Hf. unfold os_path.join, os_path.resolve.
  rewrite split_slash_no_slash by by apply valid_segment_no_slash.
  pose proof (join_slash_relative f [] Hf) as Hrel. cbn [join_slash] in Hrel.
  rewrite Hrel. apply fold_norm_step_valid. by constructor.
Qed.

Lemma common_app parent rest :
  os_path.common (parent ++ rest) parent = length parent.
Proof.
  induction parent as [|x parent IH]; cbn.
  - by destruct rest.
  - rewrite bool_decide_true by done. by rewrite IH.
Qed.

Lemma relpath_under parent rest :
  rest ≠ [] → os_path.relpath (parent ++ rest) parent = join_slash rest.
Proof.
  intros Hne. unfold os_path.relpath. rewrite common_app.
  rewrite Nat.sub_diag, drop_app_length. cbn [replicate app].
  by destruct rest.
Qed.

Lemma join_join_slash parent rest :
  rest ≠ [] → Forall valid_segment rest →
  os_path.join parent (join_slash rest) = parent ++ rest.
Proof.
  intros Hne Hvalid. unfold os_path.join, os_path.resolve.
  rewrite split_join_slash; [|done|].
  - destruct rest as [|x rest]; [done|].
    rewrite join_slash_relative by by inversion Hvalid.
    by apply fold_norm_step_valid.
  - eapply Forall_impl; [exact Hvalid|]. apply valid_segment_no_slash.
Qed.

Lemma join_dirname_join_slash parent rest :
  rest ≠ [] → Forall valid_segment rest →
  os_path.join_dirname parent (join_slash rest) = parent ++ removelast rest.
Proof.
  intros Hne Hvalid. unfold os_path.join_dirname.
  rewrite split_join_slash; [|done|].
  - destruct rest as [|x rest]; [done|].
    rewrite join_slash_relative by by inversion Hvalid.
    apply fold_norm_step_valid.
    rewrite removelast_firstn_len. by apply Forall_take.
  - eapply Forall_impl; [exact Hvalid|]. apply valid_segment_no_slash.
Qed.

(** A path strictly below [p] is the parent of [p], the base name of [p]
    and at least one more segment. *)
Lemma below_case p q :
  p ≠ [] → p `prefix_of` q → q ≠ p →
  ∃ x rest, q = os_path.dirname p ++ os_path.basename p :: x :: rest.
Proof.
  intros Hp [k ->] Hne. destruct k as [|x rest].
  { by rewrite app_nil_r in Hne. }
  exists x, rest. unfold os_path.dirname, os_path.basename.
  destruct (last p) as [b|] eqn:Hlast.
  - apply last_Some in Hlast as [p' ->].
    rewrite removelast_last. cbn. by rewrite <- app_assoc.
  - by apply last_None in Hlast.
Qed.

Lemma blob_name_below p x rest :
  blob_name_of p (os_path.dirname p ++ os_path.basename p :: x :: rest)
  = join_slash (os_path.basename p :: x :: rest).
Proof. unfold blob_name_of. by apply relpath_under. Qed.

End Paths.

(** ** The tree that [os.walk] goes through *)

Section Tree.

Implicit Types (l : Local) (p q d : Path).

Lemma elem_of_concat {A : Type} (ls : list (list A)) (x : A) :
  x ∈ concat ls ↔ ∃ k, k ∈ ls ∧ x ∈ k.
Proof.
  rewrite list_elem_of_In, in_concat. split.
  - intros (k & Hk & Hx). exists k. by rewrite !list_elem_of_In.
  - intros (k & Hk & Hx). exists k. by rewrite <- !list_elem_of_In.
Qed.

Lemma isdir_in_spec l d : os.isdir_in l d = true ↔ d = [] ∨ d ∈ dirs l.
Proof. unfold os.isdir_in. by rewrite bool_decide_eq_true. Qed.

(** In a well-formed tree the ancestors of a directory are directories. *)
Lemma ancestor_isdir l p (k : Path) :
  fs_wf l → os.isdir_in l (p ++ k) = true → os.isdir_in l p = true.
Proof.
  intros [_ Hdirs]. induction k as [|x k IH] using rev_ind.
  - by rewrite app_nil_r.
  - intros [Hroot|Hin]%isdir_in_spec.
    + by destruct p, k.
    + apply IH. specialize (Hdirs _ Hin). cbn beta in Hdirs.
      unfold os_path.dirname in Hdirs.
      by rewrite app_assoc, removelast_last in Hdirs.
Qed.

Lemma file_ok_lookup l q c : fs_wf l → files l !! q = Some c → file_ok l q.
Proof. intros [Hfiles _] Hq. exact (Hfiles q c Hq). Qed.

Lemma path_snoc q : q ≠ [] → ∃ f, last q = Some f ∧ q = os_path.dirname q ++ [f].
Proof.
  intros Hne. destruct (last q) as [f|] eqn:Hlast.
  - exists f. split; [done|]. apply last_Some in Hlast as [q' ->].
    unfold os_path.dirname. by rewrite removelast_last.
  - by apply last_None in Hlast.
Qed.

Lemma elem_of_listdir_files l d f :
  f ∈ os.listdir_files l d ↔
  ∃ q, is_Some (files l !! q) ∧ q ≠ [] ∧ os_path.dirname q = d ∧ last q = Some f.
Proof.
  unfold os.listdir_files. rewrite list_elem_of_omap. split.
  - intros (q & Hq & Hf). exists q.
    apply list_elem_of_fmap in Hq as ([q' c] & -> & Hin).
    apply elem_of_map_to_list in Hin. cbn in *.
    case_bool_decide as Hcond; [|done]. destruct Hcond. eauto.
  - intros (q & [c Hc] & Hne & Hd & Hf). exists q. split.
    + apply list_elem_of_fmap. exists (q, c). split; [done|].
      by apply elem_of_map_to_list.
    + by rewrite bool_decide_true.
Qed.

(** The loops of [_upload_dir] visit exactly the files below the case
    directory. *)
Lemma elem_of_walked_paths l p q :
  fs_wf l →
  q ∈ walked_paths (os.walk_in l p) ↔
  is_Some (files l !! q) ∧ p `prefix_of` q ∧ q ≠ p.
Proof.
  intros Hwf. unfold walked_paths, os.walk_in. split.
  - destruct (os.isdir_in l p) eqn:Hp; [|by intros ?%elem_of_nil].
    intros (k & Hk & Hq)%elem_of_concat.
    apply list_elem_of_fmap in Hk as ([d names] & -> & Hentry).
    apply list_elem_of_fmap in Hentry as (d' & [= -> ->] & Hd).
    cbn [fst snd] in Hq. apply list_elem_of_fmap in Hq as (f & -> & Hf).
    apply elem_of_listdir_files in Hf as (q & [c Hc] & Hne & <- & Hlast).
    pose proof (file_ok_lookup _ _ _ Hwf Hc) as (_ & Hvalid & _ & _).
    destruct (path_snoc q Hne) as (f' & Hlast' & Hsplit).
    assert (f' = f) as -> by congruence.
    assert (Hf : valid_segment f).
    { rewrite Forall_forall in Hvalid. apply Hvalid.
      by apply last_Some_elem_of. }
    rewrite (join_valid _ _ Hf), <- Hsplit.
    split; [eauto|].
    assert (Hprefix : p `prefix_of` os_path.dirname q).
    { apply elem_of_cons in Hd as [->|Hd]; [done|].
      by apply list_elem_of_filter in Hd as [[? _] _]. }
    destruct Hprefix as [k Hk]. split.
    + exists (k ++ [f]). rewrite Hsplit at 1. by rewrite Hk, <- app_assoc.
    + intros ->. apply (f_equal length) in Hsplit, Hk.
      rewrite length_app in Hsplit, Hk. cbn in Hsplit. lia.
  - intros ([c Hc] & [k Hk] & Hne).
    pose proof (file_ok_lookup _ _ _ Hwf Hc) as (Hq & Hvalid & Hparent & _).
    destruct (path_snoc q Hq) as (f & Hlast & Hsplit).
    assert (Hf : valid_segment f).
    { rewrite Forall_forall in Hvalid. apply Hvalid.
      by apply last_Some_elem_of. }
    assert (Hprefix : ∃ k', os_path.dirname q = p ++ k').
    { destruct k as [|x k] using rev_ind.
      - by rewrite app_nil_r in Hk.
      - exists k. rewrite Hk. unfold os_path.dirname.
        by rewrite app_assoc, removelast_last. }
    destruct Hprefix as [k' Hk'].
    assert (Hp : os.isdir_in l p = true).
    { apply (ancestor_isdir l p k' Hwf). by rewrite <- Hk'. }
    rewrite Hp. apply elem_of_concat.
    exists (os_path.join (os_path.dirname q) <$> os.listdir_files l (os_path.dirname q)).
    split.
    + apply list_elem_of_fmap.
      exists (os_path.dirname q, os.listdir_files l (os_path.dirname q)).
      split; [done|]. apply list_elem_of_fmap. exists (os_path.dirname q).
      split; [done|].
      destruct (decide (os_path.dirname q = p)) as [->|Hdiff]; [by left|].
      right. apply list_elem_of_filter. split.
      * split; [by exists k'|done].
      * apply elem_of_elements. apply isdir_in_spec in Hparent as [Hroot|?]; [|done].
        rewrite Hroot in Hk'. by destruct p.
    + apply list_elem_of_fmap. exists f. split.
      * rewrite (join_valid _ _ Hf). exact Hsplit.
      * apply elem_of_listdir_files. exists q. eauto.
Qed.

End Tree.

(** ** Staging a case *)

Section Stage.

Context `{Pickle}.
Implicit Types (st : State) (blobs : gmap string string) (p q : Path).

Lemma for_each_fmap {A B : Type} (g : A → B) (l : list A) (body : B → M unit) st :
  for_each (g <$> l) body st = for_each l (λ x, body (g x)) st.
Proof.
  revert st. induction l as [|x l IH]; intros st; [reflexivity|].
  cbn [fmap list_fmap for_each]. rewrite !(run_bind (body (g x))).
  destruct (body (g x) st) as [[[]|e|] st']; [apply IH|reflexivity|reflexivity].
Qed.

(** The two loops of [_upload_dir] are one loop over the walked paths. *)
Lemma walked_loops (walked : list (Path * list string)) (body : Path → M unit) st :
  for_each walked (λ '(dirpath, names),
    for_each names (λ f, body (os_path.join dirpath f))) st
  = for_each (walked_paths walked) body st.
Proof.
  unfold walked_paths. revert st.
  induction walked as [|[d names] walked IH]; intros st; [reflexivity|].
  cbn [fmap list_fmap concat for_each fst snd].
  rewrite for_each_app, !run_bind, for_each_fmap.
  destruct (for_each names _ st) as [[[]|e|] st'];
    [apply IH|reflexivity|reflexivity].
Qed.

Lemma lookup_upload_all_other l p (qs : list Path) blobs b :
  (∀ q, q ∈ qs → blob_name_of p q ≠ b) →
  upload_all l p qs blobs !! b = blobs !! b.
Proof.
  unfold upload_all. revert blobs.
  induction qs as [|q qs IH]; intros blobs Hother; [done|].
  cbn [fold_left]. rewrite IH by (intros; apply Hother; set_solver).
  apply lookup_insert_ne. apply Hother. set_solver.
Qed.

Lemma lookup_upload_all l p (qs : list Path) blobs q :
  q ∈ qs →
  (∀ q', q' ∈ qs → blob_name_of p q' = blob_name_of p q → q' = q) →
  upload_all l p qs blobs !! blob_name_of p q = Some (default "" (files l !! q)).
Proof.
  unfold upload_all. revert blobs.
  induction qs as [|q0 qs IH]; intros blobs Hin Hinj; [by apply elem_of_nil in Hin|].
  cbn [fold_left]. destruct (decide (q ∈ qs)) as [Hq|Hq].
  - apply IH; [done|]. intros; apply Hinj; set_solver.
  - assert (q0 = q) as -> by set_solver.
    fold (upload_all l p qs (<[blob_name_of p q := default "" (files l !! q)]> blobs)).
    rewrite lookup_upload_all_other; [apply lookup_insert_eq|].
    intros q' Hq' Heq. apply Hinj in Heq; [congruence|set_solver].
Qed.

(** The loop over the files of the case: every file becomes a blob. *)
Lemma upload_loop p (qs : list Path) :
  ∀ st blobs,
    mission_blobs st = Some blobs →
    (∀ q, q ∈ qs → is_Some (files (local st) !! q)) →
    (∀ q, q ∈ qs → blob_name_of p q ∉ refused_blobs (storage st)) →
    ∃ st',
      for_each qs (λ q, storage_client.create_blob_from_path
                          (container_name (info (self st))) (blob_name_of p q) q) st
      = (Return tt, st') ∧
      only_blobs_changed st st' (upload_all (local st) p qs blobs).
Proof.
  induction qs as [|q qs IH]; intros st blobs Hb Hfiles Hok.
  - exists st. split; [reflexivity|]. by apply only_blobs_changed_refl.
  - destruct (Hfiles q) as [c Hc]; [set_solver|].
    cbn [for_each]. erewrite run_bind_return; last first.
    { apply (create_blob_run _ _ blobs _ _ c); [exact Hb|exact Hc|].
      apply Hok. set_solver. }
    match goal with |- context [for_each qs _ ?s] => set (st1 := s) end.
    assert (Hstep : only_blobs_changed st st1 (<[blob_name_of p q := c]> blobs))
      by done.
    destruct (IH st1 (<[blob_name_of p q := c]> blobs))
      as (st' & Hrun & Hframe).
    + by apply (only_blobs_changed_blobs st).
    + intros q' Hq'. subst st1. simpl_state. apply Hfiles. set_solver.
    + intros q' Hq'. subst st1. simpl_state. apply Hok. set_solver.
    + exists st'. split; [exact Hrun|].
      pose proof (only_blobs_changed_trans _ _ _ _ _ Hstep Hframe) as Hall.
      subst st1. simpl_state. unfold upload_all in *. cbn [fold_left].
      by rewrite Hc.
Qed.

End Stage.

Section StageOutcome.

Context `{Pickle}.
Implicit Types (st : State) (blobs : gmap string string) (p q : Path).

(** [_upload_dir] on a case that the ledger does not know: the files below
    the directory become blobs, the entry is added, and what remains is to
    persist the ledger. *)
Lemma upload_dir_new_case st dir_path blobs :
  session_established st →
  uploaded_dirs (self st) !! os_path.basename (case_path st dir_path) = None →
  mission_blobs st = Some blobs →
  fs_wf (local st) →
  (∀ q, q ∈ walked_paths (os.walk_in (local st) (case_path st dir_path)) →
        blob_name_of (case_path st dir_path) q ∉ refused_blobs (storage st)) →
  ∃ st1,
    only_blobs_changed st st1
      (upload_all (local st) (case_path st dir_path)
         (walked_paths (os.walk_in (local st) (case_path st dir_path))) blobs) ∧
    _upload_dir dir_path st
    = persist_uploaded_dirs
        (with_self (λ c, set_uploaded_dirs
           (<[os_path.basename (case_path st dir_path) :=
                os_path.dirname (case_path st dir_path)]> (uploaded_dirs c)) c) st1).
Proof.
  intros [Hu Ht] Hnew Hb Hwf Hok. unfold case_path in *.
  set (p := os_path.abspath (cwd (local st)) dir_path) in *.
  destruct (upload_loop p (walked_paths (os.walk_in (local st) p)) st blobs)
    as (st1 & Hloop & Hframe).
  { exact Hb. }
  { intros q Hq. by apply (elem_of_walked_paths _ p q Hwf) in Hq as [? _]. }
  { exact Hok. }
  exists st1. split; [exact Hframe|].
  unfold _upload_dir. run. fold p. rewrite Hnew.
  rewrite bool_decide_false by (intros [? ?]; done).
  run_deciding. unfold os.walk. run. fold p.
  erewrite run_bind_return; last first.
  { etrans; [|exact Hloop].
    apply (walked_loops _ (λ q, storage_client.create_blob_from_path
             (container_name (info (self st))) (blob_name_of p q) q)). }
  run. reflexivity.
Qed.

Lemma blob_name_has_slash p q :
  p ≠ [] → p `prefix_of` q → q ≠ p →
  starts_with (os_path.basename p +:+ "/") (blob_name_of p q) = true.
Proof.
  intros Hp Hprefix Hne.
  destruct (below_case p q Hp Hprefix Hne) as (x & rest & ->).
  rewrite blob_name_below. apply join_slash_under.
Qed.

End StageOutcome.

(** C10: when the service refuses the upload of the ledger blob
    [uploaded_dirs.dat] (and nothing else), so that this upload raises:
    [_delete_dir] on a case of the ledger and [_upload_dir] on a new case
    directory (not the root, in a well-formed file tree) both end with that
    exception, raised by the upload request that is the last event of the
    trace; the in-memory ledger is already without, respectively with, the
    case's entry and stays so; the ledger blob in the container is as it was
    before the call, so memory and container disagree; and the local file
    [uploaded_dirs.dat] is still there, holding the pickled new ledger. *)
Theorem ledger_update_not_atomic `{Pickle} (st : State) (dir_path : string)
    (blobs : gmap string string) :
  session_established st →
  mission_blobs st = Some blobs →
  scratch_writable st →
  refused_blobs (storage st) = {[ "uploaded_dirs.dat" ]} →
  let base := os_path.basename (case_path st dir_path) in
  let upload_request :=
    EvCreateBlob (container_name (info (self st))) "uploaded_dirs.dat"
      (scratch_path st) in
  (∀ (ignore_not_exist : bool) (parent : Path),
     uploaded_dirs (self st) !! base = Some parent →
     ∃ st' blobs',
       _delete_dir dir_path ignore_not_exist st
       = (Raise (AzureHttpError "InternalError"), st') ∧
       last (trace st') = Some upload_request ∧
       uploaded_dirs (self st') = delete base (uploaded_dirs (self st)) ∧
       mission_blobs st' = Some blobs' ∧
       blobs' !! "uploaded_dirs.dat" = blobs !! "uploaded_dirs.dat" ∧
       files (local st') !! scratch_path st
       = Some (pickle_dumps (delete base (uploaded_dirs (self st))))) ∧
  (uploaded_dirs (self st) !! base = None →
   case_path st dir_path ≠ [] →
   fs_wf (local st) →
   ∃ st' blobs',
     _upload_dir dir_path st = (Raise (AzureHttpError "InternalError"), st') ∧
     last (trace st') = Some upload_request ∧
     uploaded_dirs (self st')
     = <[base := os_path.dirname (case_path st dir_path)]> (uploaded_dirs (self st)) ∧
     mission_blobs st' = Some blobs' ∧
     blobs' !! "uploaded_dirs.dat" = blobs !! "uploaded_dirs.dat" ∧
     files (local st') !! scratch_path st
     = Some (pickle_dumps
               (<[base := os_path.dirname (case_path st dir_path)]>
                  (uploaded_dirs (self st))))).
Proof.
  intros Hsession Hb Hwritable Hrefused base upload_request. split.
  - intros ignore_not_exist parent Hknown.
    destruct (delete_dir_known_case st dir_path ignore_not_exist blobs parent
                Hsession Hknown Hb) as (st1 & Hframe & _ & Hrun).
    pose proof (only_blobs_changed_blobs _ _ _ Hframe) as Hb1.
    destruct Hframe as (Hself & Hlocal & Hrefused1 & _).
    match type of Hrun with _ = persist_uploaded_dirs ?s => set (st2 := s) in * end.
    destruct (persist_refused st2
                (delete_all (take (Z.to_nat 50000)
                   (blobs_under (case_prefix st dir_path) blobs)) blobs))
      as (st' & Hpersist & Hself' & Hblobs' & Hfiles' & Htrace').
    { unfold mission_blobs in *. subst st2. simpl_state. exact Hb1. }
    { unfold scratch_writable, scratch_path in *. subst st2. simpl_state.
      by rewrite Hlocal. }
    { subst st2. simpl_state. rewrite Hrefused1, Hrefused. set_solver. }
    assert (Hscratch : scratch_path st2 = scratch_path st).
    { unfold scratch_path. subst st2. simpl_state. by rewrite Hlocal. }
    eexists st', _. split; [by rewrite Hrun|]. split.
    { rewrite Htrace', last_snoc, Hscratch. subst st2. simpl_state.
      by rewrite Hself. }
    split; [by rewrite Hself'|]. split; [exact Hblobs'|]. split.
    + rewrite lookup_delete_all, decide_False; [done|].
      intros Hin%subseteq_take. apply elem_of_blobs_under in Hin as [_ Hunder].
      unfold case_prefix in Hunder.
      by rewrite ledger_blob_outside_prefix in Hunder.
    + rewrite Hfiles', Hscratch, lookup_insert_eq. reflexivity.
  - intros Hnew Hp Hwf.
    assert (Hdata : ∀ q,
      q ∈ walked_paths (os.walk_in (local st) (case_path st dir_path)) →
      blob_name_of (case_path st dir_path) q ≠ "uploaded_dirs.dat").
    { intros q (_ & Hprefix & Hne)%elem_of_walked_paths Heq; [|done].
      pose proof (blob_name_has_slash _ _ Hp Hprefix Hne) as Hunder.
      rewrite Heq in Hunder. by rewrite ledger_blob_outside_prefix in Hunder. }
    destruct (upload_dir_new_case st dir_path blobs Hsession Hnew Hb Hwf)
      as (st1 & Hframe & Hrun).
    { intros q Hq. rewrite Hrefused. apply not_elem_of_singleton.
      by apply Hdata. }
    pose proof (only_blobs_changed_blobs _ _ _ Hframe) as Hb1.
    destruct Hframe as (Hself & Hlocal & Hrefused1 & _).
    match type of Hrun with _ = persist_uploaded_dirs ?s => set (st2 := s) in * end.
    destruct (persist_refused st2
                (upload_all (local st) (case_path st dir_path)
                   (walked_paths (os.walk_in (local st) (case_path st dir_path)))
                   blobs))
      as (st' & Hpersist & Hself' & Hblobs' & Hfiles' & Htrace').
    { unfold mission_blobs in *. subst st2. simpl_state. exact Hb1. }
    { unfold scratch_writable, scratch_path in *. subst st2. simpl_state.
      by rewrite Hlocal. }
    { subst st2. simpl_state. rewrite Hrefused1, Hrefused. set_solver. }
    assert (Hscratch : scratch_path st2 = scratch_path st).
    { unfold scratch_path. subst st2. simpl_state. by rewrite Hlocal. }
    eexists st', _. split; [by rewrite Hrun|]. split.
    { rewrite Htrace', last_snoc, Hscratch. subst st2. simpl_state.
      by rewrite Hself. }
    split; [rewrite Hself'; subst st2; simpl_state; by rewrite Hself|].
    split; [exact Hblobs'|]. split.
    + by apply lookup_upload_all_other.
    + rewrite Hfiles', Hscratch. subst st2. simpl_state.
      rewrite lookup_insert_eq, Hself. reflexivity.
Qed.

Lemma ledger_update_not_atomic_witness :
  (∃ st' blobs',
     @_delete_dir digits_pickle "case" true
       (Example.refusing_ledger Example.staged)
     = (Raise (AzureHttpError "InternalError"), st') ∧
     uploaded_dirs (self st') = ∅ ∧
     mission_blobs st' = Some blobs' ∧
     blobs' !! "uploaded_dirs.dat"
     = Some (@pickle_dumps digits_pickle {[ "case" := ["home"; "u"] ]}) ∧
     files (local st') !! ["home"; "u"; "uploaded_dirs.dat"]
     = Some (@pickle_dumps digits_pickle ∅)) ∧
  (∃ st' blobs',
     @_upload_dir digits_pickle "case"
       (Example.refusing_ledger Example.provisioned)
     = (Raise (AzureHttpError "InternalError"), st') ∧
     uploaded_dirs (self st') = {[ "case" := ["home"; "u"] ]} ∧
     mission_blobs st' = Some blobs' ∧
     blobs' !! "uploaded_dirs.dat" = None ∧
     files (local st') !! ["home"; "u"; "uploaded_dirs.dat"]
     = Some (@pickle_dumps digits_pickle {[ "case" := ["home"; "u"] ]})).
Proof.
  split.
  - destruct (@ledger_update_not_atomic digits_pickle
                (Example.refusing_ledger Example.staged) "case"
                Example.staged_blobs) as [Hpurge _].
    + split; vm_compute; discriminate.
    + vm_compute. reflexivity.
    + split; vm_compute; reflexivity.
    + vm_compute. reflexivity.
    + destruct (Hpurge true ["home"; "u"])
        as (st' & blobs' & Hrun & _ & Hledger & Hblobs & Hremote & Hlocal).
      { vm_compute. reflexivity. }
      exists st', blobs'. split; [exact Hrun|].
      split; [rewrite Hledger; vm_compute; reflexivity|].
      split; [exact Hblobs|].
      split; [rewrite Hremote; vm_compute; reflexivity|].
      etrans; [exact Hlocal|]. vm_compute. reflexivity.
  - destruct (@ledger_update_not_atomic digits_pickle
                (Example.refusing_ledger Example.provisioned) "case" ∅)
      as [_ Hstage].
    + split; vm_compute; discriminate.
    + vm_compute. reflexivity.
    + split; vm_compute; reflexivity.
    + vm_compute. reflexivity.
    + destruct Hstage
        as (st' & blobs' & Hrun & _ & Hledger & Hblobs & Hremote & Hlocal).
      { vm_compute. reflexivity. }
      { vm_compute. discriminate. }
      { apply (bool_decide_unpack (fs_wf _)). vm_compute. exact I. }
      exists st', blobs'. split; [exact Hrun|].
      split; [rewrite Hledger; vm_compute; reflexivity|].
      split; [exact Hblobs|].
      split; [rewrite Hremote; vm_compute; reflexivity|].
      etrans; [exact Hlocal|]. vm_compute. reflexivity.
Defined.

(** ** Fetching a case *)

Section Fetch.

Implicit Types (o : Local) (s : State) (p q d : Path).

Lemma prefixes_spec d r : r ∈ os.prefixes d ↔ r ≠ [] ∧ r `prefix_of` d.
Proof.
  unfold os.prefixes. rewrite list_elem_of_fmap. split.
  - intros (n & -> & Hn). apply elem_of_seq in Hn. split.
    + destruct d, n; cbn in *; try done; lia.
    + apply prefix_take.
  - intros [Hne [k ->]]. exists (length r). split.
    + by rewrite take_app_length.
    + apply elem_of_seq. rewrite length_app. destruct r; [done|cbn; lia].
Qed.

Lemma isdir_in_true_dirs o d : d ≠ [] → os.isdir_in o d = true → d ∈ dirs o.
Proof. intros Hne [?|?]%isdir_in_spec; done. Qed.

Lemma file_not_isdir o q c :
  fs_wf o → files o !! q = Some c → os.isdir_in o q = false.
Proof.
  intros Hwf Hq. destruct (file_ok_lookup _ _ _ Hwf Hq) as (Hne & _ & _ & Hnot).
  apply not_true_is_false. by intros [?|?]%isdir_in_spec.
Qed.

(** One blob of a staged case is fetched to the file it came from, in a
    tree that holds nothing that the staged tree does not hold. *)
Lemma download_one o p s name blob_store q c :
  fs_wf o →
  files o !! q = Some c →
  p ≠ [] → p `prefix_of` q → q ≠ p →
  uploaded_dirs (self s) !! os_path.basename p = Some (os_path.dirname p) →
  storage_client.blobs_of (storage s) name = Some blob_store →
  blob_store !! blob_name_of p q = Some c →
  files (local s) ⊆ files o →
  dirs (local s) ⊆ dirs o →
  ∃ s',
    download_blob name (os_path.basename p) (blob_name_of p q) s = (Return tt, s') ∧
    self s' = self s ∧ storage s' = storage s ∧
    files (local s') = <[q := c]> (files (local s)) ∧
    dirs (local s') ⊆ dirs o.
Proof.
  intros Hwf Hq Hp Hprefix Hne Hledger Hstore Hblob Hfiles Hdirs.
  destruct (below_case p q Hp Hprefix Hne) as (x & rest & Hsplit).
  destruct (file_ok_lookup _ _ _ Hwf Hq) as (Hq_ne & Hvalid & Hparent & Hq_dir).
  assert (Hrest : Forall valid_segment (os_path.basename p :: x :: rest)).
  { rewrite Hsplit in Hvalid. by apply Forall_app in Hvalid as [_ ?]. }
  assert (Hname : blob_name_of p q = join_slash (os_path.basename p :: x :: rest)).
  { rewrite Hsplit at 1. apply blob_name_below. }
  assert (Hfile : os_path.join (os_path.dirname p) (blob_name_of p q) = q).
  { rewrite Hname, join_join_slash by done. by rewrite Hsplit. }
  assert (Hdir : os_path.join_dirname (os_path.dirname p) (blob_name_of p q)
                 = os_path.dirname q).
  { rewrite Hname, join_dirname_join_slash by done.
    rewrite Hsplit. symmetry. by apply removelast_app. }
  set (d := os_path.dirname q) in *.
  assert (Hancestors : ∀ r, r `prefix_of` d → os.isdir_in o r = true).
  { intros r [k Hk]. apply (ancestor_isdir o r k Hwf). by rewrite <- Hk. }
  assert (Hno_file : ∀ r, r `prefix_of` d → files (local s) !! r = None).
  { intros r Hr. destruct (files (local s) !! r) as [c'|] eqn:Hr'; [|done].
    pose proof (lookup_weaken _ _ _ _ Hr' Hfiles) as Hor.
    pose proof (file_not_isdir _ _ _ Hwf Hor). rewrite Hancestors in *; done. }
  assert (Hq_free : ∀ ds : gset Path, ds ⊆ dirs o → q ∉ ds) by set_solver.
  unfold download_blob, dict_get. run. rewrite Hledger. run.
  rewrite Hfile, Hdir. unfold os.isdir. run.
  assert (Hmade : ∃ s1,
    (if negb (os.isdir_in (local s) d) then os.makedirs d else mret tt) s
    = (Return tt, s1) ∧
    self s1 = self s ∧ storage s1 = storage s ∧
    files (local s1) = files (local s) ∧
    dirs (local s1) ⊆ dirs o ∧ os.isdir_in (local s1) d = true).
  { destruct (os.isdir_in (local s) d) eqn:Hthere; cbn [negb].
    { exists s. by repeat split. }
    unfold os.makedirs. run. rewrite Hthere.
    rewrite bool_decide_false; last first.
    { intros [?|[c' Hc']]; [done|]. by rewrite Hno_file in Hc'. }
    rewrite bool_decide_false; last first.
    { intros (r & [_ Hr]%prefixes_spec & [c' Hc'])%Exists_exists.
      by rewrite Hno_file in Hc'. }
    eexists. split; [reflexivity|]. simpl_state.
    repeat split; try done.
    - apply union_subseteq. split; [done|].
      intros r [Hr_ne Hr]%elem_of_list_to_set%prefixes_spec.
      apply isdir_in_true_dirs; [done|]. by apply Hancestors.
    - apply isdir_in_spec. destruct (decide (d = [])) as [?|Hd]; [by left|].
      right. apply elem_of_union_r, elem_of_list_to_set, prefixes_spec.
      done. }
  destruct Hmade as (s1 & Hmake & Hself1 & Hstorage1 & Hfiles1 & Hdirs1 & Hd1).
  erewrite run_bind_return; last exact Hmake.
  assert (Hq1 : os.isdir_in (local s1) q = false).
  { apply not_true_is_false. intros [?|Hin]%isdir_in_spec; [done|].
    by apply (Hq_free (dirs (local s1))). }
  unfold storage_client.get_blob_to_path, storage_client.require_container.
  erewrite run_bind_return; last by apply write_file_ok.
  run. simpl_state. rewrite Hstorage1, Hstore. run. rewrite Hblob.
  rewrite write_file_ok; [|done|done].
  eexists. split; [reflexivity|]. simpl_state.
  split; [done|]. split; [done|]. split; [|done].
  by rewrite insert_insert_eq, Hfiles1.
Qed.

Lemma join_blob_name o p q c :
  fs_wf o → files o !! q = Some c →
  p ≠ [] → p `prefix_of` q → q ≠ p →
  os_path.join (os_path.dirname p) (blob_name_of p q) = q.
Proof.
  intros Hwf Hq Hp Hprefix Hne.
  destruct (below_case p q Hp Hprefix Hne) as (x & rest & Hsplit).
  destruct (file_ok_lookup _ _ _ Hwf Hq) as (_ & Hvalid & _ & _).
  rewrite Hsplit in Hvalid. apply Forall_app in Hvalid as [_ Hrest].
  rewrite Hsplit at 1. rewrite blob_name_below, join_join_slash by done.
  by rewrite Hsplit.
Qed.

(** The loop of [_download_dir] over blobs that were staged from the tree
    [o]: every one of them is written to the file it came from, and nothing
    else is written. *)
Lemma download_loop o p name blob_store (names : list string) :
  fs_wf o → p ≠ [] →
  ∀ s,
    (∀ b, b ∈ names →
       ∃ q c, b = blob_name_of p q ∧ files o !! q = Some c ∧
              p `prefix_of` q ∧ q ≠ p ∧ blob_store !! b = Some c) →
    uploaded_dirs (self s) !! os_path.basename p = Some (os_path.dirname p) →
    storage_client.blobs_of (storage s) name = Some blob_store →
    files (local s) ⊆ files o →
    dirs (local s) ⊆ dirs o →
    ∃ s',
      for_each names (download_blob name (os_path.basename p)) s = (Return tt, s') ∧
      files (local s') ⊆ files o ∧
      (∀ b, b ∈ names →
         is_Some (files (local s') !! os_path.join (os_path.dirname p) b)) ∧
      (∀ r, is_Some (files (local s) !! r) → is_Some (files (local s') !! r)) ∧
      (∀ r, is_Some (files (local s') !! r) →
         is_Some (files (local s) !! r) ∨
         ∃ b, b ∈ names ∧ r = os_path.join (os_path.dirname p) b).
Proof.
  intros Hwf Hp. induction names as [|b names IH];
    intros s Hnames Hledger Hstore Hfiles Hdirs.
  - exists s. split; [reflexivity|]. split; [done|].
    split; [by intros ? ?%elem_of_nil|]. split; [done|]. by left.
  - destruct (Hnames b) as (q & c & -> & Hq & Hprefix & Hne & Hblob);
      [set_solver|].
    destruct (download_one o p s name blob_store q c)
      as (s1 & Hone & Hself1 & Hstorage1 & Hfiles1 & Hdirs1); try done.
    cbn [for_each]. erewrite run_bind_return; last exact Hone.
    destruct (IH s1) as (s' & Hrun & Hsub & Hthere & Hmono & Honly).
    + intros b' Hb'. apply Hnames. set_solver.
    + by rewrite Hself1.
    + by rewrite Hstorage1.
    + rewrite Hfiles1. by apply insert_subseteq_l.
    + done.
    + pose proof (join_blob_name o p q c Hwf Hq Hp Hprefix Hne) as Hjoin.
      exists s'. split; [exact Hrun|]. split; [exact Hsub|]. split; [|split].
      * intros b' [->|Hb']%elem_of_cons; [|by apply Hthere].
        rewrite Hjoin. apply Hmono. rewrite Hfiles1, lookup_insert_eq. eauto.
      * intros r Hr. apply Hmono. rewrite Hfiles1.
        apply lookup_insert_is_Some'. by right.
      * intros r Hr. destruct (Honly r Hr) as [Hr1|(b' & Hb' & ->)].
        -- rewrite Hfiles1 in Hr1.
           apply lookup_insert_is_Some' in Hr1 as [<-|Hr1]; [|by left].
           right. exists (blob_name_of p q). split; [set_solver|done].
        -- right. exists b'. split; [set_solver|done].
Qed.

End Fetch.

(** ** Staging and fetching *)

Section RoundTrip.

Context `{Pickle}.
Implicit Types (st : State) (blobs : gmap string string) (p q : Path).

Lemma upload_all_inv l p (qs : list Path) blobs b :
  is_Some (upload_all l p qs blobs !! b) →
  (∃ q, q ∈ qs ∧ b = blob_name_of p q) ∨ is_Some (blobs !! b).
Proof.
  intros Hb. destruct (decide (Exists (λ q, blob_name_of p q = b) qs))
    as [(q & Hq & <-)%Exists_exists|Hnone]; [left; eauto|].
  right. rewrite lookup_upload_all_other in Hb; [done|].
  intros q Hq Heq. apply Hnone, Exists_exists. eauto.
Qed.

(** [_upload_dir] on a new case with a service that refuses nothing. *)
Lemma upload_dir_outcome st dir_path blobs :
  session_established st →
  uploaded_dirs (self st) !! os_path.basename (case_path st dir_path) = None →
  mission_blobs st = Some blobs →
  refused_blobs (storage st) = ∅ →
  scratch_writable st →
  fs_wf (local st) →
  ∃ st1,
    _upload_dir dir_path st = (Return tt, st1) ∧
    info (self st1) = info (self st) ∧
    container_url (self st1) = container_url (self st) ∧
    container_token (self st1) = container_token (self st) ∧
    uploaded_dirs (self st1)
    = <[os_path.basename (case_path st dir_path) :=
          os_path.dirname (case_path st dir_path)]> (uploaded_dirs (self st)) ∧
    mission_blobs st1
    = Some (<["uploaded_dirs.dat" := pickle_dumps (uploaded_dirs (self st1))]>
              (upload_all (local st) (case_path st dir_path)
                 (walked_paths (os.walk_in (local st) (case_path st dir_path)))
                 blobs)).
Proof.
  intros Hsession Hnew Hb Hrefused Hwritable Hwf.
  destruct (upload_dir_new_case st dir_path blobs Hsession Hnew Hb Hwf)
    as (st1 & Hframe & Hrun).
  { intros q _. rewrite Hrefused. apply not_elem_of_empty. }
  pose proof (only_blobs_changed_blobs _ _ _ Hframe) as Hb1.
  destruct Hframe as (Hself & Hlocal & Hrefused1 & _).
  match type of Hrun with _ = persist_uploaded_dirs ?s => set (st2 := s) in * end.
  destruct (persist_accepted st2
              (upload_all (local st) (case_path st dir_path)
                 (walked_paths (os.walk_in (local st) (case_path st dir_path)))
                 blobs))
    as (st' & Hpersist & Hself' & Hblobs' & _ & _).
  { unfold mission_blobs in *. subst st2. simpl_state. exact Hb1. }
  { unfold scratch_writable, scratch_path in *. subst st2. simpl_state.
    by rewrite Hlocal. }
  { subst st2. simpl_state. rewrite Hrefused1, Hrefused.
    apply not_elem_of_empty. }
  exists st'. split; [by rewrite Hrun|]. rewrite Hself'.
  subst st2. simpl_state. rewrite Hself. repeat split; try done.
  rewrite Hblobs'. simpl_state. by rewrite Hself.
Qed.

(** [_download_dir] on a case of the ledger whose listed blobs all come from
    files of the tree [o], into a tree that holds nothing beyond [o]: the
    listed blobs, and only they, are written to the files they came from. *)
Lemma download_dir_outcome o st dir_path ignore_not_exist blob_store :
  let p := case_path st dir_path in
  let listed :=
    take (Z.to_nat 50000) (blobs_under (os_path.basename p +:+ "/") blob_store) in
  fs_wf o → p ≠ [] →
  session_established st →
  uploaded_dirs (self st) !! os_path.basename p = Some (os_path.dirname p) →
  mission_blobs st = Some blob_store →
  (∀ b, b ∈ listed →
     ∃ q c, b = blob_name_of p q ∧ files o !! q = Some c ∧
            p `prefix_of` q ∧ q ≠ p ∧ blob_store !! b = Some c) →
  files (local st) ⊆ files o →
  dirs (local st) ⊆ dirs o →
  ∃ st',
    _download_dir dir_path ignore_not_exist st = (Return tt, st') ∧
    files (local st') ⊆ files o ∧
    (∀ b, b ∈ listed →
       is_Some (files (local st') !! os_path.join (os_path.dirname p) b)) ∧
    (∀ r, is_Some (files (local st') !! r) →
       is_Some (files (local st) !! r) ∨
       ∃ b, b ∈ listed ∧ r = os_path.join (os_path.dirname p) b).
Proof.
  intros p listed Hwf Hp [Hu Ht] Hledger Hb Hnames Hfiles Hdirs.
  destruct (download_loop o p (container_name (info (self st))) blob_store listed
              Hwf Hp
              (with_trace (λ t, t ++ [EvListBlobs (container_name (info (self st)))
                                        (os_path.basename p +:+ "/") 50000]) st))
    as (st' & Hloop & Hsub & Hthere & _ & Honly); try done.
  exists st'. split; [|done].
  unfold _download_dir. run_deciding. fold (case_path st dir_path). fold p.
  cbn [negb].
  erewrite run_bind_return; last by apply list_blobs_run.
  exact Hloop.
Qed.

(** The blobs under the prefix of a case that was staged on a container
    without such blobs are the blobs of the files below the case
    directory. *)
Lemma staged_blob_names o p blobs content b :
  fs_wf o → p ≠ [] →
  blobs_under (os_path.basename p +:+ "/") blobs = [] →
  b ∈ blobs_under (os_path.basename p +:+ "/")
        (<["uploaded_dirs.dat" := content]>
           (upload_all o p (walked_paths (os.walk_in o p)) blobs)) →
  ∃ q c, b = blob_name_of p q ∧ files o !! q = Some c ∧
         p `prefix_of` q ∧ q ≠ p ∧
         (<["uploaded_dirs.dat" := content]>
            (upload_all o p (walked_paths (os.walk_in o p)) blobs)) !! b = Some c.
Proof.
  intros Hwf Hp Hfresh [Hb Hunder]%elem_of_blobs_under.
  assert (Hne : b ≠ "uploaded_dirs.dat").
  { intros ->. by rewrite ledger_blob_outside_prefix in Hunder. }
  rewrite lookup_insert_ne in Hb by done.
  rewrite lookup_insert_ne by done.
  apply upload_all_inv in Hb as [(q & Hq & ->)|Hold].
  - pose proof Hq as Hq'.
    apply (elem_of_walked_paths o p q Hwf) in Hq' as ([c Hc] & Hprefix & Hqp).
    exists q, c. repeat split; try done.
    rewrite lookup_upload_all; [by rewrite Hc|done|].
    intros q' Hq' Heq.
    apply (elem_of_walked_paths o p q' Hwf) in Hq' as ([c' Hc'] & Hprefix' & Hqp').
    rewrite <- (join_blob_name o p q' c') by done.
    rewrite Heq. by apply (join_blob_name o p q c).
  - assert (Hin : b ∈ blobs_under (os_path.basename p +:+ "/") blobs)
      by by apply elem_of_blobs_under.
    rewrite Hfresh in Hin. by apply elem_of_nil in Hin.
Qed.

(** Every file below the case directory has its blob after staging. *)
Lemma staged_blob_present o p blobs content q c :
  fs_wf o → p ≠ [] →
  files o !! q = Some c → p `prefix_of` q → q ≠ p →
  blob_name_of p q
  ∈ blobs_under (os_path.basename p +:+ "/")
      (<["uploaded_dirs.dat" := content]>
         (upload_all o p (walked_paths (os.walk_in o p)) blobs)).
Proof.
  intros Hwf Hp Hq Hprefix Hne.
  pose proof (blob_name_has_slash p q Hp Hprefix Hne) as Hunder.
  apply elem_of_blobs_under. split; [|done].
  rewrite lookup_insert_ne; last first.
  { intros Heq. rewrite <- Heq in Hunder.
    by rewrite ledger_blob_outside_prefix in Hunder. }
  assert (Hw : q ∈ walked_paths (os.walk_in o p)).
  { apply elem_of_walked_paths; [done|]. eauto. }
  rewrite lookup_upload_all; [eauto|done|].
  intros q' Hq' Heq.
  apply (elem_of_walked_paths o p q' Hwf) in Hq' as ([c' Hc'] & Hprefix' & Hqp').
  rewrite <- (join_blob_name o p q' c') by done.
  rewrite Heq. by apply (join_blob_name o p q c).
Qed.

Lemma elem_of_files_under o p q :
  q ∈ files_under o p ↔ is_Some (files o !! q) ∧ p `prefix_of` q ∧ q ≠ p.
Proof.
  unfold files_under. rewrite list_elem_of_filter, list_elem_of_fmap. split.
  - intros [[Hp Hne] ([q' c] & -> & Hin)]. apply elem_of_map_to_list in Hin.
    cbn. eauto.
  - intros ([c Hc] & Hp & Hne). split; [done|]. exists (q, c).
    split; [done|]. by apply elem_of_map_to_list.
Qed.

Lemma files_under_NoDup o p : NoDup (files_under o p).
Proof. apply NoDup_filter, NoDup_fst_map_to_list. Qed.

End RoundTrip.

Section RoundTripOutcome.

Context `{Pickle}.
Implicit Types (st : State) (blobs : gmap string string) (p q : Path).

(** Staging a new case and fetching it into a tree that holds nothing
    beyond the original one: both calls return; the fetch writes the blobs
    that its listing returned, and only them, to the files they came
    from. *)
Lemma stage_then_fetch_outcome st dir_path ignore_not_exist blobs (target : Local) :
  let p := case_path st dir_path in
  session_established st →
  uploaded_dirs (self st) !! os_path.basename p = None →
  mission_blobs st = Some blobs →
  refused_blobs (storage st) = ∅ →
  scratch_writable st →
  fs_wf (local st) →
  p ≠ [] →
  blobs_under (os_path.basename p +:+ "/") blobs = [] →
  cwd target = cwd (local st) →
  files target ⊆ files (local st) →
  dirs target ⊆ dirs (local st) →
  ∃ st1 st2 content,
    let staged :=
      <["uploaded_dirs.dat" := content]>
        (upload_all (local st) p (walked_paths (os.walk_in (local st) p)) blobs) in
    let listed :=
      take (Z.to_nat 50000) (blobs_under (os_path.basename p +:+ "/") staged) in
    _upload_dir dir_path st = (Return tt, st1) ∧
    mission_blobs st1 = Some staged ∧
    _download_dir dir_path ignore_not_exist (with_local (λ _, target) st1)
    = (Return tt, st2) ∧
    files (local st2) ⊆ files (local st) ∧
    (∀ b, b ∈ listed →
       is_Some (files (local st2) !! os_path.join (os_path.dirname p) b)) ∧
    (∀ r, is_Some (files (local st2) !! r) →
       is_Some (files target !! r) ∨
       ∃ b, b ∈ listed ∧ r = os_path.join (os_path.dirname p) b).
Proof.
  intros p Hsession Hnew Hb Hrefused Hwritable Hwf Hp Hfresh Hcwd Hfiles Hdirs.
  destruct (upload_dir_outcome st dir_path blobs Hsession Hnew Hb Hrefused
              Hwritable Hwf)
    as (st1 & Hstage & Hinfo & Hurl & Htoken & Hledger & Hstaged).
  fold p in Hledger, Hstaged.
  set (o := local st) in *.
  set (staged := <["uploaded_dirs.dat" := pickle_dumps (uploaded_dirs (self st1))]>
                   (upload_all o p (walked_paths (os.walk_in o p)) blobs)) in *.
  set (s := with_local (λ _, target) st1).
  assert (Hcase : case_path s dir_path = p).
  { unfold case_path, s. simpl_state. by rewrite Hcwd. }
  pose proof (download_dir_outcome o s dir_path ignore_not_exist staged)
    as Hfetch. cbn zeta in Hfetch. rewrite Hcase in Hfetch.
  assert (Hsession' : session_established s).
  { destruct Hsession as [? ?]. unfold session_established, s. simpl_state.
    by rewrite Hurl, Htoken. }
  assert (Hledger' : uploaded_dirs (self s) !! os_path.basename p
                     = Some (os_path.dirname p)).
  { unfold s. simpl_state. rewrite Hledger. apply lookup_insert_eq. }
  assert (Hstaged' : mission_blobs s = Some staged).
  { unfold mission_blobs, s. simpl_state. exact Hstaged. }
  destruct (Hfetch Hwf Hp Hsession' Hledger' Hstaged')
    as (st2 & Hrun & Hsub & Hthere & Honly); [|done|done|].
  { intros b Hin%subseteq_take. by apply (staged_blob_names o p blobs _ b). }
  exists st1, st2, (pickle_dumps (uploaded_dirs (self st1))).
  cbn zeta. fold o staged. by repeat split.
Qed.

End RoundTripOutcome.

(** C6, as the code has it: let a controller with a session stage, with
    [_upload_dir], a directory other than the root that the ledger does not
    know, in a well-formed local tree, with at most 50000 files below it
    (the number of results that [_download_dir] asks of its one listing), on
    a container that holds no blob under the case's prefix, with a service
    that refuses nothing and a ledger file that can be written.  Then
    staging returns, every file below the directory is a blob whose name is
    the file's path relative to the directory's parent and so starts with
    "{base name}/", and a [_download_dir] that follows, into any local tree
    that holds nothing beyond the original one (an empty one, or the
    original without the case), returns and leaves below the directory
    exactly the original files with their contents. *)
Theorem stage_then_fetch_round_trip `{Pickle} (st : State) (dir_path : string)
    (ignore_not_exist : bool) (blobs : gmap string string) (target : Local) :
  let p := case_path st dir_path in
  session_established st →
  uploaded_dirs (self st) !! os_path.basename p = None →
  mission_blobs st = Some blobs →
  refused_blobs (storage st) = ∅ →
  scratch_writable st →
  fs_wf (local st) →
  p ≠ [] →
  os.isdir_in (local st) p = true →
  blobs_under (case_prefix st dir_path) blobs = [] →
  Z.of_nat (length (files_under (local st) p)) ≤ 50000 →
  cwd target = cwd (local st) →
  files target ⊆ files (local st) →
  dirs target ⊆ dirs (local st) →
  ∃ st1 st2 staged,
    _upload_dir dir_path st = (Return tt, st1) ∧
    mission_blobs st1 = Some staged ∧
    (∀ q c, files (local st) !! q = Some c → p `prefix_of` q →
       staged !! os_path.relpath q (os_path.dirname p) = Some c ∧
       starts_with (case_prefix st dir_path)
         (os_path.relpath q (os_path.dirname p)) = true) ∧
    _download_dir dir_path ignore_not_exist (with_local (λ _, target) st1)
    = (Return tt, st2) ∧
    (∀ q, p `prefix_of` q → files (local st2) !! q = files (local st) !! q).
Proof.
  intros p Hsession Hnew Hb Hrefused Hwritable Hwf Hp Hdir Hfresh Hfew
    Hcwd Hfiles Hdirs.
  unfold case_prefix in *. fold p in Hfresh |- *.
  destruct (stage_then_fetch_outcome st dir_path ignore_not_exist blobs target
              Hsession Hnew Hb Hrefused Hwritable Hwf Hp Hfresh Hcwd Hfiles Hdirs)
    as (st1 & st2 & content & Hstage & Hstaged & Hrun & Hsub & Hthere & _).
  fold p in Hstaged, Hthere. set (o := local st) in *.
  set (staged := <["uploaded_dirs.dat" := content]>
                   (upload_all o p (walked_paths (os.walk_in o p)) blobs)) in *.
  assert (Hnot_file : ∀ q c, files o !! q = Some c → q ≠ p).
  { intros q c Hq ->. by rewrite (file_not_isdir o p c) in Hdir. }
  assert (Hall : take (Z.to_nat 50000)
                   (blobs_under (os_path.basename p +:+ "/") staged)
                 = blobs_under (os_path.basename p +:+ "/") staged).
  { apply take_ge.
    assert (Hle : (length (blobs_under (os_path.basename p +:+ "/") staged)
                   ≤ length (blob_name_of p <$> files_under o p))%nat).
    { apply submseteq_length, NoDup_submseteq; [apply blobs_under_NoDup|].
      intros b Hin.
      destruct (staged_blob_names o p blobs _ b Hwf Hp Hfresh Hin)
        as (q & c & -> & Hq & Hprefix & Hne & _).
      apply list_elem_of_fmap. exists q. split; [done|].
      apply elem_of_files_under. eauto. }
    rewrite length_fmap in Hle. lia. }
  rewrite Hall in Hthere.
  exists st1, st2, staged. split; [exact Hstage|]. split; [exact Hstaged|].
  split; [|split; [exact Hrun|]].
  - intros q c Hq Hprefix.
    pose proof (staged_blob_present o p blobs content q c Hwf Hp Hq Hprefix
                  (Hnot_file q c Hq)) as Hin.
    pose proof Hin as [_ Hunder]%elem_of_blobs_under. split; [|exact Hunder].
    destruct (staged_blob_names o p blobs _ _ Hwf Hp Hfresh Hin)
      as (q' & c' & Heq & Hq' & Hprefix' & Hne' & Hlookup).
    assert (q' = q) as ->.
    { rewrite <- (join_blob_name o p q' c') by done.
      rewrite <- Heq. apply (join_blob_name o p q c); eauto. }
    etrans; [exact Hlookup|]. etrans; [symmetry; exact Hq'|exact Hq].
  - intros q Hprefix. destruct (files o !! q) as [c|] eqn:Hq.
    + pose proof (staged_blob_present o p blobs content q c Hwf Hp Hq
                    Hprefix (Hnot_file q c Hq)) as Hin.
      destruct (Hthere _ Hin) as [c' Hc'].
      rewrite (join_blob_name o p q c) in Hc' by eauto.
      pose proof (lookup_weaken _ _ _ _ Hc' Hsub) as Ho.
      etrans; [exact Hc'|]. etrans; [symmetry; exact Ho|exact Hq].
    + by apply (lookup_weaken_None _ _ _ Hq).
Qed.

Lemma stage_then_fetch_round_trip_witness :
  ∃ st1 st2,
    @_upload_dir digits_pickle "case" Example.provisioned = (Return tt, st1) ∧
    _download_dir "case" false (with_local (λ _, Example.empty_disk) st1)
    = (Return tt, st2) ∧
    files (local st2) !! ["home"; "u"; "case"; "a.txt"] = Some "alpha" ∧
    files (local st2) !! ["home"; "u"; "case"; "sub"; "b.txt"] = Some "beta" ∧
    files (local st2) !! ["home"; "u"; "case"; "c.txt"] = None.
Proof.
  destruct (@stage_then_fetch_round_trip digits_pickle Example.provisioned
              "case" false ∅ Example.empty_disk)
    as (st1 & st2 & staged & Hstage & _ & _ & Hfetch & Hsame).
  - split; vm_compute; discriminate.
  - vm_compute. reflexivity.
  - vm_compute. reflexivity.
  - vm_compute. reflexivity.
  - split; vm_compute; reflexivity.
  - apply (bool_decide_unpack (fs_wf _)). vm_compute. exact I.
  - vm_compute. discriminate.
  - vm_compute. reflexivity.
  - vm_compute. reflexivity.
  - vm_compute. discriminate.
  - reflexivity.
  - apply map_empty_subseteq.
  - apply empty_subseteq.
  - assert (Hp : case_path Example.provisioned "case" = ["home"; "u"; "case"])
      by (vm_compute; reflexivity).
    rewrite Hp in Hsame.
    exists st1, st2. split; [exact Hstage|]. split; [exact Hfetch|].
    split; [|split].
    + rewrite (Hsame ["home"; "u"; "case"; "a.txt"]) by (by exists ["a.txt"]).
      vm_compute. reflexivity.
    + rewrite (Hsame ["home"; "u"; "case"; "sub"; "b.txt"])
        by (by exists ["sub"; "b.txt"]).
      vm_compute. reflexivity.
    + rewrite (Hsame ["home"; "u"; "case"; "c.txt"]) by (by exists ["c.txt"]).
      vm_compute. reflexivity.
Defined.

(** ** A case with more files than a listing returns *)

Section BeyondLimit.

Context `{Pickle}.

(** When the case directory holds more than 50000 files, staging it and
    fetching it into an empty tree both return, and a file of the
    directory is missing from the fetched tree. *)
Lemma stage_then_fetch_beyond_limit (st : State) (dir_path : string)
    (ignore_not_exist : bool) (blobs : gmap string string) (target : Local) :
  let p := case_path st dir_path in
  session_established st →
  uploaded_dirs (self st) !! os_path.basename p = None →
  mission_blobs st = Some blobs →
  refused_blobs (storage st) = ∅ →
  scratch_writable st →
  fs_wf (local st) →
  p ≠ [] →
  blobs_under (os_path.basename p +:+ "/") blobs = [] →
  cwd target = cwd (local st) →
  files target = ∅ →
  dirs target = ∅ →
  (Z.to_nat 50000 < length (files_under (local st) p))%nat →
  ∃ st1 st2 q,
    _upload_dir dir_path st = (Return tt, st1) ∧
    _download_dir dir_path ignore_not_exist (with_local (λ _, target) st1)
    = (Return tt, st2) ∧
    q ∈ files_under (local st) p ∧
    files (local st2) !! q = None.
Proof.
  intros p Hsession Hnew Hb Hrefused Hwritable Hwf Hp Hfresh Hcwd Hfiles Hdirs
    Hmany.
  destruct (stage_then_fetch_outcome st dir_path ignore_not_exist blobs target)
    as (st1 & st2 & content & Hstage & _ & Hrun & _ & _ & Honly); try done.
  { rewrite Hfiles. apply map_empty_subseteq. }
  { rewrite Hdirs. apply empty_subseteq. }
  fold p in Honly. cbn zeta in Honly.
  set (listed := take (Z.to_nat 50000) _) in Honly.
  destruct (decide (Forall (λ q, is_Some (files (local st2) !! q))
                           (files_under (local st) p))) as [Hall|Hnot].
  - exfalso.
    assert (Hle : (length (files_under (local st) p)
                   ≤ length (os_path.join (os_path.dirname p) <$> listed))%nat).
    { apply submseteq_length, NoDup_submseteq; [apply files_under_NoDup|].
      intros q Hq. rewrite Forall_forall in Hall.
      destruct (Honly q (Hall q Hq)) as [[c Hc]|(b & Hb' & ->)].
      - by rewrite Hfiles, lookup_empty in Hc.
      - apply list_elem_of_fmap. eauto. }
    rewrite length_fmap in Hle. unfold listed in Hle.
    rewrite length_take in Hle. lia.
  - apply not_Forall_Exists in Hnot; [|apply _].
    apply Exists_exists in Hnot as (q & Hq & Hmissing).
    exists st1, st2, q. repeat split; try done.
    cbn in Hmissing. by apply eq_None_not_Some.
Qed.

End BeyondLimit.

Section ManyResults.

Lemma has_slash_letters (n : nat) : has_slash (letters n) = false.
Proof. induction n as [|n IH]; [done|exact IH]. Qed.

Lemma result_file_inj : Inj (=) (=) Example.result_file.
Proof.
  intros n m Heq. unfold Example.result_file in Heq.
  apply letters_inj. congruence.
Qed.

Lemma result_files_NoDup (n : nat) :
  NoDup ((λ k, (Example.result_file k, "data")) <$> seq 0 n).*1.
Proof.
  rewrite <- list_fmap_compose.
  change (NoDup (Example.result_file <$> seq 0 n)).
  apply NoDup_fmap_2; [apply result_file_inj|apply NoDup_seq].
Qed.

Lemma results_disk_wf (n : nat) : fs_wf (Example.results_disk_of n).
Proof.
  split.
  - intros q c Hq. cbn in Hq. apply elem_of_list_to_map_2 in Hq.
    apply list_elem_of_fmap in Hq as (k & [= -> ->] & _).
    split; [done|]. split; [|split].
    + repeat (apply Forall_cons; split); try by (split; [|split; [|split]]).
      * split; [done|]. split; [done|]. split; [done|]. apply has_slash_letters.
      * apply Forall_nil_2.
    + reflexivity.
    + cbn. set_solver.
  - apply (bool_decide_unpack _). vm_compute. exact I.
Qed.

Lemma results_under_case (n : nat) :
  length (files_under (Example.results_disk_of n) ["home"; "u"; "case"]) = n.
Proof.
  unfold files_under. cbn [files Example.results_disk_of].
  rewrite map_to_list_to_map by apply result_files_NoDup.
  rewrite <- list_fmap_compose.
  change (fst ∘ _) with Example.result_file. rewrite filter_all.
  - by rewrite length_fmap, length_seq.
  - apply Forall_fmap, Forall_forall. intros k _. split; [|done].
    by exists [String "f" (letters k)].
Qed.

End ManyResults.

(** C6 as it is written fails on a case directory of 50001 files: staged
    into an empty container and fetched into an empty tree, both calls
    return, and a file of the original directory is not in the fetched
    tree. *)
Lemma stage_then_fetch_loses_a_file_of_50001 :
  ∃ st1 st2 q,
    @_upload_dir digits_pickle "case" Example.many_results = (Return tt, st1) ∧
    _download_dir "case" false (with_local (λ _, Example.empty_disk) st1)
    = (Return tt, st2) ∧
    ["home"; "u"; "case"] `prefix_of` q ∧
    is_Some (files (local Example.many_results) !! q) ∧
    files (local st2) !! q = None.
Proof.
  destruct (@stage_then_fetch_beyond_limit digits_pickle Example.many_results
              "case" false ∅ Example.empty_disk)
    as (st1 & st2 & q & Hstage & Hfetch & Hq & Hmissing).
  - split; discriminate.
  - reflexivity.
  - reflexivity.
  - reflexivity.
  - split; reflexivity.
  - apply results_disk_wf.
  - discriminate.
  - reflexivity.
  - reflexivity.
  - reflexivity.
  - reflexivity.
  - change (case_path Example.many_results "case") with ["home"; "u"; "case"].
    change (local Example.many_results)
      with (Example.results_disk_of (Z.to_nat 50001)).
    rewrite results_under_case. lia.
  - change (case_path Example.many_results "case") with ["home"; "u"; "case"]
      in Hq.
    apply elem_of_files_under in Hq as (Hthere & Hprefix & _).
    exists st1, st2, q. split; [exact Hstage|]. split; [exact Hfetch|].
    split; [exact Hprefix|]. split; [exact Hthere|exact Hmissing].
Qed.

(** * Further properties *)

(** ** A pool of the required size *)

Section SizedPool.

Implicit Types (st : State) (p : PoolEntry).

Lemma observe_target p :
  target_dedicated_nodes (cloud (pool.observe p)) = target_dedicated_nodes (cloud p).
Proof.
  unfold pool.observe.
  destruct (allocation_state (cloud p)), (unsettled_polls p); reflexivity.
Qed.

Lemma observe_vm_size p : entry_vm_size (pool.observe p) = entry_vm_size p.
Proof.
  unfold pool.observe.
  destruct (allocation_state (cloud p)), (unsettled_polls p); reflexivity.
Qed.

End SizedPool.

(** X1: when the mission's pool exists with the required number of nodes,
    whatever its allocation state and whatever its VM size, [_create_pool]
    returns after a [pool.exists] and a [pool.get] and sends nothing else:
    no creation, no stop and no resize.  The pool keeps its target and its
    VM size; the VM type of the mission is never compared. *)
Theorem create_pool_keeps_sized_pool (fuel : nat) (st : State) (p : PoolEntry) :
  batch st !! pool_name (info (self st)) = Some p →
  target_dedicated_nodes (cloud p) = n_nodes (info (self st)) →
  ∃ st' p',
    _create_pool fuel st = (Return tt, st') ∧
    trace st'
    = trace st ++ [EvPoolExists (pool_name (info (self st)));
                   EvPoolGet (pool_name (info (self st))) (Some (cloud p'))] ∧
    batch st' = <[pool_name (info (self st)) := p']> (batch st) ∧
    target_dedicated_nodes (cloud p') = n_nodes (info (self st)) ∧
    entry_vm_size p' = entry_vm_size p ∧
    self st' = self st.
Proof.
  intros Hp Htarget.
  unfold _create_pool, pool.exists_, pool.get. run. cbn.
  rewrite Hp. rewrite bool_decide_true by eauto.
  run. cbn. rewrite Hp. run.
  rewrite bool_decide_false; last first.
  { intros Hne. apply Hne. by rewrite observe_target. }
  exists
    (with_batch (insert (pool_name (info (self st))) (pool.observe p))
       (with_trace (λ t, t ++ [EvPoolExists (pool_name (info (self st)));
                               EvPoolGet (pool_name (info (self st)))
                                 (Some (cloud (pool.observe p)))]) st)),
    (pool.observe p).
  split.
  { unfold with_batch, with_trace; cbn. by rewrite <- app_assoc. }
  cbn. split; [done|]. split; [done|].
  split; [by rewrite observe_target|]. split; [apply observe_vm_size|done].
Qed.

Lemma create_pool_keeps_sized_pool_witness :
  ∃ st' p',
    _create_pool 0 Scenario.other_vm_pool = (Return tt, st') ∧
    trace st' = [EvPoolExists "pool"; EvPoolGet "pool" (Some (cloud p'))] ∧
    batch st' = <["pool" := p']> (batch Scenario.other_vm_pool) ∧
    target_dedicated_nodes (cloud p') = 4 ∧
    entry_vm_size p' = "STANDARD_D2_V2" ∧
    self st' = self Scenario.other_vm_pool.
Proof.
  apply (create_pool_keeps_sized_pool 0 Scenario.other_vm_pool
           {| cloud := {| target_dedicated_nodes := 4;
                          allocation_state := resizing |};
              entry_vm_size := "STANDARD_D2_V2"; unsettled_polls := O |}).
  - reflexivity.
  - reflexivity.
Defined.

(** ** The directory methods: what the argument names *)

(** X2: a case that the ledger does not know, on a controller without a
    container session: [_upload_dir] raises the AssertionError before the
    directory is walked; nothing is sent and nothing is recorded. *)
Theorem upload_dir_new_case_needs_session `{Pickle} (st : State)
    (dir_path : string) :
  uploaded_dirs (self st) !! os_path.basename (case_path st dir_path) = None →
  ¬ session_established st →
  _upload_dir dir_path st = (Raise AssertionError, st).
Proof.
  intros Hnew Hno. unfold case_path in *. unfold _upload_dir. run.
  rewrite Hnew. rewrite bool_decide_false by (intros [? ?]; done). run.
  destruct (container_url (self st)) as [u|] eqn:Hu.
  - destruct (container_token (self st)) as [t|] eqn:Ht.
    + destruct Hno. split; congruence.
    + run_deciding. rewrite Ht. reflexivity.
  - reflexivity.
Qed.

Lemma upload_dir_new_case_needs_session_witness :
  @_upload_dir digits_pickle "case" Example.fresh
  = (Raise AssertionError, Example.fresh).
Proof.
  apply (@upload_dir_new_case_needs_session digits_pickle Example.fresh "case").
  - reflexivity.
  - intros [Hurl _]. apply Hurl. reflexivity.
Defined.

(** X3: [_download_dir] and [_delete_dir] use their argument for its base
    name only.  Two paths with the same base name, one of a case that the
    ledger knows, give the same call: the files are fetched below the parent
    that the ledger records, wherever the argument points. *)
Theorem known_case_by_base_name `{Pickle} (st : State) (dir_path dir_path' : string)
    (ignore_not_exist : bool) :
  os_path.basename (case_path st dir_path')
  = os_path.basename (case_path st dir_path) →
  is_Some (uploaded_dirs (self st) !! os_path.basename (case_path st dir_path)) →
  _download_dir dir_path' ignore_not_exist st
  = _download_dir dir_path ignore_not_exist st ∧
  _delete_dir dir_path' ignore_not_exist st
  = _delete_dir dir_path ignore_not_exist st.
Proof.
  intros Hbase Hknown. unfold case_path in *.
  split.
  - unfold _download_dir. run.
    destruct (bool_decide (container_url (self st) ≠ None)); [|reflexivity].
    run. destruct (bool_decide (container_token (self st) ≠ None)); [|reflexivity].
    run. rewrite Hbase. rewrite !bool_decide_true by done. reflexivity.
  - unfold _delete_dir. run.
    destruct (bool_decide (container_url (self st) ≠ None)); [|reflexivity].
    run. destruct (bool_decide (container_token (self st) ≠ None)); [|reflexivity].
    run. rewrite Hbase. rewrite !bool_decide_true by done. reflexivity.
Qed.

Lemma known_case_by_base_name_witness :
  case_path Example.staged "/tmp/elsewhere/case" ≠ case_path Example.staged "case" ∧
  _download_dir "/tmp/elsewhere/case" false Example.staged
  = _download_dir "case" false Example.staged ∧
  @_delete_dir digits_pickle "/tmp/elsewhere/case" false Example.staged
  = @_delete_dir digits_pickle "case" false Example.staged.
Proof.
  split; [by vm_compute|].
  apply (@known_case_by_base_name digits_pickle Example.staged
           "case" "/tmp/elsewhere/case" false).
  - vm_compute. reflexivity.
  - vm_compute. eexists. reflexivity.
Defined.

(** ** A container that comes back at the last retry *)

Section LateSuccess.

(** The retry loop on a container that is gone exactly when the counter
    reaches its bound: the last attempt creates the container, and the
    loop raises all the same. *)
Lemma retry_create_late (m : nat) :
  ∀ fuel st name counter,
    containers (storage st) !! name = Some (Deleting m) →
    counter + Z.of_nat m = 120 →
    (m < fuel)%nat →
    ∃ st',
      retry_create fuel name false counter st
      = (Raise (RuntimeError DeletionTimeout), st') ∧
      containers (storage st') !! name = Some (Present ∅) ∧
      self st' = self st ∧
      trace st' = trace st ++ retry_trace name (S m).
Proof.
  induction m as [|m IH]; intros fuel st name counter Hc Hcount Hfuel.
  - destruct fuel as [|fuel]; [lia|]. cbn [retry_create negb].
    unfold sleep. run.
    erewrite run_bind_return; last by apply create_container_gone.
    rewrite bool_decide_true by lia.
    eexists. split; [reflexivity|]. cbn.
    rewrite lookup_insert_eq. split; [reflexivity|]. split; [reflexivity|].
    unfold retry_trace; cbn. rewrite <- app_assoc. reflexivity.
  - destruct fuel as [|fuel]; [lia|]. cbn [retry_create negb].
    unfold sleep. run.
    erewrite run_bind_return; last by apply create_container_still_deleted.
    rewrite bool_decide_false by lia.
    match goal with |- context [retry_create fuel name false ?c ?s] =>
      destruct (IH fuel s name c) as (st' & Hrun & Hcont & Hself & Htrace)
    end.
    + cbn. by rewrite lookup_insert_eq.
    + lia.
    + lia.
    + exists st'. split; [exact Hrun|]. split; [exact Hcont|].
      split; [exact Hself|]. rewrite Htrace. cbn. unfold retry_trace. cbn.
      rewrite <- !app_assoc. reflexivity.
Qed.

End LateSuccess.

(** X4: when the container is being deleted and the 121st retry is the one
    that creates it, [_create_storage_container] still raises the
    RuntimeError of the timeout: the counter is tested after the successful
    attempt as well.  The container is there, empty, and the controller is
    as it was: no token and no URL were set. *)
Theorem create_container_discards_last_retry `{Pickle} (fuel : nat) (st : State) :
  containers (storage st) !! container_name (info (self st))
    = Some (Deleting 121) →
  (121 ≤ fuel)%nat →
  ∃ st',
    _create_storage_container fuel st
    = (Raise (RuntimeError DeletionTimeout), st') ∧
    containers (storage st') !! container_name (info (self st))
    = Some (Present ∅) ∧
    self st' = self st ∧
    trace st'
    = trace st
      ++ EvCreateContainer (container_name (info (self st))) true
         :: retry_trace (container_name (info (self st))) 121.
Proof.
  intros Hc Hfuel.
  destruct (retry_create_late 120 fuel
    (with_storage (λ s, set_containers
         (<[container_name (info (self st)) := Deleting 120]> (containers s)) s)
       (with_trace (λ t, t ++ [EvCreateContainer
                                 (container_name (info (self st))) true]) st))
    (container_name (info (self st))) 0)
    as (st1 & Hloop & Hcont & Hself & Htrace).
  { cbn. by rewrite lookup_insert_eq. }
  { reflexivity. }
  { lia. }
  exists st1. split.
  - unfold _create_storage_container. run. rewrite run_bind, run_catch.
    rewrite run_bind. rewrite (create_container_being_deleted _ _ _ Hc).
    cbn [bool_decide].
    rewrite bool_decide_false by done. rewrite bool_decide_true by done.
    rewrite Hloop. reflexivity.
  - split; [exact Hcont|]. split; [exact Hself|].
    rewrite Htrace. cbn. by rewrite <- app_assoc.
Qed.

Lemma create_container_discards_last_retry_witness :
  ∃ st',
    @_create_storage_container digits_pickle 121 (Example.being_deleted 121)
    = (Raise (RuntimeError DeletionTimeout), st') ∧
    containers (storage st') !! "mission" = Some (Present ∅) ∧
    self st' = self (Example.being_deleted 121) ∧
    trace st'
    = trace (Example.being_deleted 121)
      ++ EvCreateContainer "mission" true :: retry_trace "mission" 121.
Proof.
  apply (@create_container_discards_last_retry digits_pickle 121
           (Example.being_deleted 121)).
  - reflexivity.
  - lia.
Defined.

(** ** The ledger file and the rest of the state *)

Section Scratch.

Context `{Pickle}.
Implicit Types (st : State) (blobs : gmap string string).

(** Persisting the ledger, with what it leaves as it was. *)
Lemma persist_accepted_frame st blobs :
  mission_blobs st = Some blobs →
  scratch_writable st →
  "uploaded_dirs.dat" ∉ refused_blobs (storage st) →
  ∃ st',
    persist_uploaded_dirs st = (Return tt, st') ∧
    self st' = self st ∧
    local st'
    = set_files (delete (scratch_path st) (files (local st))) (local st) ∧
    refused_blobs (storage st') = refused_blobs (storage st) ∧
    containers (storage st')
    = <[container_name (info (self st)) :=
          Present (<["uploaded_dirs.dat" := pickle_dumps (uploaded_dirs (self st))]>
                     blobs)]> (containers (storage st)) ∧
    trace st'
    = trace st ++ [EvCreateBlob (container_name (info (self st)))
                     "uploaded_dirs.dat" (scratch_path st)].
Proof.
  intros Hb [Hfree Hcwd] Hok. unfold persist_uploaded_dirs, os.local_path.
  run. fold (scratch_path st).
  erewrite run_bind_return; last by apply write_file_ok.
  erewrite run_bind_return; last first.
  { apply (create_blob_run _ _ blobs); simpl_state; [done| |done].
    apply lookup_insert_eq. }
  unfold os.remove. run. simpl_state. rewrite lookup_insert_eq.
  rewrite bool_decide_true by eauto. run.
  eexists. split; [reflexivity|]. simpl_state.
  split; [reflexivity|]. split.
  { unfold set_files. simpl_state. by rewrite delete_insert_eq. }
  done.
Qed.

Lemma isdir_in_set_files l fs d :
  os.isdir_in (set_files fs l) d = os.isdir_in l d.
Proof. reflexivity. Qed.

(** [_upload_dir] of a new case: the whole state afterwards. *)
Lemma upload_dir_state st dir_path blobs :
  session_established st →
  uploaded_dirs (self st) !! os_path.basename (case_path st dir_path) = None →
  mission_blobs st = Some blobs →
  refused_blobs (storage st) = ∅ →
  scratch_writable st →
  fs_wf (local st) →
  ∃ st1,
    _upload_dir dir_path st = (Return tt, st1) ∧
    self st1
    = set_uploaded_dirs
        (<[os_path.basename (case_path st dir_path) :=
             os_path.dirname (case_path st dir_path)]> (uploaded_dirs (self st)))
        (self st) ∧
    local st1
    = set_files (delete (scratch_path st) (files (local st))) (local st) ∧
    refused_blobs (storage st1) = ∅ ∧
    containers (storage st1)
    = <[container_name (info (self st)) :=
          Present (<["uploaded_dirs.dat" := pickle_dumps (uploaded_dirs (self st1))]>
                     (upload_all (local st) (case_path st dir_path)
                        (walked_paths (os.walk_in (local st) (case_path st dir_path)))
                        blobs))]> (containers (storage st)).
Proof.
  intros Hsession Hnew Hb Hrefused Hwritable Hwf.
  destruct (upload_dir_new_case st dir_path blobs Hsession Hnew Hb Hwf)
    as (st0 & Hframe & Hrun).
  { intros q _. rewrite Hrefused. apply not_elem_of_empty. }
  pose proof (only_blobs_changed_blobs _ _ _ Hframe) as Hb0.
  destruct Hframe as (Hself & Hlocal & Hrefused0 & Hcont0).
  match type of Hrun with _ = persist_uploaded_dirs ?s => set (st2 := s) in * end.
  destruct (persist_accepted_frame st2
              (upload_all (local st) (case_path st dir_path)
                 (walked_paths (os.walk_in (local st) (case_path st dir_path)))
                 blobs))
    as (st' & Hpersist & Hself' & Hlocal' & Hrefused' & Hcont' & _).
  { unfold mission_blobs in *. subst st2. simpl_state. exact Hb0. }
  { unfold scratch_writable, scratch_path in *. subst st2. simpl_state.
    by rewrite Hlocal. }
  { subst st2. simpl_state. rewrite Hrefused0, Hrefused.
    apply not_elem_of_empty. }
  exists st'. split; [by rewrite Hrun|].
  assert (Hself2 : self st'
                   = set_uploaded_dirs
                       (<[os_path.basename (case_path st dir_path) :=
                            os_path.dirname (case_path st dir_path)]>
                          (uploaded_dirs (self st))) (self st)).
  { rewrite Hself'. subst st2. simpl_state. by rewrite Hself. }
  split; [exact Hself2|]. split.
  { rewrite Hlocal'. unfold scratch_path. subst st2. simpl_state.
    by rewrite Hlocal. }
  split.
  { rewrite Hrefused'. subst st2. simpl_state. by rewrite Hrefused0. }
  rewrite Hcont'. subst st2. simpl_state. rewrite Hcont0, Hself.
  rewrite insert_insert_eq. rewrite Hself2. reflexivity.
Qed.

(** [_delete_dir] of a case of the ledger: the whole state afterwards. *)
Lemma delete_dir_state st dir_path ignore_not_exist blobs parent :
  session_established st →
  uploaded_dirs (self st) !! os_path.basename (case_path st dir_path) = Some parent →
  mission_blobs st = Some blobs →
  scratch_writable st →
  "uploaded_dirs.dat" ∉ refused_blobs (storage st) →
  ∃ st1,
    _delete_dir dir_path ignore_not_exist st = (Return tt, st1) ∧
    self st1
    = set_uploaded_dirs
        (delete (os_path.basename (case_path st dir_path)) (uploaded_dirs (self st)))
        (self st) ∧
    local st1
    = set_files (delete (scratch_path st) (files (local st))) (local st) ∧
    refused_blobs (storage st1) = refused_blobs (storage st) ∧
    containers (storage st1)
    = <[container_name (info (self st)) :=
          Present (<["uploaded_dirs.dat" := pickle_dumps (uploaded_dirs (self st1))]>
                     (delete_all (take (Z.to_nat 50000)
                        (blobs_under (case_prefix st dir_path) blobs)) blobs))]>
        (containers (storage st)).
Proof.
  intros Hsession Hknown Hb Hwritable Hok.
  destruct (delete_dir_known_case st dir_path ignore_not_exist blobs parent
              Hsession Hknown Hb) as (st0 & Hframe & _ & Hrun).
  pose proof (only_blobs_changed_blobs _ _ _ Hframe) as Hb0.
  destruct Hframe as (Hself & Hlocal & Hrefused0 & Hcont0).
  match type of Hrun with _ = persist_uploaded_dirs ?s => set (st2 := s) in * end.
  destruct (persist_accepted_frame st2
              (delete_all (take (Z.to_nat 50000)
                 (blobs_under (case_prefix st dir_path) blobs)) blobs))
    as (st' & Hpersist & Hself' & Hlocal' & Hrefused' & Hcont' & _).
  { unfold mission_blobs in *. subst st2. simpl_state. exact Hb0. }
  { unfold scratch_writable, scratch_path in *. subst st2. simpl_state.
    by rewrite Hlocal. }
  { subst st2. simpl_state. by rewrite Hrefused0. }
  exists st'. split; [by rewrite Hrun|].
  assert (Hself2 : self st'
                   = set_uploaded_dirs
                       (delete (os_path.basename (case_path st dir_path))
                          (uploaded_dirs (self st))) (self st)).
  { rewrite Hself'. subst st2. simpl_state. by rewrite Hself. }
  split; [exact Hself2|]. split.
  { rewrite Hlocal'. unfold scratch_path. subst st2. simpl_state.
    by rewrite Hlocal. }
  split.
  { rewrite Hrefused'. subst st2. simpl_state. by rewrite Hrefused0. }
  rewrite Hcont'. subst st2. simpl_state. rewrite Hcont0, Hself.
  rewrite insert_insert_eq. rewrite Hself2. reflexivity.
Qed.

End Scratch.

(** X5: staging a new case changes, in the services and on the machine,
    the blobs under the prefix of the case, the ledger blob, the ledger
    entry of the case and the file [uploaded_dirs.dat] of the working
    directory, which is gone afterwards; every other blob, every other
    ledger entry, every other container and the rest of the local tree are
    as they were. *)
Theorem upload_dir_touches_its_case_only `{Pickle} (st : State)
    (dir_path : string) (blobs : gmap string string) :
  let p := case_path st dir_path in
  session_established st →
  uploaded_dirs (self st) !! os_path.basename p = None →
  mission_blobs st = Some blobs →
  refused_blobs (storage st) = ∅ →
  scratch_writable st →
  fs_wf (local st) →
  p ≠ [] →
  ∃ st' blobs',
    _upload_dir dir_path st = (Return tt, st') ∧
    mission_blobs st' = Some blobs' ∧
    (∀ b, starts_with (case_prefix st dir_path) b = false →
          b ≠ "uploaded_dirs.dat" → blobs' !! b = blobs !! b) ∧
    (∀ k, k ≠ os_path.basename p →
          uploaded_dirs (self st') !! k = uploaded_dirs (self st) !! k) ∧
    (∀ name, name ≠ container_name (info (self st)) →
             containers (storage st') !! name = containers (storage st) !! name) ∧
    cwd (local st') = cwd (local st) ∧
    dirs (local st') = dirs (local st) ∧
    files (local st') = delete (scratch_path st) (files (local st)).
Proof.
  intros p Hsession Hnew Hb Hrefused Hwritable Hwf Hp.
  destruct (upload_dir_state st dir_path blobs Hsession Hnew Hb Hrefused
              Hwritable Hwf)
    as (st' & Hrun & Hself & Hlocal & _ & Hcont).
  fold p in Hself, Hcont.
  eexists st', _. split; [exact Hrun|]. split.
  { apply mission_blobs_containers. rewrite Hcont, Hself. simpl_state.
    apply lookup_insert_eq. }
  split.
  { intros b Hout Hne. rewrite lookup_insert_ne by done.
    apply lookup_upload_all_other. intros q Hq <-.
    apply (elem_of_walked_paths _ _ _ Hwf) in Hq as (_ & Hprefix & Hneq).
    pose proof (blob_name_has_slash p q Hp Hprefix Hneq) as Hin.
    unfold case_prefix in Hout. fold p in Hout. congruence. }
  split.
  { intros k Hk. rewrite Hself. simpl_state. by rewrite lookup_insert_ne. }
  split.
  { intros name Hname. rewrite Hcont. by rewrite lookup_insert_ne. }
  rewrite Hlocal. done.
Qed.

Lemma upload_dir_touches_its_case_only_witness :
  ∃ st' blobs',
    @_upload_dir digits_pickle "case" Example.provisioned = (Return tt, st') ∧
    mission_blobs st' = Some blobs' ∧
    blobs' !! "other/a.txt" = None ∧
    uploaded_dirs (self st') !! "other" = None ∧
    files (local st') !! ["home"; "u"; "uploaded_dirs.dat"] = None ∧
    files (local st') !! ["home"; "u"; "case"; "a.txt"] = Some "alpha".
Proof.
  destruct (@upload_dir_touches_its_case_only digits_pickle Example.provisioned
              "case" ∅)
    as (st' & blobs' & Hrun & Hb & Hblobs & Hledger & _ & _ & _ & Hfiles).
  - split; vm_compute; discriminate.
  - vm_compute. reflexivity.
  - vm_compute. reflexivity.
  - vm_compute. reflexivity.
  - split; vm_compute; reflexivity.
  - apply (bool_decide_unpack (fs_wf _)). vm_compute. exact I.
  - vm_compute. discriminate.
  - exists st', blobs'. split; [exact Hrun|]. split; [exact Hb|].
    split; [rewrite Hblobs; [reflexivity|vm_compute; reflexivity|discriminate]|].
    split; [rewrite Hledger; [vm_compute; reflexivity|vm_compute; discriminate]|].
    rewrite Hfiles. split; vm_compute; reflexivity.
Defined.

(** X6: purging a case of the ledger leaves the local copy alone: the
    directories and the files of the machine are as they were, except for
    the file [uploaded_dirs.dat] of the working directory, which is gone
    afterwards. *)
Theorem delete_dir_keeps_local_tree `{Pickle} (st : State) (dir_path : string)
    (ignore_not_exist : bool) (blobs : gmap string string) (parent : Path) :
  session_established st →
  uploaded_dirs (self st) !! os_path.basename (case_path st dir_path) = Some parent →
  mission_blobs st = Some blobs →
  scratch_writable st →
  "uploaded_dirs.dat" ∉ refused_blobs (storage st) →
  ∃ st',
    _delete_dir dir_path ignore_not_exist st = (Return tt, st') ∧
    cwd (local st') = cwd (local st) ∧
    dirs (local st') = dirs (local st) ∧
    files (local st') = delete (scratch_path st) (files (local st)).
Proof.
  intros Hsession Hknown Hb Hwritable Hok.
  destruct (delete_dir_state st dir_path ignore_not_exist blobs parent
              Hsession Hknown Hb Hwritable Hok)
    as (st' & Hrun & _ & Hlocal & _).
  exists st'. split; [exact Hrun|]. rewrite Hlocal. done.
Qed.

Lemma delete_dir_keeps_local_tree_witness :
  ∃ st',
    @_delete_dir digits_pickle "case" true Example.staged = (Return tt, st') ∧
    files (local st') !! ["home"; "u"; "case"; "a.txt"] = Some "alpha" ∧
    files (local st') !! ["home"; "u"; "case"; "sub"; "b.txt"] = Some "beta".
Proof.
  destruct (@delete_dir_keeps_local_tree digits_pickle Example.staged "case"
              true Example.staged_blobs ["home"; "u"])
    as (st' & Hrun & _ & _ & Hfiles).
  - split; vm_compute; discriminate.
  - vm_compute. reflexivity.
  - vm_compute. reflexivity.
  - split; vm_compute; reflexivity.
  - assert (Hnone : refused_blobs (storage Example.staged) = ∅)
      by (vm_compute; reflexivity).
    rewrite Hnone. apply not_elem_of_empty.
  - exists st'. split; [exact Hrun|]. rewrite Hfiles.
    split; vm_compute; reflexivity.
Defined.

(** ** The ledger across calls *)

Section Recovery.

Context `{Pickle}.
Implicit Types (st : State) (blobs : gmap string string).

Lemma create_container_exists st blobs :
  mission_blobs st = Some blobs →
  storage_client.create_container (container_name (info (self st))) true st
  = (Raise (AzureConflictHttpError "ContainerAlreadyExists"),
     with_trace (λ t, t ++ [EvCreateContainer
                              (container_name (info (self st))) true]) st).
Proof.
  intros Hb. apply mission_blobs_containers in Hb.
  unfold storage_client.create_container. run. simpl_state.
  rewrite Hb. reflexivity.
Qed.

(** [_create_storage_container] on a container that holds a ledger blob
    which unpickles: the ledger is recovered and the session is there. *)
Lemma create_storage_container_recovered fuel st blobs content d :
  mission_blobs st = Some blobs →
  blobs !! "uploaded_dirs.dat" = Some content →
  scratch_writable st →
  pickle_loads content = Some d →
  ∃ st',
    _create_storage_container fuel st = (Return tt, st') ∧
    uploaded_dirs (self st') = d ∧
    session_established st' ∧
    storage st' = storage st ∧
    local st'
    = set_files (delete (scratch_path st) (files (local st))) (local st).
Proof.
  intros Hblobs Hcontent [Hdir Hparent] Hloads.
  unfold _create_storage_container. run. rewrite run_bind, run_catch.
  rewrite run_bind, (create_container_exists _ _ Hblobs). cbn [bool_decide].
  rewrite bool_decide_true by done.
  unfold storage_client.exists_. run. simpl_state.
  unfold mission_blobs in Hblobs. rewrite Hblobs.
  rewrite bool_decide_true by eauto.
  unfold os.local_path. run. simpl_state. fold (scratch_path st).
  unfold storage_client.get_blob_to_path. run.
  rewrite run_bind, write_file_run. simpl_state. rewrite Hdir, Hparent.
  run. unfold storage_client.require_container. run. simpl_state.
  rewrite Hblobs. run. rewrite Hcontent.
  rewrite run_bind, write_file_run. unfold os.isdir_in in *. simpl_state.
  rewrite Hdir, Hparent.
  unfold os.read_file. run. simpl_state. rewrite lookup_insert_eq. run.
  rewrite Hloads.
  unfold os.remove. run. simpl_state. rewrite lookup_insert_eq.
  rewrite bool_decide_true by eauto.
  unfold storage_client.generate_container_shared_access_signature,
    storage_client.make_container_url. run.
  eexists. split; [reflexivity|]. simpl_state.
  split; [reflexivity|]. split; [split; done|]. split.
  { by destruct (storage st). }
  unfold set_files. simpl_state.
  by rewrite delete_insert_eq, delete_insert_eq.
Qed.

Lemma fs_wf_delete_file l q :
  fs_wf l → fs_wf (set_files (delete q (files l)) l).
Proof.
  intros [Hfiles Hdirs]. split; [|exact Hdirs].
  unfold set_files. simpl_state.
  intros q' c Hq'. apply lookup_delete_Some in Hq' as [_ Hq'].
  exact (Hfiles q' c Hq').
Qed.

End Recovery.

(** X7: the ledger survives a restart.  After a new case was staged, a new
    controller for the same mission (an empty ledger, no session) that runs
    [_create_storage_container] finds the container, reads the ledger blob
    back, and has the ledger of the old controller, with the new case in it,
    provided that ledger unpickles from what was pickled. *)
Theorem ledger_survives_restart `{Pickle} (fuel : nat) (st : State)
    (dir_path : string) (blobs : gmap string string) :
  let p := case_path st dir_path in
  let ledger := <[os_path.basename p := os_path.dirname p]> (uploaded_dirs (self st)) in
  session_established st →
  uploaded_dirs (self st) !! os_path.basename p = None →
  mission_blobs st = Some blobs →
  refused_blobs (storage st) = ∅ →
  scratch_writable st →
  fs_wf (local st) →
  pickle_loads (pickle_dumps ledger) = Some ledger →
  ∃ st1 st2,
    _upload_dir dir_path st = (Return tt, st1) ∧
    uploaded_dirs (self st1) = ledger ∧
    uploaded_dirs (init (info (self st1))) = ∅ ∧
    _create_storage_container fuel (with_self (λ c, init (info c)) st1)
    = (Return tt, st2) ∧
    uploaded_dirs (self st2) = ledger ∧
    session_established st2.
Proof.
  intros p ledger Hsession Hnew Hb Hrefused Hwritable Hwf Hlawful.
  destruct (upload_dir_state st dir_path blobs Hsession Hnew Hb Hrefused
              Hwritable Hwf)
    as (st1 & Hrun & Hself & Hlocal & _ & Hcont).
  fold p in Hself, Hcont.
  assert (Hledger : uploaded_dirs (self st1) = ledger) by by rewrite Hself.
  set (s := with_self (λ c, init (info c)) st1).
  destruct (create_storage_container_recovered fuel s
              (<["uploaded_dirs.dat" := pickle_dumps ledger]>
                 (upload_all (local st) p
                    (walked_paths (os.walk_in (local st) p)) blobs))
              (pickle_dumps ledger) ledger)
    as (st2 & Hrun2 & Hledger2 & Hsession2 & _).
  { apply mission_blobs_containers. unfold s. simpl_state.
    rewrite Hcont, Hself. simpl_state. apply lookup_insert_eq. }
  { apply lookup_insert_eq. }
  { unfold scratch_writable, scratch_path in *. unfold s. simpl_state.
    by rewrite Hlocal. }
  { exact Hlawful. }
  exists st1, st2. repeat split; try done.
  all: by destruct Hsession2.
Qed.

Lemma ledger_survives_restart_witness :
  ∃ st1 st2,
    @_upload_dir digits_pickle "case" Example.provisioned = (Return tt, st1) ∧
    @_create_storage_container digits_pickle 0
      (with_self (λ c, init (info c)) st1) = (Return tt, st2) ∧
    uploaded_dirs (self st2) = {[ "case" := ["home"; "u"] ]}.
Proof.
  destruct (@ledger_survives_restart digits_pickle 0 Example.provisioned
              "case" ∅)
    as (st1 & st2 & Hrun & _ & _ & Hrun2 & Hledger & _).
  - split; vm_compute; discriminate.
  - vm_compute. reflexivity.
  - vm_compute. reflexivity.
  - vm_compute. reflexivity.
  - split; vm_compute; reflexivity.
  - apply (bool_decide_unpack (fs_wf _)). vm_compute. exact I.
  - vm_compute. reflexivity.
  - exists st1, st2. split; [exact Hrun|]. split; [exact Hrun2|].
    rewrite Hledger. vm_compute. reflexivity.
Defined.

(** X8: a purged case can be staged again.  After [_delete_dir] of a case
    of the ledger, [_upload_dir] of the same path is accepted, and the
    ledger then records the parent of that path, whatever parent it
    recorded before the purge. *)
Theorem purge_then_stage_again `{Pickle} (st : State) (dir_path : string)
    (ignore_not_exist : bool) (blobs : gmap string string) (parent : Path) :
  let p := case_path st dir_path in
  session_established st →
  uploaded_dirs (self st) !! os_path.basename p = Some parent →
  mission_blobs st = Some blobs →
  refused_blobs (storage st) = ∅ →
  scratch_writable st →
  fs_wf (local st) →
  ∃ st1 st2,
    _delete_dir dir_path ignore_not_exist st = (Return tt, st1) ∧
    uploaded_dirs (self st1) !! os_path.basename p = None ∧
    _upload_dir dir_path st1 = (Return tt, st2) ∧
    uploaded_dirs (self st2)
    = <[os_path.basename p := os_path.dirname p]> (uploaded_dirs (self st)).
Proof.
  intros p Hsession Hknown Hb Hrefused Hwritable Hwf.
  destruct (delete_dir_state st dir_path ignore_not_exist blobs parent
              Hsession Hknown Hb Hwritable)
    as (st1 & Hrun & Hself & Hlocal & Hrefused1 & Hcont).
  { rewrite Hrefused. apply not_elem_of_empty. }
  fold p in Hself.
  assert (Hp1 : case_path st1 dir_path = p).
  { unfold p, case_path. by rewrite Hlocal. }
  destruct (upload_dir_state st1 dir_path
              (<["uploaded_dirs.dat" := pickle_dumps (uploaded_dirs (self st1))]>
                 (delete_all (take (Z.to_nat 50000)
                    (blobs_under (case_prefix st dir_path) blobs)) blobs)))
    as (st2 & Hrun2 & Hself2 & _).
  { unfold session_established. rewrite Hself. exact Hsession. }
  { rewrite Hp1, Hself. simpl_state. apply lookup_delete_eq. }
  { apply mission_blobs_containers. rewrite Hcont, Hself. simpl_state.
    apply lookup_insert_eq. }
  { by rewrite Hrefused1. }
  { unfold scratch_writable, scratch_path in *. by rewrite Hlocal. }
  { rewrite Hlocal. by apply fs_wf_delete_file. }
  exists st1, st2. split; [exact Hrun|]. split.
  { rewrite Hself. simpl_state. apply lookup_delete_eq. }
  split; [exact Hrun2|].
  rewrite Hself2, Hp1, Hself. simpl_state. apply insert_delete_eq.
Qed.

Lemma purge_then_stage_again_witness :
  ∃ st1 st2,
    @_delete_dir digits_pickle "case" false Example.staged = (Return tt, st1) ∧
    uploaded_dirs (self st1) !! "case" = None ∧
    @_upload_dir digits_pickle "case" st1 = (Return tt, st2) ∧
    uploaded_dirs (self st2) = {[ "case" := ["home"; "u"] ]}.
Proof.
  destruct (@purge_then_stage_again digits_pickle Example.staged "case" false
              Example.staged_blobs ["home"; "u"])
    as (st1 & st2 & Hrun & Hgone & Hrun2 & Hledger).
  - split; vm_compute; discriminate.
  - vm_compute. reflexivity.
  - vm_compute. reflexivity.
  - vm_compute. reflexivity.
  - split; vm_compute; reflexivity.
  - apply (bool_decide_unpack (fs_wf _)). vm_compute. exact I.
  - exists st1, st2. split; [exact Hrun|]. split; [exact Hgone|].
    split; [exact Hrun2|]. rewrite Hledger. vm_compute. reflexivity.
Defined.

Section NoDirectory.

Context `{Pickle}.

(** [_upload_dir] of a path that is no directory: the ledger entry is made
    and the ledger persisted, nothing else. *)
Lemma upload_dir_no_directory_state (st : State) (dir_path : string)
    (blobs : gmap string string) :
  let p := case_path st dir_path in
  session_established st →
  uploaded_dirs (self st) !! os_path.basename p = None →
  mission_blobs st = Some blobs →
  scratch_writable st →
  "uploaded_dirs.dat" ∉ refused_blobs (storage st) →
  os.isdir_in (local st) p = false →
  ∃ st',
    _upload_dir dir_path st = (Return tt, st') ∧
    self st'
    = set_uploaded_dirs
        (<[os_path.basename p := os_path.dirname p]> (uploaded_dirs (self st)))
        (self st) ∧
    local st'
    = set_files (delete (scratch_path st) (files (local st))) (local st) ∧
    mission_blobs st'
    = Some (<["uploaded_dirs.dat" := pickle_dumps (uploaded_dirs (self st'))]> blobs) ∧
    trace st'
    = trace st ++ [EvCreateBlob (container_name (info (self st)))
                     "uploaded_dirs.dat" (scratch_path st)].
Proof.
  intros p [Hu Ht] Hnew Hb Hwritable Hok Hnodir. unfold p, case_path in *.
  set (s := with_self (λ c, set_uploaded_dirs
              (<[os_path.basename (os_path.abspath (cwd (local st)) dir_path) :=
                   os_path.dirname (os_path.abspath (cwd (local st)) dir_path)]>
                 (uploaded_dirs c)) c) st).
  destruct (persist_accepted_frame s blobs)
    as (st' & Hpersist & Hself & Hlocal & _ & Hcont & Htrace); try done.
  exists st'. split.
  { unfold _upload_dir. run. rewrite Hnew.
    rewrite bool_decide_false by (intros [? ?]; done).
    run_deciding. unfold os.walk, os.walk_in. run. rewrite Hnodir.
    cbn [for_each]. run. exact Hpersist. }
  split; [by rewrite Hself|]. split; [exact Hlocal|]. split; [|exact Htrace].
  apply mission_blobs_containers. rewrite Hcont, Hself. unfold s. simpl_state.
  apply lookup_insert_eq.
Qed.

End NoDirectory.

(** X9: [_upload_dir] of a path that is no directory (nothing is there, or
    a file is) walks nothing and uploads no file, and yet records the base
    name in the ledger and persists the ledger: the only request is the
    upload of the ledger blob.  From then on the base name is taken: the
    same call again raises the RuntimeError of a duplicate case. *)
Theorem upload_dir_of_no_directory `{Pickle} (st : State) (dir_path : string)
    (blobs : gmap string string) :
  let p := case_path st dir_path in
  session_established st →
  uploaded_dirs (self st) !! os_path.basename p = None →
  mission_blobs st = Some blobs →
  scratch_writable st →
  "uploaded_dirs.dat" ∉ refused_blobs (storage st) →
  os.isdir_in (local st) p = false →
  ∃ st',
    _upload_dir dir_path st = (Return tt, st') ∧
    uploaded_dirs (self st')
    = <[os_path.basename p := os_path.dirname p]> (uploaded_dirs (self st)) ∧
    mission_blobs st'
    = Some (<["uploaded_dirs.dat" := pickle_dumps (uploaded_dirs (self st'))]> blobs) ∧
    trace st'
    = trace st ++ [EvCreateBlob (container_name (info (self st)))
                     "uploaded_dirs.dat" (scratch_path st)] ∧
    _upload_dir dir_path st'
    = (Raise (RuntimeError (CaseExists (os_path.basename p))), st').
Proof.
  intros p Hsession Hnew Hb Hwritable Hok Hnodir.
  destruct (upload_dir_no_directory_state st dir_path blobs Hsession Hnew Hb
              Hwritable Hok Hnodir)
    as (st' & Hrun & Hself & Hlocal & Hblobs & Htrace).
  fold p in Hself.
  exists st'. split; [exact Hrun|]. split; [by rewrite Hself|].
  split; [exact Hblobs|]. split; [exact Htrace|].
  assert (Hcase : case_path st' dir_path = p).
  { unfold p, case_path. by rewrite Hlocal. }
  rewrite <- Hcase.
  apply (upload_dir_known_case st' dir_path (os_path.dirname p)).
  rewrite Hcase, Hself. simpl_state. apply lookup_insert_eq.
Qed.

Lemma upload_dir_of_no_directory_witness :
  ∃ st',
    @_upload_dir digits_pickle "nowhere" Example.provisioned = (Return tt, st') ∧
    uploaded_dirs (self st') = {[ "nowhere" := ["home"; "u"] ]} ∧
    trace st'
    = trace Example.provisioned
      ++ [EvCreateBlob "mission" "uploaded_dirs.dat"
            ["home"; "u"; "uploaded_dirs.dat"]] ∧
    @_upload_dir digits_pickle "nowhere" st'
    = (Raise (RuntimeError (CaseExists "nowhere")), st').
Proof.
  destruct (@upload_dir_of_no_directory digits_pickle Example.provisioned
              "nowhere" ∅)
    as (st' & Hrun & Hledger & _ & Htrace & Hagain).
  - split; vm_compute; discriminate.
  - vm_compute. reflexivity.
  - vm_compute. reflexivity.
  - split; vm_compute; reflexivity.
  - assert (Hnone : refused_blobs (storage Example.provisioned) = ∅)
      by (vm_compute; reflexivity).
    rewrite Hnone. apply not_elem_of_empty.
  - vm_compute. reflexivity.
  - exists st'. split; [exact Hrun|].
    split; [rewrite Hledger; vm_compute; reflexivity|].
    split; [exact Htrace|exact Hagain].
Defined.

(** X10: [_create_storage_container] on a container that exists and holds
    no blob [uploaded_dirs.dat] returns with the session established and
    leaves the ledger of the controller as it is: it is not reset.  The
    container and the local machine are untouched, and two requests were
    sent: the creation attempt and the look for the ledger blob. *)
Theorem create_container_keeps_ledger `{Pickle} (fuel : nat) (st : State)
    (blobs : gmap string string) :
  mission_blobs st = Some blobs →
  blobs !! "uploaded_dirs.dat" = None →
  ∃ st',
    _create_storage_container fuel st = (Return tt, st') ∧
    uploaded_dirs (self st') = uploaded_dirs (self st) ∧
    session_established st' ∧
    storage st' = storage st ∧
    local st' = local st ∧
    trace st'
    = trace st ++ [EvCreateContainer (container_name (info (self st))) true;
                   EvBlobExists (container_name (info (self st)))
                     "uploaded_dirs.dat"].
Proof.
  intros Hblobs Hnone.
  unfold _create_storage_container. run. rewrite run_bind, run_catch.
  rewrite run_bind, (create_container_exists _ _ Hblobs). cbn [bool_decide].
  rewrite bool_decide_true by done.
  unfold storage_client.exists_. run. simpl_state.
  unfold mission_blobs in Hblobs. rewrite Hblobs.
  rewrite bool_decide_false by (rewrite Hnone; by intros [? ?]).
  unfold storage_client.generate_container_shared_access_signature,
    storage_client.make_container_url. run.
  eexists. split; [reflexivity|]. simpl_state.
  split; [reflexivity|]. split; [split; done|]. split.
  { by destruct (storage st). }
  split; [by destruct (local st)|]. by rewrite <- app_assoc.
Qed.

Lemma create_container_keeps_ledger_witness :
  ∃ st',
    @_create_storage_container digits_pickle 0 Scenario.second_call
    = (Return tt, st') ∧
    uploaded_dirs (self st') = {[ "old" := ["tmp"] ]} ∧
    session_established st' ∧
    storage st' = storage Scenario.second_call.
Proof.
  destruct (@create_container_keeps_ledger digits_pickle 0
              Scenario.second_call ∅)
    as (st' & Hrun & Hledger & Hsession & Hstorage & _).
  - vm_compute. reflexivity.
  - reflexivity.
  - exists st'. split; [exact Hrun|]. split; [rewrite Hledger; reflexivity|].
    split; [exact Hsession|exact Hstorage].
Defined.

(** X11: [_create_storage_container] on a container whose blob
    [uploaded_dirs.dat] does not unpickle raises the error of
    [pickle.loads].  The controller is as it was (no session is
    established, the ledger is not touched), and the blob's content is left
    in the file [uploaded_dirs.dat] of the working directory: the
    [os.remove] is not reached. *)
Theorem create_container_garbled_ledger `{Pickle} (fuel : nat) (st : State)
    (blobs : gmap string string) (content : string) :
  mission_blobs st = Some blobs →
  blobs !! "uploaded_dirs.dat" = Some content →
  scratch_writable st →
  pickle_loads content = None →
  ∃ st',
    _create_storage_container fuel st = (Raise UnpicklingError, st') ∧
    self st' = self st ∧
    storage st' = storage st ∧
    files (local st') = <[scratch_path st := content]> (files (local st)).
Proof.
  intros Hblobs Hcontent [Hdir Hparent] Hloads.
  unfold _create_storage_container. run. rewrite run_bind, run_catch.
  rewrite run_bind, (create_container_exists _ _ Hblobs). cbn [bool_decide].
  rewrite bool_decide_true by done.
  unfold storage_client.exists_. run. simpl_state.
  unfold mission_blobs in Hblobs. rewrite Hblobs.
  rewrite bool_decide_true by eauto.
  unfold os.local_path. run. simpl_state. fold (scratch_path st).
  unfold storage_client.get_blob_to_path. run.
  rewrite run_bind, write_file_run. simpl_state. rewrite Hdir, Hparent.
  run. unfold storage_client.require_container. run. simpl_state.
  rewrite Hblobs. run. rewrite Hcontent.
  rewrite run_bind, write_file_run. unfold os.isdir_in in *. simpl_state.
  rewrite Hdir, Hparent.
  unfold os.read_file. run. simpl_state. rewrite lookup_insert_eq. run.
  rewrite Hloads.
  eexists. split; [reflexivity|]. simpl_state.
  split; [reflexivity|]. split.
  { by destruct (storage st). }
  by rewrite insert_insert_eq.
Qed.

Lemma create_container_garbled_ledger_witness :
  ∃ st',
    @_create_storage_container digits_pickle 0 Scenario.garbled
    = (Raise UnpicklingError, st') ∧
    self st' = self Scenario.garbled ∧
    files (local st') !! ["home"; "u"; "uploaded_dirs.dat"]
    = Some "not a pickle".
Proof.
  destruct (@create_container_garbled_ledger digits_pickle 0 Scenario.garbled
              {[ "uploaded_dirs.dat" := "not a pickle" ]} "not a pickle")
    as (st' & Hrun & Hself & _ & Hfiles).
  - vm_compute. reflexivity.
  - reflexivity.
  - split; vm_compute; reflexivity.
  - vm_compute. reflexivity.
  - exists st'. split; [exact Hrun|]. split; [exact Hself|].
    rewrite Hfiles. apply lookup_insert_eq.
Defined.

(** X12: whenever [_create_storage_container] returns, on whatever path
    (a new container, an existing one, one that was being deleted), the
    token of the session is the one that the account signs for the
    mission's container with the four permissions, valid from the time at
    which the method got past the container's creation (so after the
    waits of the retry loop) and for one day. *)
Theorem session_token_window `{Pickle} (fuel : nat) (st st' : State) :
  _create_storage_container fuel st = (Return tt, st') →
  container_token (self st')
  = Some (sign (storage st') (container_name (info (self st)))
            {| perm_read := true; perm_write := true; perm_delete := true;
               perm_list := true |}
            (clock st') (clock st' + 86400)) ∧
  container_url (self st') ≠ None.
Proof.
  unfold _create_storage_container. run. rewrite run_bind.
  match goal with |- context [catch ?b ?h st] =>
    destruct (catch b h st) as [[[]|e|] s1]
  end; [|discriminate|discriminate].
  unfold storage_client.generate_container_shared_access_signature,
    storage_client.make_container_url. run.
  intros [= <-]. simpl_state. done.
Qed.

Lemma session_token_window_witness :
  ∃ st',
    @_create_storage_container digits_pickle 121 (Example.being_deleted 3)
    = (Return tt, st') ∧
    clock (Example.being_deleted 3) = 1000 ∧
    container_token (self st')
    = Some (sign (storage st') "mission"
              {| perm_read := true; perm_write := true; perm_delete := true;
                 perm_list := true |} 1015 (1015 + 86400)).
Proof.
  exists (@_create_storage_container digits_pickle 121
            (Example.being_deleted 3)).2.
  assert (Hrun : @_create_storage_container digits_pickle 121
                   (Example.being_deleted 3)
                 = (Return tt, (@_create_storage_container digits_pickle 121
                                  (Example.being_deleted 3)).2))
    by (vm_compute; reflexivity).
  split; [exact Hrun|]. split; [reflexivity|].
  destruct (@session_token_window digits_pickle 121 (Example.being_deleted 3)
              _ Hrun) as [Htoken _].
  rewrite Htoken. vm_compute. reflexivity.
Defined.

(** ** What fetching leaves as it is *)

Section Keeps.

Context {A B : Type}.
Implicit Types (I : State → Prop).

Lemma keeps_bind I (m : M A) (k : A → M B) :
  keeps I m → (∀ a, keeps I (k a)) → keeps I (m ≫= k).
Proof.
  intros Hm Hk s r s' Hs. rewrite run_bind.
  destruct (m s) as [[a|e|] s1] eqn:Hrun.
  - apply (Hk a s1). by apply (Hm s _ _ Hs Hrun).
  - intros [= <- <-]. by apply (Hm s _ _ Hs Hrun).
  - intros [= <- <-]. by apply (Hm s _ _ Hs Hrun).
Qed.

Lemma keeps_mret I (a : A) : keeps I (mret a : M A).
Proof. by intros s r s' Hs [= <- <-]. Qed.

Lemma keeps_raise I (e : Exn) : keeps I (raise e : M A).
Proof. by intros s r s' Hs [= <- <-]. Qed.

Lemma keeps_gets I (f : State → A) : keeps I (gets f).
Proof. by intros s r s' Hs [= <- <-]. Qed.

End Keeps.

Lemma keeps_for_each {A : Type} (I : State → Prop) (l : list A)
    (body : A → M unit) :
  (∀ x, keeps I (body x)) → keeps I (for_each l body).
Proof.
  intros Hbody. induction l as [|x l IH]; cbn [for_each].
  - apply keeps_mret.
  - apply keeps_bind; [apply Hbody|]. intros _. exact IH.
Qed.

Section OnlyFetched.

Implicit Types (st s : State).

Lemma only_fetched_refl st : only_fetched st st.
Proof.
  repeat split; try done. exists []. by rewrite app_nil_r.
Qed.

Lemma fetched_assert st (cond : bool) : keeps (only_fetched st) (py_assert cond).
Proof. destruct cond; [apply keeps_mret|apply keeps_raise]. Qed.

Lemma fetched_log st ev :
  is_blob_read ev = true → keeps (only_fetched st) (log ev).
Proof.
  intros Hev s r s' (? & ? & ? & ? & ? & ? & ? & evs & Htrace & Hevs) [= <- <-].
  repeat split; try done. exists (evs ++ [ev]). simpl_state. split.
  - by rewrite Htrace, app_assoc.
  - apply Forall_app. split; [done|]. by apply Forall_singleton.
Qed.

Lemma fetched_write_file st p content :
  keeps (only_fetched st) (os.write_file p content).
Proof.
  intros s r s' Hs. rewrite write_file_run.
  destruct (os.isdir_in (local s) p); [by intros [= <- <-]|].
  destruct (os.isdir_in (local s) (os_path.dirname p)); [|by intros [= <- <-]].
  intros [= <- <-].
  destruct Hs as (? & ? & ? & ? & ? & ? & Hfiles & ?).
  repeat split; try done. simpl_state. intros q Hq.
  apply lookup_insert_is_Some'. right. by apply Hfiles.
Qed.

Lemma fetched_makedirs st p : keeps (only_fetched st) (os.makedirs p).
Proof.
  intros s r s' Hs. unfold os.makedirs. run.
  destruct (bool_decide (os.isdir_in (local s) p = true ∨ _));
    [by intros [= <- <-]|].
  destruct (bool_decide (Exists _ _)); [by intros [= <- <-]|].
  intros [= <- <-].
  destruct Hs as (? & ? & ? & ? & ? & Hdirs & ? & ?).
  repeat split; try done. simpl_state. set_solver.
Qed.

Lemma fetched_require_container st name :
  keeps (only_fetched st) (storage_client.require_container name).
Proof.
  unfold storage_client.require_container.
  apply keeps_bind; [apply keeps_gets|]. intros [blobs|].
  - apply keeps_mret.
  - apply keeps_raise.
Qed.

Lemma fetched_get_blob st name blob_name file_path :
  keeps (only_fetched st)
    (storage_client.get_blob_to_path name blob_name file_path).
Proof.
  unfold storage_client.get_blob_to_path.
  apply keeps_bind; [apply fetched_write_file|]. intros _.
  apply keeps_bind; [by apply fetched_log|]. intros _.
  apply keeps_bind; [apply fetched_require_container|]. intros blobs.
  destruct (blobs !! blob_name).
  - apply fetched_write_file.
  - apply keeps_raise.
Qed.

Lemma fetched_list_blobs st name prefix num_results :
  keeps (only_fetched st) (storage_client.list_blobs name prefix num_results).
Proof.
  unfold storage_client.list_blobs.
  apply keeps_bind; [by apply fetched_log|]. intros _.
  apply keeps_bind; [apply fetched_require_container|]. intros blobs.
  apply keeps_mret.
Qed.

Lemma fetched_download_dir st dir_path ignore_not_exist :
  keeps (only_fetched st) (_download_dir dir_path ignore_not_exist).
Proof.
  unfold _download_dir, self_info.
  apply keeps_bind; [apply keeps_gets|]. intros i.
  apply keeps_bind; [apply keeps_gets|]. intros p.
  apply keeps_bind; [apply keeps_gets|]. intros url.
  apply keeps_bind; [apply fetched_assert|]. intros _.
  apply keeps_bind; [apply keeps_gets|]. intros token.
  apply keeps_bind; [apply fetched_assert|]. intros _.
  apply keeps_bind; [apply keeps_gets|]. intros d.
  destruct (negb (bool_decide (is_Some (d !! os_path.basename p)))).
  { destruct (negb ignore_not_exist); [apply keeps_raise|apply keeps_mret]. }
  apply keeps_bind; [apply fetched_list_blobs|]. intros blob_list.
  apply keeps_for_each. intros blob_name.
  apply keeps_bind; [apply keeps_gets|]. intros d'.
  apply keeps_bind.
  { unfold dict_get. destruct (d' !! _); [apply keeps_mret|apply keeps_raise]. }
  intros parent.
  apply keeps_bind; [apply keeps_gets|]. intros there.
  apply keeps_bind.
  { destruct (negb there); [apply fetched_makedirs|apply keeps_mret]. }
  intros _. apply fetched_get_blob.
Qed.

End OnlyFetched.

(** X13: [_download_dir] only fetches.  Whatever its arguments and the
    state, and whether it returns or raises, afterwards the controller (its
    ledger and its session), the storage account (every container and
    every blob), the batch account and the clock are as they were; every
    directory and every file of the machine is still there; and every
    request it sent was a listing or a download of a blob. *)
Theorem download_dir_only_fetches (st : State) (dir_path : string)
    (ignore_not_exist : bool) :
  only_fetched st (_download_dir dir_path ignore_not_exist st).2.
Proof.
  apply (fetched_download_dir st dir_path ignore_not_exist st
           (_download_dir dir_path ignore_not_exist st).1).
  - apply only_fetched_refl.
  - apply surjective_pairing.
Qed.

(** ** Running the methods on a world *)

Section RunWorld.

Context {A B : Type}.
Implicit Types (m : W A) (k : A → W B) (w : World).

Lemma world_bind m k w :
  (m ≫= k) w = match m w with
                | (Return a, w') => k a w'
                | (Raise e, w') => (Raise e, w')
                | (Diverge, w') => (Diverge, w')
                end.
Proof. reflexivity. Qed.

Lemma world_bind_return m k w a w' :
  m w = (Return a, w') → (m ≫= k) w = k a w'.
Proof. intros Hm. rewrite world_bind, Hm. reflexivity. Qed.

Lemma world_bind_raise m k w e w' :
  m w = (Raise e, w') → (m ≫= k) w = (Raise e, w').
Proof. intros Hm. rewrite world_bind, Hm. reflexivity. Qed.

Lemma world_bind_gets (f : World → A) k w : (W_gets f ≫= k) w = k (f w) w.
Proof. reflexivity. Qed.

Lemma world_bind_mret (a : A) k w : (mret a ≫= k) w = k a w.
Proof. reflexivity. Qed.

Lemma world_bind_throw (e : Exn) k w : (W_raise e ≫= k) w = (Raise e, w).
Proof. reflexivity. Qed.

Lemma world_bind_lift (m0 : M A) k w :
  (lift m0 ≫= k) w
  = match m0 (base w) with
    | (Return a, st') => k a (with_base (λ _, st') w)
    | (Raise e, st') => (Raise e, with_base (λ _, st') w)
    | (Diverge, st') => (Diverge, with_base (λ _, st') w)
    end.
Proof.
  rewrite world_bind. unfold lift.
  destruct (m0 (base w)) as [[a|e|] st']; reflexivity.
Qed.

End RunWorld.

Lemma world_bind_modify {B : Type} (f : World → World) (k : unit → W B) w :
  (W_modify f ≫= k) w = k tt (f w).
Proof. reflexivity. Qed.

Lemma world_bind_send {B : Type} (r : Request) (k : unit → W B) w :
  (send r ≫= k) w = k tt (with_requests (λ t, t ++ [r]) w).
Proof. reflexivity. Qed.

Lemma world_bind_info {B : Type} (k : MissionInfo → W B) w :
  (W_info ≫= k) w = k (info (self (base w))) w.
Proof. reflexivity. Qed.

Lemma world_bind_assoc {A B C : Type} (m : W A) (f : A → W B) (g : B → W C) w :
  ((m ≫= f) ≫= g) w = (m ≫= λ x, f x ≫= g) w.
Proof. rewrite !world_bind. destruct (m w) as [[a|e|] w']; reflexivity. Qed.

Lemma world_catch {A : Type} (body : W A) (handler : Exn → W A) w :
  W_catch body handler w = match body w with
                           | (Raise e, w') => handler e w'
                           | other => other
                           end.
Proof. reflexivity. Qed.

Lemma with_base_id w : with_base (λ _, base w) w = w.
Proof. by destruct w. Qed.

Create Rewrite HintDb world.

#[global] Hint Rewrite @world_bind_gets @world_bind_mret @world_bind_throw
  @world_bind_modify @world_bind_send @world_bind_info @world_bind_assoc
  : world.

(** The projections of an updated world. *)
Ltac simpl_world :=
  cbn [base pools_in_deletion jobs refused_jobs deletion_lag requests
       with_base with_pools_in_deletion with_jobs with_requests] in *.

Ltac run_world := autorewrite with world.

(** ** Deleting the pool *)

Lemma pool_exists_run st pool_id :
  pool.exists_ pool_id st
  = (Return (bool_decide (is_Some (batch st !! pool_id))),
     with_trace (λ t, t ++ [EvPoolExists pool_id]) st).
Proof. reflexivity. Qed.

(** X14: [_delete_pool] looks before it deletes, and does not wait.  On
    an account without the mission's pool it returns after the
    [pool.exists] alone: no deletion is sent.  On a pool that is there and
    not yet in deletion it returns after one deletion request; the pool is
    then in deletion and still exists, and the jobs are not touched.  A
    second [_delete_pool] finds the pool, sends the deletion again, and
    raises the refusal of the service. *)
Theorem delete_pool_looks_first (w : World) :
  let name := pool_name (info (self (base w))) in
  (batch (base w) !! name = None →
   _delete_pool w
   = (Return tt, with_base (with_trace (λ t, t ++ [EvPoolExists name])) w)) ∧
  (is_Some (batch (base w) !! name) →
   name ∉ pools_in_deletion w →
   ∃ w1 w2,
     _delete_pool w = (Return tt, w1) ∧
     batch (base w1) = batch (base w) ∧
     pools_in_deletion w1 = {[ name ]} ∪ pools_in_deletion w ∧
     jobs w1 = jobs w ∧
     trace (base w1) = trace (base w) ++ [EvPoolExists name] ∧
     requests w1 = requests w ++ [ReqPoolDelete name] ∧
     _delete_pool w1 = (Raise (BatchErrorException "PoolBeingDeleted"), w2) ∧
     requests w2 = requests w ++ [ReqPoolDelete name; ReqPoolDelete name]).
Proof.
  intros name. split.
  - intros Hnone. unfold _delete_pool. run_world.
    rewrite world_bind_lift, pool_exists_run. fold name. rewrite Hnone.
    rewrite bool_decide_false by (by intros [? ?]). reflexivity.
  - intros [p Hp] Hfree. eexists _, _. split.
    { unfold _delete_pool. run_world.
      rewrite world_bind_lift, pool_exists_run. fold name. rewrite Hp.
      rewrite bool_decide_true by eauto.
      unfold batch_client.pool_delete. run_world. simpl_world. simpl_state.
      rewrite Hp. rewrite bool_decide_false by done. reflexivity. }
    simpl_world. simpl_state. repeat (split; [reflexivity|]). split.
    { unfold _delete_pool. run_world. simpl_world. simpl_state.
      rewrite world_bind_lift, pool_exists_run. simpl_world. simpl_state.
      fold name. rewrite Hp. rewrite bool_decide_true by eauto.
      unfold batch_client.pool_delete. run_world. simpl_world. simpl_state.
      rewrite Hp. rewrite bool_decide_true by set_solver. reflexivity. }
    simpl_world. by rewrite <- app_assoc.
Qed.

Lemma delete_pool_looks_first_witness :
  _delete_pool (Scenario.world_of Example.fresh)
  = (Return tt,
     with_base (with_trace (λ t, t ++ [EvPoolExists "pool"]))
       (Scenario.world_of Example.fresh)) ∧
  ∃ w1 w2,
    _delete_pool (Scenario.world_of Scenario.small_pool) = (Return tt, w1) ∧
    batch (base w1) = batch Scenario.small_pool ∧
    requests w1 = [ReqPoolDelete "pool"] ∧
    _delete_pool w1 = (Raise (BatchErrorException "PoolBeingDeleted"), w2) ∧
    requests w2 = [ReqPoolDelete "pool"; ReqPoolDelete "pool"].
Proof.
  split.
  - apply (delete_pool_looks_first (Scenario.world_of Example.fresh)).
    reflexivity.
  - destruct (delete_pool_looks_first (Scenario.world_of Scenario.small_pool))
      as [_ Hthere].
    destruct Hthere
      as (w1 & w2 & Hrun & Hbatch & _ & _ & _ & Hrequests & Hagain & Hboth).
    + vm_compute. eauto.
    + apply not_elem_of_empty.
    + exists w1, w2. split; [exact Hrun|]. split; [exact Hbatch|].
      split; [exact Hrequests|]. split; [exact Hagain|exact Hboth].
Defined.

(** ** Deleting the container *)

Section DeleteContainer.

Implicit Types (w : World).

Lemma delete_container_present w name blobs :
  containers (storage (base w)) !! name = Some (Present blobs) →
  delete_container name true w
  = (Return true,
     with_base (with_storage (λ s,
         set_containers (<[name := Deleting (deletion_lag w)]> (containers s)) s))
       (with_requests (λ t, t ++ [ReqDeleteContainer name true]) w)).
Proof.
  intros Hc. unfold delete_container. run_world. simpl_world.
  rewrite Hc. run_world. reflexivity.
Qed.

End DeleteContainer.

(** X15: [_delete_storage_container] on a container that is there returns
    after one deletion request; the container and its blobs are gone (the
    container is being deleted), and the controller is as it was: it keeps
    its token, its URL and its ledger.  So a case of the ledger is still
    refused by [_upload_dir] as a duplicate, although no blob of it is
    left, and [_download_dir] of it gets past its checks and fails at the
    listing, on the container that is not there. *)
Theorem delete_container_keeps_session `{Pickle} (w : World)
    (blobs : gmap string string) (dir_path : string) (parent : Path) :
  let name := container_name (info (self (base w))) in
  let base_name := os_path.basename (case_path (base w) dir_path) in
  mission_blobs (base w) = Some blobs →
  session_established (base w) →
  uploaded_dirs (self (base w)) !! base_name = Some parent →
  ∃ w',
    _delete_storage_container w = (Return tt, w') ∧
    containers (storage (base w')) !! name = Some (Deleting (deletion_lag w)) ∧
    mission_blobs (base w') = None ∧
    self (base w') = self (base w) ∧
    requests w' = requests w ++ [ReqDeleteContainer name true] ∧
    _upload_dir dir_path (base w')
    = (Raise (RuntimeError (CaseExists base_name)), base w') ∧
    ∀ ignore_not_exist,
      _download_dir dir_path ignore_not_exist (base w')
      = (Raise (AzureMissingResourceHttpError "ContainerNotFound"),
         with_trace (λ t, t ++ [EvListBlobs name (base_name +:+ "/") 50000])
           (base w')).
Proof.
  intros name base_name Hb [Hu Ht] Hknown.
  pose proof Hb as Hc. apply mission_blobs_containers in Hc. fold name in Hc.
  unfold case_path in *.
  eexists. split.
  { unfold _delete_storage_container. run_world. fold name.
    erewrite world_bind_return; last by apply (delete_container_present _ _ blobs).
    reflexivity. }
  simpl_world. simpl_state.
  split; [apply lookup_insert_eq|]. split.
  { unfold mission_blobs, storage_client.blobs_of. simpl_state. fold name.
    by rewrite lookup_insert_eq. }
  split; [done|]. split; [done|]. split.
  { match goal with |- _upload_dir _ ?s = _ =>
      apply (upload_dir_known_case s dir_path parent)
    end. exact Hknown. }
  intros ignore_not_exist. unfold _download_dir. run_deciding. simpl_state.
  cbn [negb]. unfold storage_client.list_blobs, storage_client.require_container.
  run. simpl_state. unfold storage_client.blobs_of. simpl_state. fold name.
  rewrite lookup_insert_eq. reflexivity.
Qed.

Lemma delete_container_keeps_session_witness :
  ∃ w',
    @_delete_storage_container (Scenario.world_of Example.staged)
    = (Return tt, w') ∧
    containers (storage (base w')) !! "mission" = Some (Deleting 2) ∧
    uploaded_dirs (self (base w')) = {[ "case" := ["home"; "u"] ]} ∧
    @_upload_dir digits_pickle "case" (base w')
    = (Raise (RuntimeError (CaseExists "case")), base w').
Proof.
  destruct (@delete_container_keeps_session digits_pickle
              (Scenario.world_of Example.staged) Example.staged_blobs
              "case" ["home"; "u"])
    as (w' & Hrun & Hcont & _ & Hself & _ & Hstage & _).
  - vm_compute. reflexivity.
  - split; vm_compute; discriminate.
  - vm_compute. reflexivity.
  - exists w'. split; [exact Hrun|]. split; [exact Hcont|].
    split; [rewrite Hself; vm_compute; reflexivity|exact Hstage].
Defined.

(** X16: [_delete_storage_container] asks the service to fail when the
    container does not exist, and lets that failure through: on an account
    without the mission's container it raises the error of the missing
    resource after its one request, where [_delete_pool] on an account
    without the pool returns. *)
Theorem delete_container_fails_when_missing (w : World) :
  let name := container_name (info (self (base w))) in
  containers (storage (base w)) !! name = None →
  _delete_storage_container w
  = (Raise (AzureMissingResourceHttpError "ContainerNotFound"),
     with_requests (λ t, t ++ [ReqDeleteContainer name true]) w).
Proof.
  intros name Hnone. unfold _delete_storage_container. run_world. fold name.
  unfold delete_container. run_world. simpl_world. rewrite Hnone.
  reflexivity.
Qed.

Lemma delete_container_fails_when_missing_witness :
  _delete_storage_container (Scenario.world_of Example.fresh)
  = (Raise (AzureMissingResourceHttpError "ContainerNotFound"),
     with_requests (λ t, t ++ [ReqDeleteContainer "mission" true])
       (Scenario.world_of Example.fresh)).
Proof.
  apply (delete_container_fails_when_missing (Scenario.world_of Example.fresh)).
  reflexivity.
Defined.

(** ** The container deleted and created again *)

Section Recreate.

Context `{Pickle}.
Implicit Types (st : State).

Lemma create_container_session_part st1 (name : string) :
  ∃ st',
    (current_utc_time ← gets clock;
     token ← storage_client.generate_container_shared_access_signature name
       {| perm_read := true; perm_write := true; perm_delete := true;
          perm_list := true |}
       current_utc_time (current_utc_time + 86400);
     modify (with_self (set_container_token (Some token))) ;;
     url ← storage_client.make_container_url name token;
     modify (with_self (set_container_url (Some url))) ;;
     modify (with_self (set_container_url
       (Some (str_replace "restype=container&" "" url))))) st1
    = (Return tt, st') ∧
    info (self st') = info (self st1) ∧
    uploaded_dirs (self st') = uploaded_dirs (self st1) ∧
    session_established st' ∧
    storage st' = storage st1 ∧ local st' = local st1 ∧
    trace st' = trace st1 ∧ clock st' = clock st1.
Proof.
  unfold storage_client.generate_container_shared_access_signature,
    storage_client.make_container_url. run.
  eexists. split; [reflexivity|]. simpl_state.
  split; [reflexivity|]. split; [reflexivity|]. split; [split; done|].
  split; [by destruct (storage st1)|]. split; [by destruct (local st1)|done].
Qed.

(** [_create_storage_container] on a container that is being deleted and
    is gone within the bound of the retry loop. *)
Lemma create_storage_container_deleting fuel st (m : nat) :
  containers (storage st) !! container_name (info (self st)) = Some (Deleting m) →
  (m ≤ 120)%nat →
  (m ≤ fuel)%nat →
  ∃ st',
    _create_storage_container fuel st = (Return tt, st') ∧
    containers (storage st') !! container_name (info (self st))
    = Some (Present ∅) ∧
    info (self st') = info (self st) ∧
    uploaded_dirs (self st') = uploaded_dirs (self st) ∧
    session_established st' ∧
    trace st'
    = trace st
      ++ EvCreateContainer (container_name (info (self st))) true
         :: retry_trace (container_name (info (self st))) m.
Proof.
  intros Hc Hbound Hfuel. destruct m as [|m].
  - destruct (create_container_session_part
                (with_storage (λ s, set_containers
                   (<[container_name (info (self st)) := Present ∅]>
                      (containers s)) s)
                   (with_trace (λ t, t ++ [EvCreateContainer
                      (container_name (info (self st))) true]) st))
                (container_name (info (self st))))
      as (st' & Hrun & Hinfo & Hledger & Hsession & Hstorage & _ & Htrace & _).
    exists st'. split.
    { unfold _create_storage_container. run. rewrite run_bind, run_catch.
      rewrite run_bind. rewrite (create_container_gone _ _ _ Hc).
      run. exact Hrun. }
    rewrite Hstorage, Hinfo, Hledger, Htrace. simpl_state.
    split; [apply lookup_insert_eq|]. done.
  - destruct (retry_create_succeeds m fuel
      (with_storage (λ s, set_containers
           (<[container_name (info (self st)) := Deleting m]> (containers s)) s)
         (with_trace (λ t, t ++ [EvCreateContainer
                                   (container_name (info (self st))) true]) st))
      (container_name (info (self st))) 0)
      as (st1 & Hloop & Hcont & Hself & _ & _ & Htrace1).
    { cbn. by rewrite lookup_insert_eq. }
    { lia. }
    { lia. }
    destruct (create_container_session_part st1 (container_name (info (self st))))
      as (st' & Hrun & Hinfo & Hledger & Hsession & Hstorage & _ & Htrace & _).
    exists st'. split.
    { unfold _create_storage_container. run. rewrite run_bind, run_catch.
      rewrite run_bind. rewrite (create_container_being_deleted _ _ _ Hc).
      cbn [bool_decide].
      rewrite bool_decide_false by done. rewrite bool_decide_true by done.
      rewrite Hloop. exact Hrun. }
    rewrite Hstorage, Hinfo, Hledger, Htrace, Hself, Htrace1. simpl_state.
    split; [exact Hcont|]. split; [done|]. split; [done|]. split; [done|].
    by rewrite <- app_assoc.
Qed.

End Recreate.

(** X17: the ledger outlives the container.  When the mission's container
    is deleted with [_delete_storage_container] and created again with
    [_create_storage_container] (the service done with the deletion within
    the 120 retries), the new container is empty and the session is
    established, but the ledger of the controller still lists every case
    it listed before: the creation after a deletion does not reset it. *)
Theorem recreated_container_keeps_ledger `{Pickle} (fuel : nat) (w : World)
    (blobs : gmap string string) :
  let name := container_name (info (self (base w))) in
  mission_blobs (base w) = Some blobs →
  (deletion_lag w ≤ 120)%nat →
  (deletion_lag w ≤ fuel)%nat →
  ∃ w1 st2,
    _delete_storage_container w = (Return tt, w1) ∧
    _create_storage_container fuel (base w1) = (Return tt, st2) ∧
    mission_blobs st2 = Some ∅ ∧
    uploaded_dirs (self st2) = uploaded_dirs (self (base w)) ∧
    session_established st2 ∧
    trace st2
    = trace (base w)
      ++ EvCreateContainer name true :: retry_trace name (deletion_lag w).
Proof.
  intros name Hb Hbound Hfuel.
  pose proof Hb as Hc. apply mission_blobs_containers in Hc. fold name in Hc.
  set (st1 := with_storage (λ s, set_containers
                (<[name := Deleting (deletion_lag w)]> (containers s)) s)
                (base w)).
  destruct (create_storage_container_deleting fuel st1 (deletion_lag w))
    as (st2 & Hrun2 & Hcont & Hinfo & Hledger & Hsession & Htrace).
  { unfold st1. simpl_state. fold name. apply lookup_insert_eq. }
  { exact Hbound. }
  { exact Hfuel. }
  eexists _, st2. split.
  { unfold _delete_storage_container. run_world. fold name.
    erewrite world_bind_return;
      last by apply (delete_container_present _ _ blobs).
    reflexivity. }
  simpl_world. fold st1. split; [exact Hrun2|]. split.
  { apply mission_blobs_containers. rewrite Hinfo. exact Hcont. }
  split; [exact Hledger|]. split; [exact Hsession|]. exact Htrace.
Qed.

Lemma recreated_container_keeps_ledger_witness :
  ∃ w1 st2,
    _delete_storage_container (Scenario.world_of Example.staged)
    = (Return tt, w1) ∧
    @_create_storage_container digits_pickle 2 (base w1) = (Return tt, st2) ∧
    mission_blobs st2 = Some ∅ ∧
    uploaded_dirs (self st2) = {[ "case" := ["home"; "u"] ]} ∧
    trace st2
    = trace Example.staged
      ++ [EvCreateContainer "mission" true;
          EvSleep 5; EvCreateContainer "mission" false;
          EvSleep 5; EvCreateContainer "mission" false].
Proof.
  destruct (@recreated_container_keeps_ledger digits_pickle 2
              (Scenario.world_of Example.staged) Example.staged_blobs)
    as (w1 & st2 & Hrun1 & Hrun2 & Hblobs & Hledger & _ & Htrace).
  - vm_compute. reflexivity.
  - cbn. lia.
  - cbn. lia.
  - exists w1, st2. split; [exact Hrun1|]. split; [exact Hrun2|].
    split; [exact Hblobs|].
    split; [rewrite Hledger; vm_compute; reflexivity|].
    rewrite Htrace. vm_compute. reflexivity.
Defined.

(** ** The job *)

Section Job.

Implicit Types (w : World).

Lemma job_add_run w (job : models.JobAddParameter) :
  batch_client.job_add job w
  = match jobs w !! models.job_id job with
    | Some _ =>
        (Raise (BatchErrorException "JobExists"),
         with_requests (λ t, t ++ [ReqJobAdd job]) w)
    | None =>
        if bool_decide (models.job_id job ∈ refused_jobs w)
        then (Raise (BatchErrorException "ActiveJobAndScheduleQuotaReached"),
              with_requests (λ t, t ++ [ReqJobAdd job]) w)
        else (Return tt,
              with_jobs (insert (models.job_id job)
                {| job_pool := models.pool_id (models.pool_info job);
                   job_tasks := ∅ |})
                (with_requests (λ t, t ++ [ReqJobAdd job]) w))
    end.
Proof.
  unfold batch_client.job_add. run_world. simpl_world.
  destruct (jobs w !! models.job_id job); [reflexivity|].
  destruct (bool_decide _); reflexivity.
Qed.

(** [_create_job] when the job is not there and the service takes it. *)
Lemma create_job_new w :
  jobs w !! job_name (info (self (base w))) = None →
  job_name (info (self (base w))) ∉ refused_jobs w →
  _create_job w
  = (Return tt,
     with_jobs (insert (job_name (info (self (base w))))
       {| job_pool := pool_name (info (self (base w))); job_tasks := ∅ |})
       (with_requests (λ t, t ++ [ReqJobAdd
          {| models.job_id := job_name (info (self (base w)));
             models.pool_info :=
               {| models.pool_id := pool_name (info (self (base w))) |} |}]) w)).
Proof.
  intros Hnone Hok. unfold _create_job. run_world.
  rewrite world_catch, job_add_run. cbn [models.job_id].
  rewrite Hnone. rewrite bool_decide_false by done. reflexivity.
Qed.

(** [_create_job] when the job is there. *)
Lemma create_job_existing w j :
  jobs w !! job_name (info (self (base w))) = Some j →
  _create_job w
  = (Return tt,
     with_requests (λ t, t ++ [ReqJobAdd
       {| models.job_id := job_name (info (self (base w)));
          models.pool_info :=
            {| models.pool_id := pool_name (info (self (base w))) |} |}]) w).
Proof.
  intros Hj. unfold _create_job. run_world.
  rewrite world_catch, job_add_run. cbn [models.job_id].
  rewrite Hj. reflexivity.
Qed.

End Job.

(** X18: [_create_job] can be repeated.  On an account without the
    mission's job it creates the job on the mission's pool, without tasks;
    on an account that has a job of that name, on whatever pool and with
    whatever tasks, it sends the same creation request, takes the
    service's "The specified job already exists." for an answer and
    returns, and the job and its tasks are as they were. *)
Theorem create_job_idempotent (w : World) :
  let name := job_name (info (self (base w))) in
  let request :=
    ReqJobAdd {| models.job_id := name;
                 models.pool_info :=
                   {| models.pool_id := pool_name (info (self (base w))) |} |} in
  (jobs w !! name = None → name ∉ refused_jobs w →
   ∃ w1 w2,
     _create_job w = (Return tt, w1) ∧
     jobs w1 = <[name := {| job_pool := pool_name (info (self (base w)));
                            job_tasks := ∅ |}]> (jobs w) ∧
     _create_job w1 = (Return tt, w2) ∧
     jobs w2 = jobs w1 ∧
     requests w2 = requests w ++ [request; request]) ∧
  (∀ j, jobs w !! name = Some j →
     ∃ w',
       _create_job w = (Return tt, w') ∧
       jobs w' = jobs w ∧
       base w' = base w ∧
       requests w' = requests w ++ [request]).
Proof.
  intros name request. split.
  - intros Hnone Hok. eexists _, _.
    split; [by apply create_job_new|]. simpl_world.
    split; [reflexivity|]. split.
    { erewrite create_job_existing; [reflexivity|].
      simpl_world. apply lookup_insert_eq. }
    simpl_world. split; [reflexivity|]. by rewrite <- app_assoc.
  - intros j Hj. eexists. split; [by apply (create_job_existing w j)|].
    simpl_world. done.
Qed.

Lemma create_job_idempotent_witness :
  ∃ w1 w2,
    _create_job (Scenario.world_of Example.fresh) = (Return tt, w1) ∧
    jobs w1 = {[ "job" := {| job_pool := "pool"; job_tasks := ∅ |} ]} ∧
    _create_job w1 = (Return tt, w2) ∧
    jobs w2 = jobs w1 ∧
    length (requests w2) = 2%nat.
Proof.
  destruct (create_job_idempotent (Scenario.world_of Example.fresh))
    as [Hnew _].
  destruct Hnew as (w1 & w2 & Hrun1 & Hjobs & Hrun2 & Hsame & Hrequests).
  - reflexivity.
  - apply not_elem_of_empty.
  - exists w1, w2. split; [exact Hrun1|].
    split; [rewrite Hjobs; reflexivity|]. split; [exact Hrun2|].
    split; [exact Hsame|]. rewrite Hrequests. reflexivity.
Defined.

(** X19: [_create_job] lets every other failure through.  When the
    service refuses the job for a reason other than its existence (here:
    the account's quota of active jobs), the BatchErrorException is raised
    again, and no job was made. *)
Theorem create_job_other_failure (w : World) :
  let name := job_name (info (self (base w))) in
  jobs w !! name = None →
  name ∈ refused_jobs w →
  ∃ w',
    _create_job w
    = (Raise (BatchErrorException "ActiveJobAndScheduleQuotaReached"), w') ∧
    jobs w' = jobs w ∧
    base w' = base w.
Proof.
  intros name Hnone Hrefused. unfold _create_job. run_world.
  rewrite world_catch, job_add_run. cbn [models.job_id]. fold name.
  rewrite Hnone. rewrite bool_decide_true by done.
  eexists. split; [reflexivity|]. done.
Qed.

Lemma create_job_other_failure_witness :
  ∃ w',
    _create_job Scenario.no_quota
    = (Raise (BatchErrorException "ActiveJobAndScheduleQuotaReached"), w') ∧
    jobs w' = ∅.
Proof.
  destruct (create_job_other_failure Scenario.no_quota)
    as (w' & Hrun & Hjobs & _).
  - reflexivity.
  - vm_compute. reflexivity.
  - exists w'. split; [exact Hrun|]. rewrite Hjobs. reflexivity.
Defined.

(** X20: [_delete_job] does not look first.  On an account without the
    mission's job the error of the service is raised after the one
    request; on an account with the job, the job goes with all its tasks
    and the other jobs stay. *)
Theorem delete_job_does_not_look (w : World) :
  let name := job_name (info (self (base w))) in
  (jobs w !! name = None →
   _delete_job w
   = (Raise (BatchErrorException "JobNotFound"),
      with_requests (λ t, t ++ [ReqJobDelete name]) w)) ∧
  (∀ j, jobs w !! name = Some j →
     ∃ w',
       _delete_job w = (Return tt, w') ∧
       jobs w' = delete name (jobs w) ∧
       base w' = base w ∧
       requests w' = requests w ++ [ReqJobDelete name]).
Proof.
  intros name. split.
  - intros Hnone. unfold _delete_job, batch_client.job_delete. run_world.
    simpl_world. fold name. rewrite Hnone. reflexivity.
  - intros j Hj. unfold _delete_job, batch_client.job_delete. run_world.
    simpl_world. fold name. rewrite Hj.
    eexists. split; [reflexivity|]. done.
Qed.

Lemma delete_job_does_not_look_witness :
  _delete_job (Scenario.world_of Example.fresh)
  = (Raise (BatchErrorException "JobNotFound"),
     with_requests (λ t, t ++ [ReqJobDelete "job"])
       (Scenario.world_of Example.fresh)) ∧
  ∃ w',
    _delete_job (Scenario.with_job (Scenario.world_of Example.fresh))
    = (Return tt, w') ∧
    jobs w' = ∅.
Proof.
  split.
  - apply (delete_job_does_not_look (Scenario.world_of Example.fresh)).
    reflexivity.
  - destruct (delete_job_does_not_look
                (Scenario.with_job (Scenario.world_of Example.fresh)))
      as [_ Hthere].
    destruct (Hthere {| job_pool := "pool"; job_tasks := ∅ |})
      as (w' & Hrun & Hjobs & _).
    + reflexivity.
    + exists w'. split; [exact Hrun|]. rewrite Hjobs.
      vm_compute. reflexivity.
Defined.

(** ** Tasks *)

Section Task.

Context `{Pickle}.
Implicit Types (w : World).

(** [add_task] after its upload: the task is made from the state that the
    upload left and sent to the mission's job. *)
Lemma add_task_after_upload w case st1 :
  _upload_dir case (base w) = (Return tt, st1) →
  add_task case w
  = batch_client.task_add (job_name (info (self st1)))
      (task_of (container_url (self st1))
         (os_path.basename (os_path.abspath (cwd (local st1)) case)))
      (with_base (λ _, st1) w).
Proof.
  intros Hrun. unfold add_task. rewrite world_bind_lift, Hrun.
  run_world. reflexivity.
Qed.

Lemma add_task_upload_raises w case e st1 :
  _upload_dir case (base w) = (Raise e, st1) →
  add_task case w = (Raise e, with_base (λ _, st1) w).
Proof.
  intros Hrun. unfold add_task. rewrite world_bind_lift, Hrun. reflexivity.
Qed.

Lemma task_add_run w job_id task :
  batch_client.task_add job_id task w
  = match jobs w !! job_id with
    | None =>
        (Raise (BatchErrorException "JobNotFound"),
         with_requests (λ t, t ++ [ReqTaskAdd job_id task]) w)
    | Some j =>
        if bool_decide (is_Some (job_tasks j !! models.task_id task))
        then (Raise (BatchErrorException "TaskExists"),
              with_requests (λ t, t ++ [ReqTaskAdd job_id task]) w)
        else (Return tt,
              with_jobs (insert job_id
                {| job_pool := job_pool j;
                   job_tasks := <[models.task_id task := task]> (job_tasks j) |})
                (with_requests (λ t, t ++ [ReqTaskAdd job_id task]) w))
    end.
Proof.
  unfold batch_client.task_add. run_world. simpl_world.
  destruct (jobs w !! job_id) as [j|]; [|reflexivity].
  destruct (bool_decide _); reflexivity.
Qed.

End Task.

(** X21: [add_task] uploads before it schedules.  For a case whose base
    name the ledger knows, the RuntimeError of the duplicate case comes out
    of [add_task] and nothing else happens: no blob is uploaded, no task is
    sent to the job service, and the world is as it was. *)
Theorem add_task_known_case `{Pickle} (w : World) (case : string) (parent : Path) :
  let base_name := os_path.basename (case_path (base w) case) in
  uploaded_dirs (self (base w)) !! base_name = Some parent →
  add_task case w = (Raise (RuntimeError (CaseExists base_name)), w).
Proof.
  intros base_name Hknown.
  rewrite (add_task_upload_raises w case _ _
             (upload_dir_known_case (base w) case parent Hknown)).
  by rewrite with_base_id.
Qed.

Lemma add_task_known_case_witness :
  @add_task digits_pickle "case"
    (Scenario.with_job (Scenario.world_of Example.staged))
  = (Raise (RuntimeError (CaseExists "case")),
     Scenario.with_job (Scenario.world_of Example.staged)).
Proof.
  apply (@add_task_known_case digits_pickle
           (Scenario.with_job (Scenario.world_of Example.staged))
           "case" ["home"; "u"]).
  vm_compute. reflexivity.
Defined.

(** X22: [add_task] of a new case, on a controller with a session and a
    job that has no task of that name: the case is staged, and then one
    task is added to the mission's job.  The task has the base name of the
    case for its id; its resource files are the blobs of the session's
    container under the prefix of the case, and for every file of the
    case directory there is a blob under that prefix whose name leads back
    to the file; its output goes to the same container.  The same call
    again is refused as a duplicate case and adds no second task. *)
Theorem add_task_stages_then_schedules `{Pickle} (w : World) (case : string)
    (blobs : gmap string string) (j : JobEntry) :
  let p := case_path (base w) case in
  let base_name := os_path.basename p in
  let job_id := job_name (info (self (base w))) in
  let task := task_of (container_url (self (base w))) base_name in
  session_established (base w) →
  uploaded_dirs (self (base w)) !! base_name = None →
  mission_blobs (base w) = Some blobs →
  refused_blobs (storage (base w)) = ∅ →
  scratch_writable (base w) →
  fs_wf (local (base w)) →
  p ≠ [] →
  jobs w !! job_id = Some j →
  job_tasks j !! base_name = None →
  ∃ w' blobs',
    add_task case w = (Return tt, w') ∧
    jobs w'
    = <[job_id := {| job_pool := job_pool j;
                     job_tasks := <[base_name := task]> (job_tasks j) |}]> (jobs w) ∧
    requests w' = requests w ++ [ReqTaskAdd job_id task] ∧
    mission_blobs (base w') = Some blobs' ∧
    (∀ q c, files (local (base w)) !! q = Some c → p `prefix_of` q → q ≠ p →
       ∃ b, is_Some (blobs' !! b) ∧
            starts_with (base_name +:+ "/") b = true ∧
            os_path.join (os_path.dirname p) b = q) ∧
    add_task case w' = (Raise (RuntimeError (CaseExists base_name)), w').
Proof.
  intros p base_name job_id task Hsession Hnew Hb Hrefused Hwritable Hwf Hp
    Hjob Htask.
  destruct (upload_dir_state (base w) case blobs Hsession Hnew Hb Hrefused
              Hwritable Hwf)
    as (st1 & Hrun & Hself & Hlocal & _ & Hcont).
  fold p base_name in Hself, Hcont.
  assert (Hcase : os_path.abspath (cwd (local st1)) case = p).
  { by rewrite Hlocal. }
  assert (Hinfo : info (self st1) = info (self (base w))) by by rewrite Hself.
  assert (Hurl : container_url (self st1) = container_url (self (base w)))
    by by rewrite Hself.
  eexists _, _. split.
  { rewrite (add_task_after_upload w case st1 Hrun).
    rewrite Hcase, Hinfo, Hurl. fold base_name job_id task.
    rewrite task_add_run. simpl_world. rewrite Hjob.
    change (models.task_id task) with base_name.
    rewrite bool_decide_false by (rewrite Htask; by intros [? ?]).
    reflexivity. }
  simpl_world. split; [reflexivity|]. split; [reflexivity|]. split.
  { apply mission_blobs_containers. rewrite Hcont, Hinfo.
    apply lookup_insert_eq. }
  split.
  { intros q c Hq Hprefix Hne. exists (blob_name_of p q).
    pose proof (staged_blob_present (local (base w)) p blobs
                  (pickle_dumps (uploaded_dirs (self st1))) q c
                  Hwf Hp Hq Hprefix Hne) as Hin.
    apply elem_of_blobs_under in Hin as [Hsome Hunder].
    split; [exact Hsome|]. split; [exact Hunder|].
    by apply (join_blob_name (local (base w)) p q c). }
  match goal with |- add_task case ?w' = _ =>
    rewrite (add_task_upload_raises w' case
               (RuntimeError (CaseExists base_name)) st1)
  end.
  - simpl_world. reflexivity.
  - simpl_world.
    pose proof (upload_dir_known_case st1 case (os_path.dirname p)) as Hdup.
    unfold case_path in Hdup. rewrite Hcase in Hdup. apply Hdup.
    rewrite Hself. simpl_state. apply lookup_insert_eq.
Qed.

Lemma add_task_stages_then_schedules_witness :
  ∃ w' blobs',
    @add_task digits_pickle "case"
      (Scenario.with_job (Scenario.world_of Example.provisioned))
    = (Return tt, w') ∧
    jobs w'
    = {[ "job" :=
           {| job_pool := "pool";
              job_tasks :=
                {[ "case" :=
                     task_of (container_url (self Example.provisioned)) "case" ]} |} ]} ∧
    mission_blobs (base w') = Some blobs' ∧
    (∃ b, is_Some (blobs' !! b) ∧ starts_with "case/" b = true ∧
          os_path.join ["home"; "u"] b = ["home"; "u"; "case"; "sub"; "b.txt"]).
Proof.
  destruct (@add_task_stages_then_schedules digits_pickle
              (Scenario.with_job (Scenario.world_of Example.provisioned))
              "case" ∅ {| job_pool := "pool"; job_tasks := ∅ |})
    as (w' & blobs' & Hrun & Hjobs & _ & Hblobs & Hfiles & _).
  - split; vm_compute; discriminate.
  - vm_compute. reflexivity.
  - vm_compute. reflexivity.
  - vm_compute. reflexivity.
  - split; vm_compute; reflexivity.
  - apply (bool_decide_unpack (fs_wf _)). vm_compute. exact I.
  - vm_compute. discriminate.
  - vm_compute. reflexivity.
  - reflexivity.
  - exists w', blobs'. split; [exact Hrun|].
    split; [rewrite Hjobs; vm_compute; reflexivity|].
    split; [exact Hblobs|].
    destruct (Hfiles ["home"; "u"; "case"; "sub"; "b.txt"] "beta")
      as (b & Hsome & Hunder & Hjoin).
    + vm_compute. reflexivity.
    + exists ["sub"; "b.txt"]. vm_compute. reflexivity.
    + vm_compute. discriminate.
    + exists b. split; [exact Hsome|].
      assert (Hprefix : os_path.basename
                          (case_path (base (Scenario.with_job
                             (Scenario.world_of Example.provisioned))) "case")
                        +:+ "/" = "case/") by (vm_compute; reflexivity).
      assert (Hparent : os_path.dirname
                          (case_path (base (Scenario.with_job
                             (Scenario.world_of Example.provisioned))) "case")
                        = ["home"; "u"]) by (vm_compute; reflexivity).
      rewrite Hprefix in Hunder. rewrite Hparent in Hjoin.
      split; [exact Hunder|exact Hjoin].
Defined.

(** X23: [add_task] cannot be tried again after the job service refused
    the task.  When the mission's job does not exist yet, [add_task] of a
    new case stages the case and records it in the ledger, and then raises
    the error of the missing job.  After [_create_job] has made the job,
    the same [add_task] is refused as a duplicate case, and the job has no
    task. *)
Theorem add_task_not_retryable `{Pickle} (w : World) (case : string)
    (blobs : gmap string string) :
  let p := case_path (base w) case in
  let base_name := os_path.basename p in
  let job_id := job_name (info (self (base w))) in
  session_established (base w) →
  uploaded_dirs (self (base w)) !! base_name = None →
  mission_blobs (base w) = Some blobs →
  refused_blobs (storage (base w)) = ∅ →
  scratch_writable (base w) →
  fs_wf (local (base w)) →
  jobs w !! job_id = None →
  job_id ∉ refused_jobs w →
  ∃ w1 w2,
    add_task case w = (Raise (BatchErrorException "JobNotFound"), w1) ∧
    uploaded_dirs (self (base w1)) !! base_name = Some (os_path.dirname p) ∧
    _create_job w1 = (Return tt, w2) ∧
    add_task case w2 = (Raise (RuntimeError (CaseExists base_name)), w2) ∧
    jobs w2 = <[job_id := {| job_pool := pool_name (info (self (base w)));
                             job_tasks := ∅ |}]> (jobs w).
Proof.
  intros p base_name job_id Hsession Hnew Hb Hrefused Hwritable Hwf
    Hjob Hok.
  destruct (upload_dir_state (base w) case blobs Hsession Hnew Hb Hrefused
              Hwritable Hwf)
    as (st1 & Hrun & Hself & Hlocal & _).
  fold p base_name in Hself.
  assert (Hcase : os_path.abspath (cwd (local st1)) case = p).
  { by rewrite Hlocal. }
  assert (Hinfo : info (self st1) = info (self (base w))) by by rewrite Hself.
  assert (Hledger : uploaded_dirs (self st1) !! base_name
                    = Some (os_path.dirname p)).
  { rewrite Hself. simpl_state. apply lookup_insert_eq. }
  eexists _, _. split.
  { rewrite (add_task_after_upload w case st1 Hrun).
    rewrite Hcase, Hinfo. fold base_name job_id.
    rewrite task_add_run. simpl_world. rewrite Hjob. reflexivity. }
  simpl_world. split; [exact Hledger|]. split.
  { rewrite create_job_new; simpl_world; rewrite ?Hinfo; [reflexivity|done..]. }
  simpl_world. split; [|by rewrite ?Hinfo].
  match goal with |- add_task case ?w' = _ =>
    rewrite (add_task_upload_raises w' case
               (RuntimeError (CaseExists base_name)) st1)
  end.
  - simpl_world. reflexivity.
  - simpl_world.
    pose proof (upload_dir_known_case st1 case (os_path.dirname p)) as Hdup.
    unfold case_path in Hdup. rewrite Hcase in Hdup. by apply Hdup.
Qed.

Lemma add_task_not_retryable_witness :
  ∃ w1 w2,
    @add_task digits_pickle "case" (Scenario.world_of Example.provisioned)
    = (Raise (BatchErrorException "JobNotFound"), w1) ∧
    uploaded_dirs (self (base w1)) !! "case" = Some ["home"; "u"] ∧
    _create_job w1 = (Return tt, w2) ∧
    @add_task digits_pickle "case" w2
    = (Raise (RuntimeError (CaseExists "case")), w2).
Proof.
  destruct (@add_task_not_retryable digits_pickle
              (Scenario.world_of Example.provisioned) "case" ∅)
    as (w1 & w2 & Hrun & Hledger & Hjob & Hagain & _).
  - split; vm_compute; discriminate.
  - vm_compute. reflexivity.
  - vm_compute. reflexivity.
  - vm_compute. reflexivity.
  - split; vm_compute; reflexivity.
  - apply (bool_decide_unpack (fs_wf _)). vm_compute. exact I.
  - vm_compute. reflexivity.
  - apply not_elem_of_empty.
  - exists w1, w2. split; [exact Hrun|]. split; [exact Hledger|].
    split; [exact Hjob|exact Hagain].
Defined.

(** X24: a steady pool of another size.  When the mission's pool exists,
    is steady and has another number of nodes than the mission asks for,
    [_create_pool] sends the resize straight after its look: no stop and
    no wait.  It returns with the pool resizing towards the mission's
    number of nodes. *)
Theorem create_pool_resizes_steady_pool (fuel : nat) (st : State) (p : PoolEntry) :
  batch st !! pool_name (info (self st)) = Some p →
  target_dedicated_nodes (cloud p) ≠ n_nodes (info (self st)) →
  allocation_state (cloud p) = steady →
  ∃ st',
    _create_pool fuel st = (Return tt, st') ∧
    batch st' !! pool_name (info (self st))
    = Some {| cloud := {| target_dedicated_nodes := n_nodes (info (self st));
                          allocation_state := resizing |};
              entry_vm_size := entry_vm_size p;
              unsettled_polls := unsettled_polls p |} ∧
    trace st'
    = trace st
      ++ [EvPoolExists (pool_name (info (self st)));
          EvPoolGet (pool_name (info (self st))) (Some (cloud p));
          resize_request (info (self st))].
Proof.
  intros Hp Htarget Hstate.
  assert (Hobs : pool.observe p = p).
  { unfold pool.observe. by rewrite Hstate. }
  unfold _create_pool, pool.exists_, pool.get. run. cbn.
  rewrite Hp. rewrite bool_decide_true by eauto.
  run. cbn. rewrite Hp. run. rewrite Hobs.
  rewrite bool_decide_true by done.
  rewrite bool_decide_false by (rewrite Hstate; done). run.
  unfold pool.resize. run. cbn. rewrite lookup_insert_eq.
  rewrite bool_decide_true by done. run.
  eexists. split; [reflexivity|]. cbn.
  split; [by rewrite lookup_insert_eq|].
  rewrite <- !app_assoc. reflexivity.
Qed.

Lemma create_pool_resizes_steady_pool_witness :
  ∃ st',
    _create_pool 0 Scenario.small_pool = (Return tt, st') ∧
    batch st' !! "pool"
    = Some {| cloud := {| target_dedicated_nodes := 4;
                          allocation_state := resizing |};
              entry_vm_size := "STANDARD_A1"; unsettled_polls := O |} ∧
    trace st'
    = [EvPoolExists "pool";
       EvPoolGet "pool" (Some {| target_dedicated_nodes := 2;
                                 allocation_state := steady |});
       resize_request Example.mission].
Proof.
  apply (create_pool_resizes_steady_pool 0 Scenario.small_pool
           {| cloud := {| target_dedicated_nodes := 2;
                          allocation_state := steady |};
              entry_vm_size := "STANDARD_A1"; unsettled_polls := O |}).
  - reflexivity.
  - vm_compute. discriminate.
  - reflexivity.
Defined.

(** X25: [add_task] of a path that is no directory schedules a task
    without input.  The upload walks nothing and the call goes on: on a
    controller with a session and a job, it returns with the task added to
    the job, while no blob is stored under the prefix that the task names
    as its resource files (when none was before). *)
Theorem add_task_of_no_directory `{Pickle} (w : World) (case : string)
    (blobs : gmap string string) (j : JobEntry) :
  let p := case_path (base w) case in
  let base_name := os_path.basename p in
  let job_id := job_name (info (self (base w))) in
  let task := task_of (container_url (self (base w))) base_name in
  session_established (base w) →
  uploaded_dirs (self (base w)) !! base_name = None →
  mission_blobs (base w) = Some blobs →
  scratch_writable (base w) →
  "uploaded_dirs.dat" ∉ refused_blobs (storage (base w)) →
  os.isdir_in (local (base w)) p = false →
  blobs_under (base_name +:+ "/") blobs = [] →
  jobs w !! job_id = Some j →
  job_tasks j !! base_name = None →
  ∃ w' blobs',
    add_task case w = (Return tt, w') ∧
    jobs w'
    = <[job_id := {| job_pool := job_pool j;
                     job_tasks := <[base_name := task]> (job_tasks j) |}]> (jobs w) ∧
    mission_blobs (base w') = Some blobs' ∧
    models.blob_prefix <$> models.resource_files task = [base_name +:+ "/"] ∧
    blobs_under (base_name +:+ "/") blobs' = [].
Proof.
  intros p base_name job_id task Hsession Hnew Hb Hwritable Hok Hnodir
    Hnone Hjob Htask.
  destruct (upload_dir_no_directory_state (base w) case blobs Hsession Hnew Hb
              Hwritable Hok Hnodir)
    as (st1 & Hrun & Hself & Hlocal & Hblobs & _).
  fold p base_name in Hself.
  assert (Hcase : os_path.abspath (cwd (local st1)) case = p).
  { by rewrite Hlocal. }
  assert (Hinfo : info (self st1) = info (self (base w))) by by rewrite Hself.
  assert (Hurl : container_url (self st1) = container_url (self (base w)))
    by by rewrite Hself.
  eexists _, _. split.
  { rewrite (add_task_after_upload w case st1 Hrun).
    rewrite Hcase, Hinfo, Hurl. fold base_name job_id task.
    rewrite task_add_run. simpl_world. rewrite Hjob.
    change (models.task_id task) with base_name.
    rewrite bool_decide_false by (rewrite Htask; by intros [? ?]).
    reflexivity. }
  simpl_world. split; [reflexivity|]. split; [exact Hblobs|].
  split; [reflexivity|].
  apply elem_of_nil_inv. intros b [Hsome Hunder]%elem_of_blobs_under.
  destruct (decide (b = "uploaded_dirs.dat")) as [->|Hne].
  - by rewrite ledger_blob_outside_prefix in Hunder.
  - rewrite lookup_insert_ne in Hsome by done.
    assert (Hin : b ∈ blobs_under (base_name +:+ "/") blobs)
      by by apply elem_of_blobs_under.
    rewrite Hnone in Hin. by apply elem_of_nil in Hin.
Qed.

Lemma add_task_of_no_directory_witness :
  ∃ w' blobs',
    @add_task digits_pickle "nowhere"
      (Scenario.with_job (Scenario.world_of Example.provisioned))
    = (Return tt, w') ∧
    (∃ job, jobs w' !! "job" = Some job ∧ is_Some (job_tasks job !! "nowhere")) ∧
    mission_blobs (base w') = Some blobs' ∧
    blobs_under "nowhere/" blobs' = [].
Proof.
  destruct (@add_task_of_no_directory digits_pickle
              (Scenario.with_job (Scenario.world_of Example.provisioned))
              "nowhere" ∅ {| job_pool := "pool"; job_tasks := ∅ |})
    as (w' & blobs' & Hrun & Hjobs & Hblobs & _ & Hnone).
  - split; vm_compute; discriminate.
  - vm_compute. reflexivity.
  - vm_compute. reflexivity.
  - split; vm_compute; reflexivity.
  - assert (Hrefused : refused_blobs (storage (base (Scenario.with_job
              (Scenario.world_of Example.provisioned)))) = ∅)
      by (vm_compute; reflexivity).
    rewrite Hrefused. apply not_elem_of_empty.
  - vm_compute. reflexivity.
  - vm_compute. reflexivity.
  - vm_compute. reflexivity.
  - reflexivity.
  - exists w', blobs'. split; [exact Hrun|]. split.
    { eexists. rewrite Hjobs. split; [apply lookup_insert_eq|].
      cbn [job_tasks]. rewrite lookup_insert_eq. eauto. }
    split; [exact Hblobs|].
    assert (Hprefix : os_path.basename (case_path (base (Scenario.with_job
                          (Scenario.world_of Example.provisioned))) "nowhere")
                      +:+ "/" = "nowhere/") by (vm_compute; reflexivity).
    rewrite Hprefix in Hnone. exact Hnone.
Defined.

(** ** What staging and purging leave as it is *)

Section Yields.

Context {A B : Type}.
Implicit Types (I : State → Prop).

Lemma keeps_bind_yields I (Q : A → Prop) (m : M A) (k : A → M B) :
  yields I Q m → (∀ a, Q a → keeps I (k a)) → keeps I (m ≫= k).
Proof.
  intros Hm Hk s r s' Hs. rewrite run_bind.
  destruct (m s) as [[a|e|] s1] eqn:Hrun.
  - destruct (Hm s _ _ Hs Hrun) as [Hs1 Hq]. apply (Hk a); [by apply Hq|done].
  - intros [= <- <-]. by apply (Hm s _ _ Hs Hrun).
  - intros [= <- <-]. by apply (Hm s _ _ Hs Hrun).
Qed.

Lemma yields_gets I (Q : A → Prop) (f : State → A) :
  (∀ s, I s → Q (f s)) → yields I Q (gets f).
Proof.
  intros Hq s r s' Hs [= <- <-]. split; [done|].
  intros a [= <-]. by apply Hq.
Qed.

Lemma keeps_modify I (f : State → State) :
  (∀ s, I s → I (f s)) → keeps I (modify f).
Proof. intros Hf s r s' Hs [= <- <-]. by apply Hf. Qed.

End Yields.

Lemma keeps_for_each_Forall {A : Type} (I : State → Prop) (P : A → Prop)
    (l : list A) (body : A → M unit) :
  (∀ x, P x → keeps I (body x)) → Forall P l → keeps I (for_each l body).
Proof.
  intros Hbody. induction 1 as [|x l Hx Hl IH]; cbn [for_each].
  - apply keeps_mret.
  - apply keeps_bind; [by apply Hbody|]. intros _. exact IH.
Qed.

Lemma keeps_assert (I : State → Prop) (cond : bool) : keeps I (py_assert cond).
Proof. destruct cond; [apply keeps_mret|apply keeps_raise]. Qed.

Section ClosedForms.

Implicit Types (s : State).

Lemma create_blob_from_path_run name b p s :
  storage_client.create_blob_from_path name b p s
  = match files (local s) !! p with
    | None => (Raise (FileNotFoundError p), s)
    | Some content =>
        match storage_client.blobs_of (storage s) name with
        | None =>
            (Raise (AzureMissingResourceHttpError "ContainerNotFound"),
             with_trace (λ t, t ++ [EvCreateBlob name b p]) s)
        | Some blobs =>
            if bool_decide (b ∈ refused_blobs (storage s))
            then (Raise (AzureHttpError "InternalError"),
                  with_trace (λ t, t ++ [EvCreateBlob name b p]) s)
            else (Return tt,
                  with_storage (λ account, set_containers
                      (<[name := Present (<[b := content]> blobs)]>
                         (containers account)) account)
                    (with_trace (λ t, t ++ [EvCreateBlob name b p]) s))
        end
    end.
Proof.
  unfold storage_client.create_blob_from_path, os.read_file,
    storage_client.require_container, storage_client.put_blobs. run.
  destruct (files (local s) !! p) as [content|]; [|reflexivity]. run.
  simpl_state.
  destruct (storage_client.blobs_of (storage s) name) as [blobs|];
    [|reflexivity].
  run. simpl_state. destruct (bool_decide _); reflexivity.
Qed.

Lemma delete_blob_closed name b s :
  storage_client.delete_blob name b s
  = match storage_client.blobs_of (storage s) name with
    | None =>
        (Raise (AzureMissingResourceHttpError "ContainerNotFound"),
         with_trace (λ t, t ++ [EvDeleteBlob name b]) s)
    | Some blobs =>
        if bool_decide (is_Some (blobs !! b))
        then (Return tt,
              with_storage (λ account, set_containers
                  (<[name := Present (delete b blobs)]> (containers account)) account)
                (with_trace (λ t, t ++ [EvDeleteBlob name b]) s))
        else (Raise (AzureMissingResourceHttpError "BlobNotFound"),
              with_trace (λ t, t ++ [EvDeleteBlob name b]) s)
    end.
Proof.
  unfold storage_client.delete_blob, storage_client.require_container,
    storage_client.put_blobs. run. simpl_state.
  destruct (storage_client.blobs_of (storage s) name) as [blobs|];
    [|reflexivity].
  run. destruct (bool_decide _); reflexivity.
Qed.

Lemma list_blobs_closed name prefix num_results s :
  storage_client.list_blobs name prefix num_results s
  = match storage_client.blobs_of (storage s) name with
    | None =>
        (Raise (AzureMissingResourceHttpError "ContainerNotFound"),
         with_trace (λ t, t ++ [EvListBlobs name prefix num_results]) s)
    | Some blobs =>
        (Return (take (Z.to_nat num_results) (blobs_under prefix blobs)),
         with_trace (λ t, t ++ [EvListBlobs name prefix num_results]) s)
    end.
Proof.
  unfold storage_client.list_blobs, storage_client.require_container. run.
  simpl_state.
  destruct (storage_client.blobs_of (storage s) name) as [blobs|]; reflexivity.
Qed.

Lemma remove_run p s :
  os.remove p s
  = if bool_decide (is_Some (files (local s) !! p))
    then (Return tt,
          with_local (set_files (delete p (files (local s)))) s)
    else (Raise (FileNotFoundError p), s).
Proof.
  unfold os.remove. run. destruct (bool_decide _); reflexivity.
Qed.

Lemma blobs_of_Some (account : Storage) name blobs :
  storage_client.blobs_of account name = Some blobs ↔
  containers account !! name = Some (Present blobs).
Proof.
  unfold storage_client.blobs_of.
  destruct (containers account !! name) as [[b|n]|]; split; intros Heq;
    try discriminate; congruence.
Qed.

End ClosedForms.

Section Staged.

Context `{Pickle}.
Variable st : State.
Implicit Types (s : State).

Lemma only_staged_refl : only_staged st st.
Proof.
  repeat split; try done.
  - intros name blobs Hc. exists blobs. done.
  - exists []. by rewrite app_nil_r.
Qed.

Lemma staged_trace s ev :
  is_blob_upload ev = true →
  only_staged st s → only_staged st (with_trace (λ t, t ++ [ev]) s).
Proof.
  intros Hev (? & ? & ? & ? & ? & ? & ? & ? & ? & ? & evs & Htrace & Hevs).
  repeat split; try done. exists (evs ++ [ev]). simpl_state. split.
  - by rewrite Htrace, app_assoc.
  - apply Forall_app. split; [done|]. by apply Forall_singleton.
Qed.

Lemma staged_put s name b content blobs :
  storage_client.blobs_of (storage s) name = Some blobs →
  only_staged st s →
  only_staged st
    (with_storage (λ account, set_containers
        (<[name := Present (<[b := content]> blobs)]> (containers account))
        account) s).
Proof.
  intros Hb%blobs_of_Some
    (? & ? & ? & ? & ? & ? & ? & ? & ? & Hblobs & ?).
  repeat split; try done. simpl_state. intros name' blobs0 Hc.
  destruct (Hblobs name' blobs0 Hc) as (blobs1 & Hc1 & Hmono).
  destruct (decide (name' = name)) as [->|Hne].
  - rewrite lookup_insert_eq. eexists. split; [reflexivity|].
    intros k Hk. apply lookup_insert_is_Some'. right.
    assert (blobs1 = blobs) as -> by congruence. by apply Hmono.
  - rewrite lookup_insert_ne by done. eauto.
Qed.

Lemma staged_files s (fs : gmap Path string) :
  (∀ q, q ≠ scratch_path st → fs !! q = files (local s) !! q) →
  only_staged st s → only_staged st (with_local (set_files fs) s).
Proof.
  intros Hfs (? & ? & ? & ? & ? & ? & ? & ? & Hfiles & ? & ?).
  repeat split; try done. simpl_state. intros q Hq.
  rewrite Hfs by done. by apply Hfiles.
Qed.

Lemma staged_create_blob name b p :
  keeps (only_staged st) (storage_client.create_blob_from_path name b p).
Proof.
  intros s r s' Hs. rewrite create_blob_from_path_run.
  destruct (files (local s) !! p) as [content|]; [|by intros [= <- <-]].
  destruct (storage_client.blobs_of (storage s) name) as [blobs|] eqn:Hb.
  - destruct (bool_decide _); intros [= <- <-].
    + by apply staged_trace.
    + apply (staged_put _ _ _ _ blobs); [exact Hb|]. by apply staged_trace.
  - intros [= <- <-]. by apply staged_trace.
Qed.

Lemma staged_scratch_path s :
  only_staged st s → os_path.resolve (cwd (local s)) "uploaded_dirs.dat"
                     = scratch_path st.
Proof.
  intros (_ & _ & _ & _ & _ & _ & Hcwd & _). unfold scratch_path.
  by rewrite Hcwd.
Qed.

Lemma staged_write_scratch content :
  keeps (only_staged st) (os.write_file (scratch_path st) content).
Proof.
  intros s r s' Hs. rewrite write_file_run.
  destruct (os.isdir_in (local s) (scratch_path st)); [by intros [= <- <-]|].
  destruct (os.isdir_in (local s) (os_path.dirname (scratch_path st)));
    intros [= <- <-]; [|done].
  apply staged_files; [|done]. intros q Hq. by rewrite lookup_insert_ne.
Qed.

Lemma staged_remove_scratch :
  keeps (only_staged st) (os.remove (scratch_path st)).
Proof.
  intros s r s' Hs. rewrite remove_run.
  destruct (bool_decide _); intros [= <- <-]; [|done].
  apply staged_files; [|done]. intros q Hq. by rewrite lookup_delete_ne.
Qed.

Lemma staged_persist : keeps (only_staged st) persist_uploaded_dirs.
Proof.
  unfold persist_uploaded_dirs, self_info.
  apply keeps_bind; [apply keeps_gets|]. intros i.
  apply (keeps_bind_yields _ (λ scratch, scratch = scratch_path st)).
  { apply yields_gets. intros s Hs. by apply staged_scratch_path. }
  intros scratch ->.
  apply keeps_bind; [apply keeps_gets|]. intros d.
  apply keeps_bind; [apply staged_write_scratch|]. intros _.
  apply keeps_bind; [apply staged_create_blob|]. intros _.
  apply staged_remove_scratch.
Qed.

Lemma staged_upload_dir dir_path : keeps (only_staged st) (_upload_dir dir_path).
Proof.
  unfold _upload_dir, self_info.
  apply keeps_bind; [apply keeps_gets|]. intros i.
  apply keeps_bind; [apply keeps_gets|]. intros p.
  apply keeps_bind; [apply keeps_gets|]. intros d.
  destruct (bool_decide (is_Some (d !! os_path.basename p)));
    [apply keeps_raise|].
  apply keeps_bind; [apply keeps_gets|]. intros url.
  apply keeps_bind; [apply keeps_assert|]. intros _.
  apply keeps_bind; [apply keeps_gets|]. intros token.
  apply keeps_bind; [apply keeps_assert|]. intros _.
  apply keeps_bind; [apply keeps_gets|]. intros walked.
  apply keeps_bind.
  { apply keeps_for_each. intros [dirpath names].
    apply keeps_for_each. intros f. apply staged_create_blob. }
  intros _. apply keeps_bind; [|intros _; apply staged_persist].
  apply keeps_modify.
  intros s (? & ? & ? & Hledger & ? & ? & ? & ? & ? & ? & ?).
  repeat split; try done. simpl_state. intros k Hk.
  apply lookup_insert_is_Some'. right. by apply Hledger.
Qed.

End Staged.

(** X26: [_upload_dir] only stages.  Whatever its argument and the state,
    and whether it returns or raises on the way, afterwards no blob of any
    container is gone and no entry of the ledger is dropped; the
    controller's mission and session, the batch account and the clock are
    as they were; on the machine nothing changed but the file
    [uploaded_dirs.dat] of the working directory; and every request it
    sent was the upload of a blob. *)
Theorem upload_dir_only_stages `{Pickle} (st : State) (dir_path : string) :
  only_staged st (_upload_dir dir_path st).2.
Proof.
  apply (staged_upload_dir st dir_path st (_upload_dir dir_path st).1).
  - apply only_staged_refl.
  - apply surjective_pairing.
Qed.

Section Purged.

Context `{Pickle}.
Variable st : State.
Variable prefix : string.
Implicit Types (s : State).

Lemma only_purged_refl : only_purged prefix st st.
Proof.
  repeat split; try done.
  - intros name blobs Hc. exists blobs. done.
  - exists []. by rewrite app_nil_r.
Qed.

Lemma purged_trace s ev :
  is_purge_request prefix ev = true →
  only_purged prefix st s → only_purged prefix st (with_trace (λ t, t ++ [ev]) s).
Proof.
  intros Hev (? & ? & ? & ? & ? & ? & ? & ? & ? & ? & evs & Htrace & Hevs).
  repeat split; try done. exists (evs ++ [ev]). simpl_state. split.
  - by rewrite Htrace, app_assoc.
  - apply Forall_app. split; [done|]. by apply Forall_singleton.
Qed.

(** The blobs of the mission's container are replaced by blobs that differ
    under the prefix or in the ledger blob only. *)
Lemma purged_put s (blobs blobs' : gmap string string) :
  storage_client.blobs_of (storage s) (container_name (info (self st)))
  = Some blobs →
  (∀ b, starts_with prefix b = false → b ≠ "uploaded_dirs.dat" →
        blobs' !! b = blobs !! b) →
  only_purged prefix st s →
  only_purged prefix st
    (with_storage (λ account, set_containers
        (<[container_name (info (self st)) := Present blobs']>
           (containers account)) account) s).
Proof.
  intros Hb%blobs_of_Some Hsame
    (? & ? & ? & ? & ? & ? & ? & ? & ? & Hblobs & ?).
  repeat split; try done. simpl_state. intros name' blobs0 Hc.
  destruct (Hblobs name' blobs0 Hc) as (blobs1 & Hc1 & Hother & Hkept).
  destruct (decide (name' = container_name (info (self st)))) as [->|Hne].
  - rewrite lookup_insert_eq. eexists. split; [reflexivity|].
    split; [done|]. intros b Hout Hb'.
    assert (blobs1 = blobs) as -> by congruence.
    rewrite Hsame by done. by apply Hkept.
  - rewrite lookup_insert_ne by done. eauto.
Qed.

Lemma purged_files s (fs : gmap Path string) :
  (∀ q, q ≠ scratch_path st → fs !! q = files (local s) !! q) →
  only_purged prefix st s → only_purged prefix st (with_local (set_files fs) s).
Proof.
  intros Hfs (? & ? & ? & ? & ? & ? & ? & ? & Hfiles & ? & ?).
  repeat split; try done. simpl_state. intros q Hq.
  rewrite Hfs by done. by apply Hfiles.
Qed.

Lemma purged_delete_blob b :
  starts_with prefix b = true →
  keeps (only_purged prefix st)
    (storage_client.delete_blob (container_name (info (self st))) b).
Proof.
  intros Hunder s r s' Hs. rewrite delete_blob_closed.
  destruct (storage_client.blobs_of (storage s) _) as [blobs|] eqn:Hb.
  - destruct (bool_decide _); intros [= <- <-].
    + apply (purged_put _ blobs); [exact Hb| |by apply purged_trace].
      intros k Hout _. apply lookup_delete_ne. congruence.
    + by apply purged_trace.
  - intros [= <- <-]. by apply purged_trace.
Qed.

Lemma purged_persist_blob p :
  keeps (only_purged prefix st)
    (storage_client.create_blob_from_path (container_name (info (self st)))
       "uploaded_dirs.dat" p).
Proof.
  intros s r s' Hs. rewrite create_blob_from_path_run.
  destruct (files (local s) !! p) as [content|]; [|by intros [= <- <-]].
  destruct (storage_client.blobs_of (storage s) _) as [blobs|] eqn:Hb.
  - destruct (bool_decide _); intros [= <- <-].
    + apply purged_trace; [|done]. cbn. by apply bool_decide_eq_true.
    + apply (purged_put _ blobs); [exact Hb| |].
      * intros k _ Hk. by apply lookup_insert_ne.
      * apply purged_trace; [|done]. cbn. by apply bool_decide_eq_true.
  - intros [= <- <-]. apply purged_trace; [|done]. cbn.
    by apply bool_decide_eq_true.
Qed.

Lemma purged_persist : keeps (only_purged prefix st) persist_uploaded_dirs.
Proof.
  unfold persist_uploaded_dirs, self_info.
  apply (keeps_bind_yields _ (λ i, i = info (self st))).
  { apply yields_gets. by intros s (? & _). }
  intros i ->.
  apply (keeps_bind_yields _ (λ scratch, scratch = scratch_path st)).
  { apply yields_gets. intros s (_ & _ & _ & _ & _ & _ & Hcwd & _).
    unfold scratch_path. by rewrite Hcwd. }
  intros scratch ->.
  apply keeps_bind; [apply keeps_gets|]. intros d.
  apply keeps_bind.
  { intros s r s' Hs. rewrite write_file_run.
    destruct (os.isdir_in (local s) (scratch_path st)); [by intros [= <- <-]|].
    destruct (os.isdir_in (local s) (os_path.dirname (scratch_path st)));
      intros [= <- <-]; [|done].
    apply purged_files; [|done]. intros q Hq. by rewrite lookup_insert_ne. }
  intros _. apply keeps_bind; [apply purged_persist_blob|]. intros _.
  intros s r s' Hs. rewrite remove_run.
  destruct (bool_decide _); intros [= <- <-]; [|done].
  apply purged_files; [|done]. intros q Hq. by rewrite lookup_delete_ne.
Qed.

End Purged.

Section PurgedDir.

Context `{Pickle}.

Lemma purged_delete_dir (st : State) dir_path ignore_not_exist :
  keeps (only_purged (case_prefix st dir_path) st)
    (_delete_dir dir_path ignore_not_exist).
Proof.
  unfold _delete_dir, self_info.
  apply (keeps_bind_yields _ (λ i, i = info (self st))).
  { apply yields_gets. by intros s (? & _). }
  intros i ->.
  apply (keeps_bind_yields _ (λ p, p = case_path st dir_path)).
  { apply yields_gets. intros s (_ & _ & _ & _ & _ & _ & Hcwd & _).
    unfold case_path. by rewrite Hcwd. }
  intros p ->.
  apply keeps_bind; [apply keeps_gets|]. intros url.
  apply keeps_bind; [apply keeps_assert|]. intros _.
  apply keeps_bind; [apply keeps_gets|]. intros token.
  apply keeps_bind; [apply keeps_assert|]. intros _.
  apply keeps_bind; [apply keeps_gets|]. intros d.
  destruct (negb (bool_decide (is_Some (d !! _)))).
  { destruct (negb ignore_not_exist); [apply keeps_raise|apply keeps_mret]. }
  fold (case_prefix st dir_path).
  apply (keeps_bind_yields _
           (Forall (λ b, starts_with (case_prefix st dir_path) b = true))).
  { intros s r s' Hs. rewrite list_blobs_closed.
    destruct (storage_client.blobs_of (storage s) _) as [blobs|];
      intros [= <- <-].
    - split; [by apply purged_trace|]. intros l [= <-].
      apply Forall_take, Forall_forall.
      by intros b [_ ?]%elem_of_blobs_under.
    - split; [by apply purged_trace|]. discriminate. }
  intros blob_list Hlist.
  apply keeps_bind.
  { apply (keeps_for_each_Forall _ _ _ _ (purged_delete_blob st _) Hlist). }
  intros _.
  apply (keeps_bind_yields _ (λ d', d' ⊆ uploaded_dirs (self st))).
  { apply yields_gets. by intros s (_ & _ & _ & ? & _). }
  intros d' Hd'.
  apply keeps_bind.
  { unfold dict_get. destruct (d' !! _); [apply keeps_mret|apply keeps_raise]. }
  intros _. apply keeps_bind; [|intros _; apply purged_persist].
  apply keeps_modify.
  intros s (? & ? & ? & Hledger & ? & ? & ? & ? & ? & ? & ?).
  repeat split; try done. simpl_state.
  etrans; [apply delete_subseteq|exact Hd'].
Qed.

End PurgedDir.

(** X27: [_delete_dir] only purges its case.  Whatever its arguments and
    the state, and whether it returns or raises on the way, afterwards the
    other containers hold what they held, and in the mission's container
    every blob that is neither under the prefix of the case nor the ledger
    blob is as it was; the ledger has no entry that it did not have; the
    controller's mission and session, the batch account and the clock are
    as they were; on the machine nothing changed but the file
    [uploaded_dirs.dat] of the working directory; and the requests it sent
    were a listing, deletions of blobs under the prefix and the upload of
    the ledger blob. *)
Theorem delete_dir_only_purges `{Pickle} (st : State) (dir_path : string)
    (ignore_not_exist : bool) :
  only_purged (case_prefix st dir_path) st
    (_delete_dir dir_path ignore_not_exist st).2.
Proof.
  apply (purged_delete_dir st dir_path ignore_not_exist st
           (_delete_dir dir_path ignore_not_exist st).1).
  - apply only_purged_refl.
  - apply surjective_pairing.
Qed.

(** ** A file that the service refuses *)

Section RefusedFile.

Context `{Pickle}.
Implicit Types (s st : State).

(** The loop of [_upload_dir] when one of its blobs is refused: it stops at
    the first refusal, and the controller is as it was. *)
Lemma upload_loop_refused p name (qs : list Path) :
  ∀ s,
    (∀ q, q ∈ qs → is_Some (files (local s) !! q)) →
    is_Some (storage_client.blobs_of (storage s) name) →
    Exists (λ q, blob_name_of p q ∈ refused_blobs (storage s)) qs →
    ∃ s',
      for_each qs (λ q, storage_client.create_blob_from_path
                          name (blob_name_of p q) q) s
      = (Raise (AzureHttpError "InternalError"), s') ∧
      self s' = self s ∧ local s' = local s.
Proof.
  induction qs as [|q qs IH]; intros s Hfiles [blobs Hb] Hrefused.
  { by apply Exists_nil in Hrefused. }
  destruct (Hfiles q) as [content Hq]; [set_solver|].
  cbn [for_each]. rewrite run_bind, create_blob_from_path_run, Hq, Hb.
  destruct (decide (blob_name_of p q ∈ refused_blobs (storage s)))
    as [Hin|Hout].
  - rewrite bool_decide_true by done. eexists. split; [reflexivity|]. done.
  - rewrite bool_decide_false by done.
    apply Exists_cons in Hrefused as [?|Hrefused]; [done|].
    match goal with |- context [for_each qs _ ?s1] =>
      destruct (IH s1) as (s' & Hrun & Hself & Hlocal)
    end.
    + intros q' Hq'. simpl_state. apply Hfiles. set_solver.
    + simpl_state. unfold storage_client.blobs_of. simpl_state.
      rewrite lookup_insert_eq. eauto.
    + simpl_state. exact Hrefused.
    + exists s'. split; [exact Hrun|]. by rewrite Hself, Hlocal.
Qed.

End RefusedFile.

(** X28: a file whose upload the service refuses.  When the blob of one of
    the files of a new case is refused, [_upload_dir] raises the error of
    the service and stops there.  The ledger is not touched: the entry of
    the case is made only after every file went up, so the controller is
    as it was, and so is the machine; the same call can be made again and
    is not taken for a duplicate. *)
Theorem upload_dir_refused_file `{Pickle} (st : State) (dir_path : string)
    (blobs : gmap string string) (q : Path) :
  let p := case_path st dir_path in
  session_established st →
  uploaded_dirs (self st) !! os_path.basename p = None →
  mission_blobs st = Some blobs →
  fs_wf (local st) →
  q ∈ walked_paths (os.walk_in (local st) p) →
  blob_name_of p q ∈ refused_blobs (storage st) →
  ∃ st',
    _upload_dir dir_path st = (Raise (AzureHttpError "InternalError"), st') ∧
    self st' = self st ∧
    local st' = local st ∧
    uploaded_dirs (self st') !! os_path.basename (case_path st' dir_path) = None.
Proof.
  intros p [Hu Ht] Hnew Hb Hwf Hq Hrefused. unfold p, case_path in *.
  set (p' := os_path.abspath (cwd (local st)) dir_path) in *.
  destruct (upload_loop_refused p' (container_name (info (self st)))
              (walked_paths (os.walk_in (local st) p')) st)
    as (st' & Hloop & Hself & Hlocal).
  { intros q' Hq'. by apply (elem_of_walked_paths _ _ _ Hwf) in Hq' as [? _]. }
  { unfold mission_blobs in Hb. rewrite Hb. eauto. }
  { apply Exists_exists. eauto. }
  exists st'. split.
  { unfold _upload_dir. run. fold p'. rewrite Hnew.
    rewrite bool_decide_false by (intros [? ?]; done).
    run_deciding. unfold os.walk. run.
    erewrite run_bind_raise; [reflexivity|].
    etrans; [|exact Hloop].
    apply (walked_loops _ (λ q', storage_client.create_blob_from_path
                                   (container_name (info (self st)))
                                   (os_path.relpath q' (os_path.dirname p')) q')). }
  split; [exact Hself|]. split; [exact Hlocal|].
  by rewrite Hself, Hlocal.
Qed.

Lemma upload_dir_refused_file_witness :
  ∃ st',
    @_upload_dir digits_pickle "case" Scenario.refusing_a_file
    = (Raise (AzureHttpError "InternalError"), st') ∧
    self st' = self Scenario.refusing_a_file ∧
    uploaded_dirs (self st') !! "case" = None.
Proof.
  destruct (@upload_dir_refused_file digits_pickle Scenario.refusing_a_file
              "case" ∅ ["home"; "u"; "case"; "sub"; "b.txt"])
    as (st' & Hrun & Hself & _ & _).
  - split; vm_compute; discriminate.
  - vm_compute. reflexivity.
  - vm_compute. reflexivity.
  - apply (bool_decide_unpack (fs_wf _)). vm_compute. exact I.
  - apply (bool_decide_unpack _). vm_compute. exact I.
  - apply (bool_decide_unpack _). vm_compute. exact I.
  - exists st'. split; [exact Hrun|]. split; [exact Hself|].
    rewrite Hself. vm_compute. reflexivity.
Defined.

(** X29: recovering the ledger goes through the working directory.  When
    [_create_storage_container] finds the container with a ledger blob
    that unpickles, the container is only read (the storage account is as
    it was), and on the machine the file [uploaded_dirs.dat] of the
    working directory is gone afterwards, also when there was such a file
    before the call; every other file and every directory is as it
    was. *)
Theorem create_container_recovery_uses_scratch `{Pickle} (fuel : nat)
    (st : State) (blobs : gmap string string) (content : string)
    (ledger : gmap string Path) :
  mission_blobs st = Some blobs →
  blobs !! "uploaded_dirs.dat" = Some content →
  scratch_writable st →
  pickle_loads content = Some ledger →
  ∃ st',
    _create_storage_container fuel st = (Return tt, st') ∧
    storage st' = storage st ∧
    files (local st') !! scratch_path st = None ∧
    (∀ q, q ≠ scratch_path st → files (local st') !! q = files (local st) !! q) ∧
    dirs (local st') = dirs (local st) ∧
    cwd (local st') = cwd (local st).
Proof.
  intros Hb Hcontent Hwritable Hloads.
  destruct (create_storage_container_recovered fuel st blobs content ledger
              Hb Hcontent Hwritable Hloads)
    as (st' & Hrun & _ & _ & Hstorage & Hlocal).
  exists st'. split; [exact Hrun|]. split; [exact Hstorage|].
  rewrite Hlocal. simpl_state.
  split; [apply lookup_delete_eq|].
  split; [intros q Hq; by apply lookup_delete_ne|done].
Qed.

Lemma create_container_recovery_uses_scratch_witness :
  ∃ st',
    @_create_storage_container digits_pickle 0 Scenario.restarted_with_notes
    = (Return tt, st') ∧
    files (local Scenario.restarted_with_notes)
      !! ["home"; "u"; "uploaded_dirs.dat"] = Some "my notes" ∧
    files (local st') !! ["home"; "u"; "uploaded_dirs.dat"] = None ∧
    files (local st') !! ["home"; "u"; "case"; "a.txt"] = Some "alpha".
Proof.
  destruct (@create_container_recovery_uses_scratch digits_pickle 0
              Scenario.restarted_with_notes Example.staged_blobs
              (@pickle_dumps digits_pickle {[ "case" := ["home"; "u"] ]})
              {[ "case" := ["home"; "u"] ]})
    as (st' & Hrun & _ & Hgone & Hkept & _).
  - vm_compute. reflexivity.
  - vm_compute. reflexivity.
  - split; vm_compute; reflexivity.
  - vm_compute. reflexivity.
  - exists st'. split; [exact Hrun|].
    split; [vm_compute; reflexivity|].
    assert (Hscratch : scratch_path Scenario.restarted_with_notes
                       = ["home"; "u"; "uploaded_dirs.dat"])
      by (vm_compute; reflexivity).
    rewrite Hscratch in Hgone, Hkept. split; [exact Hgone|].
    rewrite Hkept by discriminate. vm_compute. reflexivity.
Defined.
